(** * Dual-provider image generation: error classifier, provider adapters
      and the fallback orchestrator

    A shallow embedding of [lib/providers/types.ts],
    [lib/providers/huggingface-provider.ts],
    [lib/providers/cloudflare-provider.ts], the provider manager,
    [lib/env.ts] and [lib/prompt-builder.ts], and of what serves them a
    request: [lib/time-utils.ts], [lib/input-utils.ts],
    [lib/server-rate-limiter.ts] and the handler of
    [app/api/generate/route.ts].

    Conventions.
    - A TypeScript optional field or an [undefined] value is an [option].
    - HTTP statuses and retry times are integers ([Z]); the retry times the
      adapters produce come out of [parseInt] behind an [isNaN] test.
    - A number is a double, and one that holds an integer is written as that
      integer. Where the code meets integers of any size ([parseInt],
      [String], [formatTime]) the rounding of doubles is written out
      ([Js.toDouble], [Js.floorDivide]); the magnitude 2^1024, which no
      finite double reaches, stands for [Infinity].
    - Code that touches the outside world (environment variables, [fetch])
      runs in a state monad over a [World]; every [fetch] is recorded there.
    - A [try]/[catch] is a match on a sum whose left side is the thrown
      value.
    - Strings are immutable, and no function of these files assigns to an
      options object or to a member of one: arguments are passed as
      values.
    - The module variables of the rate limiter are the state of a state
      monad, and each reading of [Date.now()] is an argument: a time value,
      not negative and at most 8.64e15, on which the sums, the differences
      and the rounded quotients of the limiter are exact. *)

From Stdlib Require Import ZArith List String Ascii Bool Lia QArith.
From Stdlib Require Import Decimal DecimalString DecimalZ DecimalPos DecimalN.
From ExtLib Require Import Structures.Monad Structures.MonadState.
From ExtLib Require Import Data.Monads.StateMonad.
Import ListNotations.
Import MonadNotation.
Local Open Scope monad_scope.
Local Open Scope string_scope.
Local Open Scope Z_scope.

(** ** JavaScript helpers *)

Module Js.

(** What a [throw] carries: an [Error] object with its [name] and
    [message], or some other value. *)
Inductive Thrown : Type :=
| JsError (name message : string)
| NonError.

(** [new Error(msg)] *)
Definition newError (msg : string) : Thrown := JsError "Error" msg.

(** Truthiness of a [string | undefined]. *)
Definition truthy (v : option string) : bool :=
  match v with
  | Some EmptyString => false
  | Some _ => true
  | None => false
  end.

(** [a || b] where [b] is a string. *)
Definition or_else (a : option string) (b : string) : string :=
  match a with
  | Some EmptyString => b
  | Some s => s
  | None => b
  end.

(** [a || b] where both sides may be [undefined]. *)
Definition or_opt (a b : option string) : option string :=
  if truthy a then a else b.

(** [a ?? b] *)
Definition nullish {A : Type} (a : option A) (b : A) : A :=
  match a with
  | Some x => x
  | None => b
  end.

(** [Infinity], as an integer: the least magnitude that rounds to it when
    ties go to the even neighbour is [2^1024 - 2^970], and what is rounded
    there would be [2^1024]. *)
Definition Infinity : Z := 2 ^ 1024.

(** The double nearest to an integer, ties to even: an integer of at most
    53 bits is a double; a longer one keeps its 53 leading bits, rounded on
    the bits it loses. *)
Definition toDouble (z : Z) : Z :=
  let a := Z.abs z in
  let e := Z.log2 a in
  if e <? 53 then z
  else
    let shift := e - 52 in
    let q := Z.shiftr a shift in
    let r := a - Z.shiftl q shift in
    let half := Z.shiftl 1 (shift - 1) in
    let q' := if ((half <? r) || ((r =? half) && Z.odd q))%bool
              then q + 1 else q in
    let v := Z.shiftl q' shift in
    Z.sgn z * (if Infinity <=? v then Infinity else v).

(** The integer nearest to [n / d], ties to even, for [0 <= n] and
    [0 < d]. *)
Definition nearestEven (n d : Z) : Z :=
  let m := n / d in
  let r := n mod d in
  if ((d <? 2 * r) || ((2 * r =? d) && Z.odd m))%bool then m + 1 else m.

(** [Math.floor(a / b)] for doubles that hold the integers [0 <= a] and
    [0 < b]. The quotient is rounded to a double before its floor is taken:
    with [2^e <= a / b < 2^(e + 1)] it is rounded to a multiple of
    [2^(e - 52)]. A quotient below one half stays below 1. *)
Definition floorDivide (a b : Z) : Z :=
  if 2 * a <? b then 0
  else
    let e := if a <? b then -1 else Z.log2 (a / b) in
    let s := 52 - e in
    if 0 <=? s then nearestEven (a * 2 ^ s) b / 2 ^ s
    else nearestEven a (b * 2 ^ (- s)) * 2 ^ (- s).

(** [parseInt(s, 10)]: leading white space is skipped, then an optional
    sign, then the longest run of decimal digits, whose value is rounded to
    a double; [None] is [NaN]. Among the code units below 256 the white
    space is 9 to 13, 32 and 160. *)
Definition isWhiteSpace (c : ascii) : bool :=
  let n := N_of_ascii c in
  (N.eqb n 32 || (N.leb 9 n && N.leb n 13) || N.eqb n 160)%bool.

Fixpoint skipWhiteSpace (s : string) : string :=
  match s with
  | String c s' => if isWhiteSpace c then skipWhiteSpace s' else s
  | EmptyString => s
  end.

Definition digitValue (c : ascii) : option Z :=
  let n := Z.of_N (N_of_ascii c) in
  if ((48 <=? n) && (n <=? 57))%bool then Some (n - 48) else None.

Fixpoint parseDigits (s : string) (acc : option Z) : option Z :=
  match s with
  | String c s' =>
      match digitValue c with
      | Some d => parseDigits s' (Some (10 * nullish acc 0 + d))
      | None => acc
      end
  | EmptyString => acc
  end.

Definition parseInt (s : string) : option Z :=
  option_map toDouble
    match skipWhiteSpace s with
    | String "-"%char s' => option_map Z.opp (parseDigits s' None)
    | String "+"%char s' => parseDigits s' None
    | s' => parseDigits s' None
    end.

(** [Buffer.from(bytes).toString('base64')]: three bytes give four
    characters of the standard alphabet; a last group of one or two bytes
    is padded with "=". *)
Definition base64Alphabet : string :=
  "ABCDEFGHIJKLMNOPQRSTUVWXYZabcdefghijklmnopqrstuvwxyz0123456789+/".

Definition base64Char (n : N) : ascii :=
  match String.get (N.to_nat n) base64Alphabet with
  | Some c => c
  | None => "="%char
  end.

Definition byteValue (b : Byte.byte) : N := Byte.to_N b.

Fixpoint toBase64 (bytes : list Byte.byte) : string :=
  match bytes with
  | a :: b :: c :: rest =>
      let n := (byteValue a * 65536 + byteValue b * 256 + byteValue c)%N in
      String (base64Char (n / 262144))
        (String (base64Char ((n / 4096) mod 64))
           (String (base64Char ((n / 64) mod 64))
              (String (base64Char (n mod 64)) (toBase64 rest))))
  | [a; b] =>
      let n := (byteValue a * 65536 + byteValue b * 256)%N in
      String (base64Char (n / 262144))
        (String (base64Char ((n / 4096) mod 64))
           (String (base64Char ((n / 64) mod 64)) "="))
  | [a] =>
      let n := (byteValue a * 65536)%N in
      String (base64Char (n / 262144))
        (String (base64Char ((n / 4096) mod 64)) "==")
  | [] => ""
  end.

End Js.

(** ** [types/index.ts] and [lib/prompt-builder.ts] *)

Inductive StylePreset : Type :=
| style_default
| style_warm
| style_monochrome
| style_pastel.

Record StyleConfig : Type := {
  styleName : string;
  colors : string * string;
  promptSuffix : string
}.

Definition STYLE_CONFIGS (style : StylePreset) : StyleConfig :=
  match style with
  | style_default =>
      {| styleName := "Default"; colors := ("#6366f1", "#3b82f6");
         promptSuffix := "blue tones" |}
  | style_warm =>
      {| styleName := "Warm"; colors := ("#f97316", "#ef4444");
         promptSuffix := "warm orange and red tones" |}
  | style_monochrome =>
      {| styleName := "Monochrome"; colors := ("#6b7280", "#374151");
         promptSuffix := "grayscale monochrome" |}
  | style_pastel =>
      {| styleName := "Pastel"; colors := ("#f9a8d4", "#a5b4fc");
         promptSuffix := "soft pastel colors" |}
  end.

Definition buildPrompt (userPrompt : string) (style : StylePreset) : string :=
  let styleConfig := STYLE_CONFIGS style in
  let basePrompt := "isometric 3D icon of " ++ userPrompt in
  basePrompt ++ ", " ++ promptSuffix styleConfig
    ++ ", clean background, minimalist design, high quality".

(** ** [lib/providers/types.ts] *)

Inductive ProviderName : Type :=
| huggingface
| cloudflare.

Inductive ProviderErrorCode : Type :=
| RATE_LIMIT
| TIMEOUT
| SERVICE_UNAVAILABLE
| SERVER_ERROR
| UNAUTHORIZED
| VALIDATION_ERROR
| PAYMENT_REQUIRED
| UNKNOWN.

Definition ProviderErrorCode_eqb (a b : ProviderErrorCode) : bool :=
  match a, b with
  | RATE_LIMIT, RATE_LIMIT
  | TIMEOUT, TIMEOUT
  | SERVICE_UNAVAILABLE, SERVICE_UNAVAILABLE
  | SERVER_ERROR, SERVER_ERROR
  | UNAUTHORIZED, UNAUTHORIZED
  | VALIDATION_ERROR, VALIDATION_ERROR
  | PAYMENT_REQUIRED, PAYMENT_REQUIRED
  | UNKNOWN, UNKNOWN => true
  | _, _ => false
  end.

Record ProviderError : Type := {
  code : ProviderErrorCode;
  message : string;
  retryAfter : option Z;
  shouldFallback : bool
}.

Record ProviderResult : Type := {
  success : bool;
  image : option string;
  error : option ProviderError
}.

Record GenerationOptions : Type := {
  style : StylePreset;
  negativePrompt : option string;
  timeout : option Z
}.

Definition FALLBACK_HTTP_STATUSES : list Z := [402; 403; 429; 500; 503].

Definition NON_FALLBACK_HTTP_STATUSES : list Z := [400; 401].

(** [Array.prototype.includes] on a list of integers. *)
Definition includes (l : list Z) (x : Z) : bool := existsb (Z.eqb x) l.

Definition shouldTriggerFallback (status : Z) : bool :=
  if includes FALLBACK_HTTP_STATUSES status then true
  else if includes NON_FALLBACK_HTTP_STATUSES status then false
  else if ((status >=? 500) && (status <? 600))%bool then true
  else false.

Definition shouldFallbackForErrorCode (c : ProviderErrorCode) : bool :=
  match c with
  | RATE_LIMIT | TIMEOUT | SERVICE_UNAVAILABLE | SERVER_ERROR
  | PAYMENT_REQUIRED => true
  | UNAUTHORIZED | VALIDATION_ERROR => false
  | UNKNOWN => false
  end.

Definition httpStatusToErrorCode (status : Z) : ProviderErrorCode :=
  match status with
  | 402 | 403 => PAYMENT_REQUIRED
  | 429 => RATE_LIMIT
  | 408 => TIMEOUT
  | 503 => SERVICE_UNAVAILABLE
  | 500 => SERVER_ERROR
  | 401 => UNAUTHORIZED
  | 400 => VALIDATION_ERROR
  | _ =>
      if ((status >=? 500) && (status <? 600))%bool then SERVER_ERROR
      else UNKNOWN
  end.

(** The [defaultMessages] table of [createProviderError]. *)
Definition defaultMessages (c : ProviderErrorCode) : string :=
  match c with
  | RATE_LIMIT => "Too many requests. Please try again later."
  | TIMEOUT => "Request timed out. Please try again."
  | SERVICE_UNAVAILABLE =>
      "Service is currently unavailable. Please try again later."
  | SERVER_ERROR => "A server error occurred. Please try again."
  | UNAUTHORIZED => "Authentication error occurred. Please refresh the page."
  | VALIDATION_ERROR => "Invalid request. Please check your input."
  | PAYMENT_REQUIRED =>
      "Service quota exhausted. Switching to backup provider."
  | UNKNOWN => "An unexpected error occurred."
  end.

Definition createProviderError
    (status : Z) (msg : option string) (retry : option Z) : ProviderError :=
  let c := httpStatusToErrorCode status in
  let fallback := shouldTriggerFallback status in
  {| code := c;
     message := Js.or_else msg (defaultMessages c);
     retryAfter :=
       if ProviderErrorCode_eqb c RATE_LIMIT
       then Some (Js.nullish retry 60)
       else retry;
     shouldFallback := fallback |}.

Definition createTimeoutError : ProviderError :=
  {| code := TIMEOUT;
     message := "Request timed out. Please try again.";
     retryAfter := None;
     shouldFallback := true |}.

(** ** The outside world: environment variables and the network *)

Record Env : Type := {
  HUGGINGFACE_API_KEY : option string;
  CLOUDFLARE_ACCOUNT_ID : option string;
  CLOUDFLARE_API_TOKEN : option string
}.

(** The JSON bodies the two adapters send, before [JSON.stringify]. *)
Inductive RequestBody : Type :=
| HuggingFaceBody
    (inputs negative_prompt : string)
    (num_inference_steps : Z) (guidance_scale : Q)
| CloudflareBody (prompt : string).

Record Request : Type := {
  url : string;
  method : string;
  Authorization : string;
  Content_Type : string;
  body : RequestBody
}.

(** [CloudflareImageResponse] of [cloudflare-provider.ts]. *)
Record CloudflareApiError : Type := {
  cf_code : Z;
  cf_message : string
}.

Record CloudflareResult : Type := {
  result_image : option string
}.

Record CloudflareImageResponse : Type := {
  cf_success : bool;
  result : option CloudflareResult;
  errors : option (list CloudflareApiError);
  messages : option (list string)
}.

(** A [Response] as the adapters use it. A body reader that rejects (or
    whose value cannot be read as the expected shape) is [None]. *)
Record Response : Type := {
  ok : bool;
  status : Z;
  header_Retry_After : option string; (* headers.get('Retry-After') *)
  text : option string;               (* response.text() *)
  json : option CloudflareImageResponse; (* response.json() *)
  blob : option (list Byte.byte)      (* response.blob() then arrayBuffer() *)
}.

(** The network answers a request issued with a given abort delay either
    by rejecting (left) or with a response. Every request issued is kept
    in [fetched]. *)
Record World : Type := {
  env : Env;
  network : Request -> Z -> Js.Thrown + Response;
  fetched : list Request
}.

Definition fetch (req : Request) (abortAfterMs : Z)
  : state World (Js.Thrown + Response) :=
  w <- get ;;
  put {| env := env w; network := network w;
         fetched := (fetched w ++ [req])%list |} ;;
  ret (network w req abortAfterMs).

(** [error instanceof Error && error.name === 'AbortError'] *)
Definition isAbortError (e : Js.Thrown) : bool :=
  match e with
  | Js.JsError n _ => String.eqb n "AbortError"
  | Js.NonError => false
  end.

(** [error instanceof Error ? error.message : 'Network error occurred.'] *)
Definition networkErrorMessage (e : Js.Thrown) : string :=
  match e with
  | Js.JsError _ m => m
  | Js.NonError => "Network error occurred."
  end.

(** [parseRetryAfter], the same private method in both adapters. *)
Definition parseRetryAfter (response : Response) : option Z :=
  let retryAfter := header_Retry_After response in
  if Js.truthy retryAfter
  then Js.parseInt (Js.nullish retryAfter "")
  else None.

(** ** [lib/env.ts] *)

Definition getHuggingFaceApiKey (e : Env) : Js.Thrown + string :=
  match HUGGINGFACE_API_KEY e with
  | Some (String c s) => inr (String c s)
  | _ =>
      inl (Js.newError
        "HUGGINGFACE_API_KEY is not configured. Please set it in .env.local")
  end.

Definition getCloudflareAccountId (e : Env) : Js.Thrown + string :=
  match CLOUDFLARE_ACCOUNT_ID e with
  | Some (String c s) => inr (String c s)
  | _ =>
      inl (Js.newError
        "CLOUDFLARE_ACCOUNT_ID is not configured. Please set it in .env.local")
  end.

Definition getCloudflareApiToken (e : Env) : Js.Thrown + string :=
  match CLOUDFLARE_API_TOKEN e with
  | Some (String c s) => inr (String c s)
  | _ =>
      inl (Js.newError
        "CLOUDFLARE_API_TOKEN is not configured. Please set it in .env.local")
  end.

(** ** The [ImageProvider] interface *)

Record ImageProvider (W : Type) : Type := {
  name : ProviderName;
  generate : string -> GenerationOptions -> state W ProviderResult
}.

Arguments name {W} _.
Arguments generate {W} _ _ _.

(** A failed [ProviderResult]. *)
Definition failure (e : ProviderError) : ProviderResult :=
  {| success := false; image := None; error := Some e |}.

(** ** [lib/providers/huggingface-provider.ts] *)

(** The two members of a parsed error body that [getErrorMessage] reads. *)
Record JsonErrorBody : Type := {
  json_error : option string;
  json_message : option string
}.

Module HuggingFaceProvider.

Definition HUGGINGFACE_API_URL : string :=
  "https://router.huggingface.co/hf-inference/models/black-forest-labs/FLUX.1-schnell".
Definition DEFAULT_TIMEOUT_MS : Z := 30000.
Definition DEFAULT_NEGATIVE_PROMPT : string :=
  "blurry, low quality, distorted, ugly".

(** The abort timer of [fetchWithTimeout] is the delay handed to the
    network; the timer is cleared on every exit. *)
Definition fetchWithTimeout (req : Request) (timeoutMs : Z)
  : state World (Js.Thrown + Response) :=
  fetch req timeoutMs.

Section Runtime.

(** [JSON.parse] of the runtime, on an error body: [None] when it throws
    (or when reading a member of the parsed value throws), otherwise the
    two members [getErrorMessage] reads, as strings. *)
Variable JSON_parse : string -> option JsonErrorBody.

Definition getErrorMessage (response : Response) : option string :=
  match text response with
  | Some text =>
      if Js.truthy (Some text) then
        match JSON_parse text with
        | Some json =>
            Some (Js.or_else
                    (Js.or_opt (json_error json) (json_message json))
                    text)
        | None => Some text
        end
      else None
  | None => None
  end.

Definition generate (prompt : string) (options : GenerationOptions)
  : state World ProviderResult :=
  let timeout := Js.nullish (timeout options) DEFAULT_TIMEOUT_MS in
  let negativePrompt :=
    Js.nullish (negativePrompt options) DEFAULT_NEGATIVE_PROMPT in
  w <- get ;;
  match getHuggingFaceApiKey (env w) with
  | inl _ =>
      ret (failure
             {| code := SERVER_ERROR;
                message := "Server configuration error.";
                retryAfter := None;
                shouldFallback := false |})
  | inr apiKey =>
      let fullPrompt := buildPrompt prompt (style options) in
      outcome <-
        fetchWithTimeout
          {| url := HUGGINGFACE_API_URL;
             method := "POST";
             Authorization := "Bearer " ++ apiKey;
             Content_Type := "application/json";
             body := HuggingFaceBody fullPrompt negativePrompt 30 (75 # 10)
          |}
          timeout ;;
      match outcome with
      | inl err =>
          if isAbortError err then ret (failure createTimeoutError)
          else
            ret (failure
                   {| code := SERVER_ERROR;
                      message := networkErrorMessage err;
                      retryAfter := None;
                      shouldFallback := true |})
      | inr response =>
          if negb (ok response) then
            let retryAfter := parseRetryAfter response in
            let errorMessage := getErrorMessage response in
            ret (failure
                   (createProviderError
                      (status response) errorMessage retryAfter))
          else
            match blob response with
            | Some arrayBuffer =>
                let base64Image := Js.toBase64 arrayBuffer in
                let imageDataUrl :=
                  "data:image/png;base64," ++ base64Image in
                ret {| success := true;
                       image := Some imageDataUrl;
                       error := None |}
            | None =>
                ret (failure
                       {| code := SERVER_ERROR;
                          message := "Failed to process image response.";
                          retryAfter := None;
                          shouldFallback := true |})
            end
      end
  end.

Definition createHuggingFaceProvider : ImageProvider World :=
  Build_ImageProvider World huggingface generate.

End Runtime.

End HuggingFaceProvider.

(** ** [lib/providers/cloudflare-provider.ts] *)

Module CloudflareProvider.

Definition CLOUDFLARE_MODEL : string :=
  "@cf/black-forest-labs/flux-1-schnell".
Definition DEFAULT_TIMEOUT_MS : Z := 60000.

Definition buildApiUrl (accountId : string) : string :=
  "https://api.cloudflare.com/client/v4/accounts/" ++ accountId
    ++ "/ai/run/" ++ CLOUDFLARE_MODEL.

(** [response.result?.image] *)
Definition result_image_of (response : CloudflareImageResponse)
  : option string :=
  match result response with
  | Some r => result_image r
  | None => None
  end.

(** [response.errors?.[0]?.message] *)
Definition first_error_message (response : CloudflareImageResponse)
  : option string :=
  match errors response with
  | Some (e :: _) => Some (cf_message e)
  | _ => None
  end.

Definition transformCloudflareResponse (response : CloudflareImageResponse)
  : ProviderResult :=
  if (cf_success response && Js.truthy (result_image_of response))%bool then
    {| success := true;
       image :=
         Some ("data:image/png;base64,"
                 ++ Js.nullish (result_image_of response) "");
       error := None |}
  else
    let errorMessage :=
      Js.or_else (first_error_message response)
                 "Failed to generate image." in
    failure {| code := SERVER_ERROR;
               message := errorMessage;
               retryAfter := None;
               shouldFallback := false |}.

(** The [defaultMessages] table of [classifyCloudflareError]. *)
Definition defaultMessages (c : ProviderErrorCode) : string :=
  match c with
  | RATE_LIMIT => "Too many requests. Please try again later."
  | TIMEOUT => "Request timed out. Please try again."
  | SERVICE_UNAVAILABLE =>
      "Service is currently unavailable. Please try again later."
  | SERVER_ERROR => "A server error occurred. Please try again."
  | UNAUTHORIZED => "Authentication error occurred."
  | VALIDATION_ERROR => "Invalid request. Please check your input."
  | PAYMENT_REQUIRED => "Service quota exhausted."
  | UNKNOWN => "An unexpected error occurred."
  end.

Definition classifyCloudflareError
    (status : Z) (msg : option string) (retry : option Z) : ProviderError :=
  let c := httpStatusToErrorCode status in
  {| code := c;
     message := Js.or_else msg (defaultMessages c);
     retryAfter := if ProviderErrorCode_eqb c RATE_LIMIT then retry else None;
     shouldFallback := false |}.

Definition getErrorMessage (response : Response) : option string :=
  match json response with
  | Some data => first_error_message data
  | None => None
  end.

Definition generate (prompt : string) (options : GenerationOptions)
  : state World ProviderResult :=
  let timeout := Js.nullish (timeout options) DEFAULT_TIMEOUT_MS in
  w <- get ;;
  match getCloudflareAccountId (env w) with
  | inl _ =>
      ret (failure
             {| code := SERVER_ERROR;
                message := "Server configuration error.";
                retryAfter := None;
                shouldFallback := false |})
  | inr accountId =>
      match getCloudflareApiToken (env w) with
      | inl _ =>
          ret (failure
                 {| code := SERVER_ERROR;
                    message := "Server configuration error.";
                    retryAfter := None;
                    shouldFallback := false |})
      | inr apiToken =>
          let fullPrompt := buildPrompt prompt (style options) in
          outcome <-
            fetch
              {| url := buildApiUrl accountId;
                 method := "POST";
                 Authorization := "Bearer " ++ apiToken;
                 Content_Type := "application/json";
                 body := CloudflareBody fullPrompt |}
              timeout ;;
          match outcome with
          | inl err =>
              if isAbortError err then
                ret (failure
                       {| code := TIMEOUT;
                          message := "Request timed out. Please try again.";
                          retryAfter := None;
                          shouldFallback := false |})
              else
                ret (failure
                       {| code := SERVER_ERROR;
                          message := networkErrorMessage err;
                          retryAfter := None;
                          shouldFallback := false |})
          | inr response =>
              if negb (ok response) then
                let retryAfter := parseRetryAfter response in
                let errorMessage := getErrorMessage response in
                ret (failure
                       (classifyCloudflareError
                          (status response) errorMessage retryAfter))
              else
                match json response with
                | Some data => ret (transformCloudflareResponse data)
                | None =>
                    ret (failure
                           {| code := SERVER_ERROR;
                              message := "Failed to parse response.";
                              retryAfter := None;
                              shouldFallback := false |})
                end
          end
      end
  end.

Definition createCloudflareProvider : ImageProvider World :=
  Build_ImageProvider World cloudflare generate.

End CloudflareProvider.

(** ** The provider manager *)

Inductive DualProviderErrorCode : Type :=
| DUAL_PROVIDER_FAILURE.

Record DualProviderError : Type := {
  dual_code : DualProviderErrorCode;
  dual_message : string;
  primaryError : string;
  fallbackError : string;
  dual_retryAfter : option Z;
  dual_shouldFallback : bool
}.

(** [ProviderError | DualProviderError] *)
Inductive GenerationError : Type :=
| Single (e : ProviderError)
| Dual (e : DualProviderError).

Record GenerationResult : Type := {
  g_success : bool;
  g_image : option string;
  provider : option ProviderName;
  g_error : option GenerationError;
  fallbackAttempted : option bool
}.

(** Which of the manager's two providers a call went to, and what it was
    given. *)
Inductive Role : Type :=
| Primary
| Fallback.

Record Call : Type := {
  callee : Role;
  call_prompt : string;
  call_options : GenerationOptions
}.

Definition Role_eqb (a b : Role) : bool :=
  match a, b with
  | Primary, Primary | Fallback, Fallback => true
  | _, _ => false
  end.

(** Number of calls a log holds for one role. *)
Definition calls_to (r : Role) (log : list Call) : nat :=
  List.length (List.filter (fun c => Role_eqb (callee c) r) log).

Module ProviderManager.

Section Manager.

Variable W : Type.

Record ProviderManagerConfig : Type := {
  primaryProvider : ImageProvider W;
  fallbackProvider : ImageProvider W
}.

Variable this : ProviderManagerConfig.

(** [await provider.generate(prompt, options)], with the call noted in
    the log that runs alongside the world. *)
Definition invoke (who : Role) (p : ImageProvider W)
    (prompt : string) (options : GenerationOptions)
  : state (W * list Call) ProviderResult :=
  mkState (fun s =>
    let (r, w') := runState (generate p prompt options) (fst s) in
    (r, (w', (snd s ++ [{| callee := who; call_prompt := prompt;
                           call_options := options |}])%list))).

Definition calculateMinRetryTime
    (primaryError : ProviderError) (fallbackError : option ProviderError)
  : option Z :=
  let primaryRetry := retryAfter primaryError in
  let fallbackRetry :=
    match fallbackError with
    | Some e => retryAfter e
    | None => None
    end in
  match primaryRetry, fallbackRetry with
  | Some p, Some f => Some (Z.min p f)
  | Some p, None => Some p
  | None, Some f => Some f
  | None, None => None
  end.

Definition createDualProviderError
    (primaryError : ProviderError) (fallbackError : option ProviderError)
  : DualProviderError :=
  let retryAfter := calculateMinRetryTime primaryError fallbackError in
  {| dual_code := DUAL_PROVIDER_FAILURE;
     dual_message :=
       "Both image generation services are currently unavailable.";
     primaryError := message primaryError;
     fallbackError :=
       Js.or_else (option_map message fallbackError)
                  "Unknown fallback error";
     dual_retryAfter := retryAfter;
     dual_shouldFallback := false |}.

(** [!primaryError?.shouldFallback] is true when the error is missing
    or its flag is false: those are the two first branches. *)
Definition generate (prompt : string) (options : GenerationOptions)
  : state (W * list Call) GenerationResult :=
  primaryResult <-
    invoke Primary (primaryProvider this) prompt options ;;
  if success primaryResult then
    ret {| g_success := true;
           g_image := image primaryResult;
           provider := Some (name (primaryProvider this));
           g_error := None;
           fallbackAttempted := Some false |}
  else
    match error primaryResult with
    | None =>
        ret {| g_success := false;
               g_image := None;
               provider := Some (name (primaryProvider this));
               g_error := None;
               fallbackAttempted := Some false |}
    | Some primaryError =>
        if negb (shouldFallback primaryError) then
          ret {| g_success := false;
                 g_image := None;
                 provider := Some (name (primaryProvider this));
                 g_error := Some (Single primaryError);
                 fallbackAttempted := Some false |}
        else
          fallbackResult <-
            invoke Fallback (fallbackProvider this) prompt options ;;
          if success fallbackResult then
            ret {| g_success := true;
                   g_image := image fallbackResult;
                   provider := Some (name (fallbackProvider this));
                   g_error := None;
                   fallbackAttempted := Some true |}
          else
            let fallbackError := error fallbackResult in
            let dualError :=
              createDualProviderError primaryError fallbackError in
            ret {| g_success := false;
                   g_image := None;
                   provider := None;
                   g_error := Some (Dual dualError);
                   fallbackAttempted := Some true |}
    end.

End Manager.

Arguments primaryProvider {W} _.
Arguments fallbackProvider {W} _.
Arguments generate {W} _ _ _.

(** [createProviderManager]: HuggingFace first, Cloudflare as fallback. *)
Definition createProviderManager
    (JSON_parse : string -> option JsonErrorBody)
  : ProviderManagerConfig World :=
  {| primaryProvider :=
       HuggingFaceProvider.createHuggingFaceProvider JSON_parse;
     fallbackProvider := CloudflareProvider.createCloudflareProvider |}.

Definition createProviderManagerWithProviders {W : Type}
    (primary fallback : ImageProvider W) : ProviderManagerConfig W :=
  {| primaryProvider := primary; fallbackProvider := fallback |}.

End ProviderManager.

(** ** More JavaScript helpers

    The characters of a string are its code units, all below 256; on such
    strings the white space of [trim] and of [\s] is 9 to 13, 32 and 160,
    the word characters of [\w] are the ASCII letters, the digits and the
    underscore, and a letter of a pattern under the [i] flag matches its two
    ASCII cases only. Numbers hold integers. *)

Module JsText.

Definition codeOf (c : ascii) : N := N_of_ascii c.

Definition isSpace (c : ascii) : bool :=
  let n := codeOf c in
  ((N.leb 9 n && N.leb n 13) || N.eqb n 32 || N.eqb n 160)%bool.

Definition isWordChar (c : ascii) : bool :=
  let n := codeOf c in
  ((N.leb 48 n && N.leb n 57)
   || (N.leb 65 n && N.leb n 90)
   || (N.leb 97 n && N.leb n 122)
   || N.eqb n 95)%bool.

(** The lower case of an ASCII capital; any other character is itself. *)
Definition lower (c : ascii) : ascii :=
  let n := codeOf c in
  if (N.leb 65 n && N.leb n 90)%bool then ascii_of_N (n + 32) else c.

Fixpoint trimStart (s : string) : string :=
  match s with
  | String c rest => if isSpace c then trimStart rest else s
  | EmptyString => s
  end.

Definition reverse (s : string) : string :=
  string_of_list_ascii (List.rev (list_ascii_of_string s)).

Definition trimEnd (s : string) : string := reverse (trimStart (reverse s)).

(** [s.trim()] *)
Definition trim (s : string) : string := trimEnd (trimStart s).

(** [s.split(',')[0]] *)
Fixpoint firstField (s : string) : string :=
  match s with
  | String c rest =>
      if Ascii.eqb c ","%char then EmptyString
      else String c (firstField rest)
  | EmptyString => EmptyString
  end.

(** [s.replace(/c/g, by)] for a single character [c]. *)
Fixpoint replaceChar (c : ascii) (by_ : string) (s : string) : string :=
  match s with
  | String x rest =>
      if Ascii.eqb x c then by_ ++ replaceChar c by_ rest
      else String x (replaceChar c by_ rest)
  | EmptyString => EmptyString
  end.

(** The rest of [s] after a prefix that matches the lower-case pattern
    under the [i] flag. *)
Fixpoint afterPrefix (pattern s : string) : option string :=
  match pattern with
  | EmptyString => Some s
  | String p pattern' =>
      match s with
      | String c rest =>
          if Ascii.eqb (lower c) p then afterPrefix pattern' rest else None
      | EmptyString => None
      end
  end.

(** The longest prefix of characters satisfying [p]: its length and the
    rest. *)
Fixpoint span (p : ascii -> bool) (s : string) : nat * string :=
  match s with
  | String c rest =>
      if p c then let (n, r) := span p rest in (S n, r) else (O, s)
  | EmptyString => (O, s)
  end.

(** [s.replace(re, '')] for a global pattern whose match at a position, when
    there is one, has the length [matchLength] gives: the scan takes the
    leftmost match, drops it and goes on after it. [skip] counts the
    characters of the current match still to drop. *)
Fixpoint removeAll (matchLength : string -> option nat) (skip : nat)
    (s : string) : string :=
  match s with
  | String c rest =>
      match skip with
      | S k => removeAll matchLength k rest
      | O =>
          match matchLength s with
          | Some (S k) => removeAll matchLength k rest
          | _ => String c (removeAll matchLength O rest)
          end
      end
  | EmptyString => EmptyString
  end.

(** The decimal numeral of an integer. *)
Definition decimal (n : Z) : string :=
  DecimalString.NilZero.string_of_int (Z.to_int n).

Fixpoint zeros (n : nat) : string :=
  match n with
  | O => ""
  | S n' => String "0" (zeros n')
  end.

(** The digits [String] shows of a double [x] of [d] decimal digits that is
    [2^53] or more: the least number [k] of digits, at most 17, such that
    some [s * 10^p] of [k] digits rounds to [x]; of two such the nearer to
    [x], and the even one when they are as near. The answer is [(s, p)]. *)
Fixpoint shortest (fuel : nat) (k : Z) (x d : Z) : Z * Z :=
  match fuel with
  | O => (x, 0)
  | S fuel' =>
      let p := d - k in
      let unit := 10 ^ p in
      let lo := x / unit in
      let hi := lo + 1 in
      let okLo := Js.toDouble (lo * unit) =? x in
      let okHi := Js.toDouble (hi * unit) =? x in
      if (okLo && okHi)%bool then
        match (x - lo * unit) ?= (hi * unit - x) with
        | Lt => (lo, p)
        | Gt => (hi, p)
        | Eq => if Z.even lo then (lo, p) else (hi, p)
        end
      else if okLo then (lo, p)
      else if okHi then (hi, p)
      else shortest fuel' (k + 1) x d
  end.

Fixpoint stripZeros (reversed : list ascii) : list ascii :=
  match reversed with
  | "0"%char :: rest => stripZeros rest
  | _ => reversed
  end.

(** The digits without their trailing zeros. *)
Definition significant (digits : string) : string :=
  string_of_list_ascii
    (List.rev (stripZeros (List.rev (list_ascii_of_string digits)))).

(** The form [d.ddde+x] of a number of [n] digits before the point. *)
Definition exponential (digits : string) (n : Z) : string :=
  match significant digits with
  | String c EmptyString => String c ("e+" ++ decimal (n - 1))
  | String c rest => String c ("." ++ rest ++ "e+" ++ decimal (n - 1))
  | EmptyString => ""
  end.

(** [String(x)] for a double [x] that is [2^53] or more: its digits are
    followed by zeros up to 21 digits, and the exponential form is used
    beyond. *)
Definition largeToString (x : Z) : string :=
  let d := Z.of_nat (String.length (decimal x)) in
  let (s, p) := shortest 17 1 x d in
  let digits := decimal s in
  let n := Z.of_nat (String.length digits) + p in
  if n <=? 21 then digits ++ zeros (Z.to_nat p)
  else exponential digits n.

(** [String(n)] for a number that holds an integer. Below [2^53] every
    integer is a double and is shown by its decimal numeral. *)
Definition numberToString (n : Z) : string :=
  let x := Js.toDouble n in
  if Z.abs x <? 2 ^ 53 then decimal x
  else if Js.Infinity <=? Z.abs x then
    (if x <? 0 then "-Infinity" else "Infinity")
  else if x <? 0 then "-" ++ largeToString (- x)
  else largeToString x.

(** [Math.ceil(a / b)] for integers and a positive [b]. *)
Definition ceilDiv (a b : Z) : Z := - ((- a) / b).

(** [s.slice(0, end)]: a negative [end] counts from the end of [s]. *)
Definition slice0 (s : string) (end_ : Z) : string :=
  let len := Z.of_nat (String.length s) in
  let final :=
    if end_ <? 0 then Z.max (len + end_) 0 else Z.min end_ len in
  String.substring 0 (Z.to_nat final) s.

(** Truthiness of a [number | undefined]. *)
Definition truthyNumber (n : option Z) : bool :=
  match n with
  | Some v => negb (v =? 0)
  | None => false
  end.

End JsText.

(** ** [lib/time-utils.ts] *)

(** [totalSeconds] is a number that holds an integer. The remainders are
    exact; the quotients are rounded before their floor is taken. Of
    [Infinity] the quotient is [Infinity] and the remainders are [NaN]. *)
Definition formatTime (totalSeconds : Z) : string :=
  let totalSeconds := Js.toDouble totalSeconds in
  if totalSeconds <=? 0 then "0s"
  else if Js.Infinity <=? totalSeconds then "Infinityh NaNm NaNs"
  else
    let hours := Js.floorDivide totalSeconds 3600 in
    let minutes := Js.floorDivide (Z.rem totalSeconds 3600) 60 in
    let seconds := Z.rem totalSeconds 60 in
    if hours >? 0 then
      JsText.numberToString hours ++ "h "
        ++ JsText.numberToString minutes ++ "m "
        ++ JsText.numberToString seconds ++ "s"
    else if minutes >? 0 then
      JsText.numberToString minutes ++ "m "
        ++ JsText.numberToString seconds ++ "s"
    else JsText.numberToString seconds ++ "s".

(** ** [lib/input-utils.ts] *)

Module InputUtils.

(** The match of [/javascript:/gi] at the start of [s]. *)
Definition javascriptUrl (s : string) : option nat :=
  match JsText.afterPrefix "javascript:" s with
  | Some _ => Some 11%nat
  | None => None
  end.

(** The match of [/on\w+\s*=/gi] at the start of [s]: "on", one or more
    word characters, any white space, "=". Neither repetition can give a
    character back to what follows it, so the greedy match is the only
    one. *)
Definition eventHandler (s : string) : option nat :=
  match JsText.afterPrefix "on" s with
  | Some r1 =>
      let (k, r2) := JsText.span JsText.isWordChar r1 in
      match k with
      | O => None
      | S _ =>
          let (j, r3) := JsText.span JsText.isSpace r2 in
          match r3 with
          | String "="%char _ => Some (2 + k + j + 1)%nat
          | _ => None
          end
      end
  | None => None
  end.

(** The match of [/data:\s*text\/html/gi] at the start of [s]. *)
Definition dataHtmlUrl (s : string) : option nat :=
  match JsText.afterPrefix "data:" s with
  | Some r1 =>
      let (j, r2) := JsText.span JsText.isSpace r1 in
      match JsText.afterPrefix "text/html" r2 with
      | Some _ => Some (5 + j + 9)%nat
      | None => None
      end
  | None => None
  end.

(** The argument is a string by its type: the [typeof] guards of the
    source never fire. *)
Definition sanitizeInput (input : string) : string :=
  let sanitized := JsText.replaceChar "000"%char "" input in
  let sanitized :=
    JsText.replaceChar "'"%char "&#x27;"
      (JsText.replaceChar "034"%char "&quot;"
         (JsText.replaceChar ">"%char "&gt;"
            (JsText.replaceChar "<"%char "&lt;"
               (JsText.replaceChar "&"%char "&amp;" sanitized)))) in
  let sanitized := JsText.removeAll javascriptUrl O sanitized in
  let sanitized := JsText.removeAll eventHandler O sanitized in
  let sanitized := JsText.removeAll dataHtmlUrl O sanitized in
  sanitized.

Definition isValidPrompt (prompt : string) : bool :=
  let trimmed := JsText.trim prompt in
  (0 <? Z.of_nat (String.length trimmed)).

Definition MAX_PROMPT_LENGTH : Z := 200.

Definition enforceCharacterLimit (input : string) (limit : Z) : string :=
  if Z.of_nat (String.length input) <=? limit then input
  else JsText.slice0 input limit.

Definition calculateRemaining (input : string) (limit : Z) : Z :=
  let currentLength := Z.min (Z.of_nat (String.length input)) limit in
  limit - currentLength.

Record PromptInput : Type := {
  sanitized : string;
  isValid : bool;
  remaining : Z
}.

Definition processPromptInput (input : string) : PromptInput :=
  let sanitized := sanitizeInput input in
  let limited := enforceCharacterLimit sanitized MAX_PROMPT_LENGTH in
  let isValid := isValidPrompt limited in
  let remaining := calculateRemaining limited MAX_PROMPT_LENGTH in
  {| sanitized := limited; isValid := isValid; remaining := remaining |}.

End InputUtils.

(** ** [lib/server-rate-limiter.ts] *)

Module ServerRateLimiter.

Record RateLimitEntry : Type := {
  count : Z;
  resetTime : Z
}.

(** The module's state: the [Map] from IP to entry, read and written by
    key only, and the two counters. *)
Record Limiter : Type := {
  rateLimitStore : string -> option RateLimitEntry;
  totalRequestsToday : Z;
  totalResetTime : Z
}.

Definition MAX_REQUESTS_PER_IP : Z := 5.
Definition WINDOW_MS : Z := 24 * 60 * 60 * 1000.
Definition MAX_TOTAL_REQUESTS : Z := 100.

(** [map.set(key, value)] and [map.delete(key)] *)
Definition Map_set (key : string) (value : RateLimitEntry)
    (m : string -> option RateLimitEntry) : string -> option RateLimitEntry :=
  fun k => if String.eqb k key then Some value else m k.

Definition Map_delete (key : string)
    (m : string -> option RateLimitEntry) : string -> option RateLimitEntry :=
  fun k => if String.eqb k key then None else m k.

(** The state when the module is loaded at time [loadTime]. *)
Definition initial (loadTime : Z) : Limiter :=
  {| rateLimitStore := fun _ => None;
     totalRequestsToday := 0;
     totalResetTime := loadTime + WINDOW_MS |}.

Record RateLimitCheck : Type := {
  allowed : bool;
  reason : option string;
  remainingRequests : option Z;
  resetInSeconds : option Z
}.

(** [now] is what [Date.now()] returns in this call. *)
Definition canMakeRequest (now : Z) (ip : string)
  : state Limiter RateLimitCheck :=
  s0 <- get ;;
  (if now >=? totalResetTime s0 then
     put {| rateLimitStore := rateLimitStore s0;
            totalRequestsToday := 0;
            totalResetTime := now + WINDOW_MS |}
   else ret tt) ;;
  s <- get ;;
  if totalRequestsToday s >=? MAX_TOTAL_REQUESTS then
    let resetIn := JsText.ceilDiv (totalResetTime s - now) 1000 in
    ret {| allowed := false;
           reason :=
             Some ("Daily limit reached. Please try again in "
                     ++ formatTime resetIn ++ ".");
           remainingRequests := None;
           resetInSeconds := Some resetIn |}
  else
    entry <-
      match rateLimitStore s ip with
      | Some e =>
          if now >=? resetTime e then
            put {| rateLimitStore := Map_delete ip (rateLimitStore s);
                   totalRequestsToday := totalRequestsToday s;
                   totalResetTime := totalResetTime s |} ;;
            ret None
          else ret (Some e)
      | None => ret None
      end ;;
    match entry with
    | None =>
        ret {| allowed := true;
               reason := None;
               remainingRequests := Some MAX_REQUESTS_PER_IP;
               resetInSeconds := None |}
    | Some e =>
        if count e >=? MAX_REQUESTS_PER_IP then
          let resetIn := JsText.ceilDiv (resetTime e - now) 1000 in
          ret {| allowed := false;
                 reason :=
                   Some ("You have reached your daily limit of "
                           ++ JsText.numberToString MAX_REQUESTS_PER_IP
                           ++ " generations. Please try again in "
                           ++ formatTime resetIn ++ ".");
                 remainingRequests := Some 0;
                 resetInSeconds := Some resetIn |}
        else
          ret {| allowed := true;
                 reason := None;
                 remainingRequests := Some (MAX_REQUESTS_PER_IP - count e);
                 resetInSeconds := None |}
    end.

Definition recordRequest (now : Z) (ip : string) : state Limiter unit :=
  s <- get ;;
  let total := totalRequestsToday s + 1 in
  let entry :=
    match rateLimitStore s ip with
    | Some e =>
        if now >=? resetTime e then
          {| count := 1; resetTime := now + WINDOW_MS |}
        else {| count := count e + 1; resetTime := resetTime e |}
    | None => {| count := 1; resetTime := now + WINDOW_MS |}
    end in
  put {| rateLimitStore := Map_set ip entry (rateLimitStore s);
         totalRequestsToday := total;
         totalResetTime := totalResetTime s |}.

Record RateLimitInfo : Type := {
  maxPerIp : Z;
  maxTotal : Z;
  totalUsed : Z;
  windowHours : Z
}.

Definition getRateLimitInfo : state Limiter RateLimitInfo :=
  s <- get ;;
  ret {| maxPerIp := MAX_REQUESTS_PER_IP;
         maxTotal := MAX_TOTAL_REQUESTS;
         totalUsed := totalRequestsToday s;
         windowHours := WINDOW_MS / (60 * 60 * 1000) |}.

End ServerRateLimiter.

(** ** [app/api/generate/route.ts] *)

Module Route.

(** A parsed JSON value; an object lists its members, each key once. *)
#[warnings="-register-all"] Inductive JsonValue : Type :=
| JNull
| JBool (b : bool)
| JNumber (n : Q)
| JString (s : string)
| JArray (items : list JsonValue)
| JObject (members : list (string * JsonValue)).

(** What the handler reads of a request: two headers, and what
    [request.json()] settles to ([None] when it rejects). *)
Record NextRequest : Type := {
  x_forwarded_for : option string;
  x_real_ip : option string;
  request_json : option JsonValue
}.

Record ExtendedGenerationError : Type := {
  e_code : string;
  e_message : string;
  e_retryAfter : option Z;
  e_primaryError : option string;
  e_fallbackError : option string
}.

Record ExtendedGenerateResponse : Type := {
  r_success : bool;
  r_image : option string;
  r_provider : option ProviderName;
  fallbackUsed : option bool;
  r_error : option ExtendedGenerationError
}.

(** [NextResponse.json(body, {status})] *)
Record NextResponse : Type := {
  http_status : Z;
  payload : ExtendedGenerateResponse
}.

(** The string each error code is in the source. *)
Definition codeName (c : ProviderErrorCode) : string :=
  match c with
  | RATE_LIMIT => "RATE_LIMIT"
  | TIMEOUT => "TIMEOUT"
  | SERVICE_UNAVAILABLE => "SERVICE_UNAVAILABLE"
  | SERVER_ERROR => "SERVER_ERROR"
  | UNAUTHORIZED => "UNAUTHORIZED"
  | VALIDATION_ERROR => "VALIDATION_ERROR"
  | PAYMENT_REQUIRED => "PAYMENT_REQUIRED"
  | UNKNOWN => "UNKNOWN"
  end.

(** [!body] *)
Definition falsy (v : JsonValue) : bool :=
  match v with
  | JNull => true
  | JBool b => negb b
  | JNumber n => Qeq_bool n 0
  | JString s => negb (Js.truthy (Some s))
  | JArray _ => false
  | JObject _ => false
  end.

(** [typeof v === 'object'] *)
Definition typeofObject (v : JsonValue) : bool :=
  match v with
  | JNull | JArray _ | JObject _ => true
  | JBool _ | JNumber _ | JString _ => false
  end.

(** [v[key]] for the keys the handler reads, which no array has. *)
Fixpoint lookup (key : string) (members : list (string * JsonValue))
  : option JsonValue :=
  match members with
  | (k, v) :: rest => if String.eqb k key then Some v else lookup key rest
  | [] => None
  end.

Definition member (key : string) (v : JsonValue) : option JsonValue :=
  match v with
  | JObject members => lookup key members
  | _ => None
  end.

(** [isValidStyle]: a string that is one of the four preset names; the
    result is the preset the name stands for. *)
Definition isValidStyle (style : option JsonValue) : option StylePreset :=
  match style with
  | Some (JString s) =>
      if String.eqb s "default" then Some style_default
      else if String.eqb s "warm" then Some style_warm
      else if String.eqb s "monochrome" then Some style_monochrome
      else if String.eqb s "pastel" then Some style_pastel
      else None
  | _ => None
  end.

Definition mapProviderError (error : GenerationError)
  : ExtendedGenerationError :=
  match error with
  | Dual dualError =>
      {| e_code := "DUAL_PROVIDER_FAILURE";
         e_message := dual_message dualError;
         e_retryAfter := dual_retryAfter dualError;
         e_primaryError := Some (primaryError dualError);
         e_fallbackError := Some (fallbackError dualError) |}
  | Single providerError =>
      {| e_code := codeName (code providerError);
         e_message := message providerError;
         e_retryAfter := retryAfter providerError;
         e_primaryError := None;
         e_fallbackError := None |}
  end.

Definition errorCodeToHttpStatus (c : string) : Z :=
  if String.eqb c "RATE_LIMIT" then 429
  else if String.eqb c "SERVICE_UNAVAILABLE" then 503
  else if String.eqb c "UNAUTHORIZED" then 401
  else if String.eqb c "VALIDATION_ERROR" then 400
  else if String.eqb c "TIMEOUT" then 408
  else if String.eqb c "DUAL_PROVIDER_FAILURE" then 503
  else if String.eqb c "PAYMENT_REQUIRED" then 402
  else 500.

(** A failure response that carries only a code and a message. *)
Definition plainError (status : Z) (c msg : string) : NextResponse :=
  {| http_status := status;
     payload :=
       {| r_success := false;
          r_image := None;
          r_provider := None;
          fallbackUsed := None;
          r_error :=
            Some {| e_code := c;
                    e_message := msg;
                    e_retryAfter := None;
                    e_primaryError := None;
                    e_fallbackError := None |} |} |}.

(** The server: the rate limiter's module state and the outside world. *)
Record Server : Type := {
  limiter : ServerRateLimiter.Limiter;
  world : World
}.

Definition onLimiter {A : Type} (m : state ServerRateLimiter.Limiter A)
  : state Server A :=
  mkState (fun s =>
    let (a, l) := runState m (limiter s) in
    (a, {| limiter := l; world := world s |})).

Section Handler.

Variable JSON_parse : string -> option JsonErrorBody.

(** [createProviderManager().generate(prompt, options)] *)
Definition callManager (prompt : string) (options : GenerationOptions)
  : state Server GenerationResult :=
  mkState (fun s =>
    let (r, end_) :=
      runState
        (ProviderManager.generate
           (ProviderManager.createProviderManager JSON_parse) prompt options)
        (world s, []) in
    (r, {| limiter := limiter s; world := fst end_ |})).

(** [forwardedFor?.split(',')[0]?.trim() || realIp || 'unknown'] *)
Definition clientIp (request : NextRequest) : string :=
  Js.or_else
    (Js.or_opt
       (option_map (fun f => JsText.trim (JsText.firstField f))
          (x_forwarded_for request))
       (x_real_ip request))
    "unknown".

(** [nowAtCheck] and [nowAtRecord] are the two readings of [Date.now()],
    in [canMakeRequest] and in [recordRequest]. No operation inside the
    outer [try] throws, so its [catch] is not entered. *)
Definition POST (request : NextRequest) (nowAtCheck nowAtRecord : Z)
  : state Server NextResponse :=
  let ip := clientIp request in
  rateLimitCheck <-
    onLimiter (ServerRateLimiter.canMakeRequest nowAtCheck ip) ;;
  if negb (ServerRateLimiter.allowed rateLimitCheck) then
    let timeStr :=
      if JsText.truthyNumber (ServerRateLimiter.resetInSeconds rateLimitCheck)
      then formatTime
             (Js.nullish (ServerRateLimiter.resetInSeconds rateLimitCheck) 0)
      else "later" in
    ret {| http_status := 429;
           payload :=
             {| r_success := false;
                r_image := None;
                r_provider := None;
                fallbackUsed := None;
                r_error :=
                  Some {| e_code := "RATE_LIMIT";
                          e_message :=
                            Js.or_else
                              (ServerRateLimiter.reason rateLimitCheck)
                              ("Rate limit exceeded. Please try again in "
                                 ++ timeStr ++ ".");
                          e_retryAfter :=
                            ServerRateLimiter.resetInSeconds rateLimitCheck;
                          e_primaryError := None;
                          e_fallbackError := None |} |} |}
  else
    match request_json request with
    | None =>
        ret (plainError 400 "VALIDATION_ERROR" "Invalid JSON in request body.")
    | Some body =>
        if (falsy body || negb (typeofObject body))%bool then
          ret (plainError 400 "VALIDATION_ERROR" "Invalid request body.")
        else
          match member "prompt" body with
          | Some (JString prompt) =>
              let sanitizedPrompt := InputUtils.sanitizeInput prompt in
              if negb (InputUtils.isValidPrompt sanitizedPrompt) then
                ret (plainError 400 "VALIDATION_ERROR"
                       "Invalid input. Please check your prompt.")
              else
                match isValidStyle (member "style" body) with
                | None =>
                    ret (plainError 400 "VALIDATION_ERROR"
                           "Invalid style preset.")
                | Some style =>
                    result <-
                      callManager sanitizedPrompt
                        {| style := style;
                           negativePrompt :=
                             Some "blurry, low quality, distorted, ugly";
                           timeout := Some 30000 |} ;;
                    if (g_success result && Js.truthy (g_image result))%bool
                    then
                      onLimiter
                        (ServerRateLimiter.recordRequest nowAtRecord ip) ;;
                      ret {| http_status := 200;
                             payload :=
                               {| r_success := true;
                                  r_image := g_image result;
                                  r_provider := provider result;
                                  fallbackUsed :=
                                    Some (Js.nullish
                                            (fallbackAttempted result) false);
                                  r_error := None |} |}
                    else
                      match g_error result with
                      | Some error =>
                          let mappedError := mapProviderError error in
                          let httpStatus :=
                            errorCodeToHttpStatus (e_code mappedError) in
                          ret {| http_status := httpStatus;
                                 payload :=
                                   {| r_success := false;
                                      r_image := None;
                                      r_provider := provider result;
                                      fallbackUsed :=
                                        Some (Js.nullish
                                                (fallbackAttempted result)
                                                false);
                                      r_error := Some mappedError |} |}
                      | None =>
                          ret (plainError 500 "SERVER_ERROR"
                                 "An unexpected error occurred.")
                      end
                end
          | _ =>
              ret (plainError 400 "VALIDATION_ERROR" "Prompt must be a string.")
          end
    end.

End Handler.

End Route.

(** * Vocabulary of the properties, sample worlds and providers *)

(** A status that is neither one of 400, 401, 402, 403, 429, 500, 503 nor
    in the range from 500 to 599. *)
Definition unclassified (status : Z) : Prop :=
  ~ In status [400; 401; 402; 403; 429; 500; 503] /\ ~ (500 <= status < 600).

(** A getter of [lib/env.ts] that throws. *)
Definition throws {A : Type} (r : Js.Thrown + A) : bool :=
  match r with
  | inl _ => true
  | inr _ => false
  end.

(** The outcome both adapters return on a configuration fault. *)
Definition configuration_fault : ProviderResult :=
  failure {| code := SERVER_ERROR;
             message := "Server configuration error.";
             retryAfter := None;
             shouldFallback := false |}.

(** A world with no credentials at all, and a network that would answer
    any request with an empty successful response. *)
Definition empty_response : Response :=
  {| ok := true; status := 200; header_Retry_After := None;
     text := Some ""; json := None; blob := Some [] |}.

Definition unconfigured_world : World :=
  {| env := {| HUGGINGFACE_API_KEY := None;
               CLOUDFLARE_ACCOUNT_ID := None;
               CLOUDFLARE_API_TOKEN := None |};
     network := fun _ _ => inr empty_response;
     fetched := [] |}.

Definition sample_options : GenerationOptions :=
  {| style := style_default; negativePrompt := None; timeout := None |}.

(** A [JSON.parse] that rejects every text, for closed examples in which
    no error body is read. *)
Definition no_json : string -> option JsonErrorBody := fun _ => None.

(** Worlds with every credential set, whose network gives one fixed answer
    to every request. *)
Definition configured_env : Env :=
  {| HUGGINGFACE_API_KEY := Some "hf-key";
     CLOUDFLARE_ACCOUNT_ID := Some "account";
     CLOUDFLARE_API_TOKEN := Some "token" |}.

Definition world_answering (answer : Js.Thrown + Response) : World :=
  {| env := configured_env; network := fun _ _ => answer; fetched := [] |}.

(** A world with every credential set in which the primary backend gives
    one answer and the secondary backend another. *)
Definition two_backends (primary secondary : Js.Thrown + Response) : World :=
  {| env := configured_env;
     network := fun req _ =>
       match body req with
       | HuggingFaceBody _ _ _ _ => primary
       | CloudflareBody _ => secondary
       end;
     fetched := [] |}.

(** A failure status with an empty body and, maybe, a Retry-After header. *)
Definition http_error (st : Z) (retryAfterHeader : option string) : Response :=
  {| ok := false; status := st; header_Retry_After := retryAfterHeader;
     text := Some ""; json := None; blob := None |}.

(** A success status carrying the first four bytes of a PNG file. *)
Definition png_response : Response :=
  {| ok := true; status := 200; header_Retry_After := None;
     text := None; json := None;
     blob := Some [Byte.x89; Byte.x50; Byte.x4e; Byte.x47] |}.

(** A success status whose body cannot be read. *)
Definition unreadable_success : Response :=
  {| ok := true; status := 200; header_Retry_After := None;
     text := None; json := None; blob := None |}.




(** What the network answers to the one request the secondary adapter
    issues for [prompt] and [options] with its two credentials. *)
Definition secondary_answer (w : World) (accountId apiToken prompt : string)
    (options : GenerationOptions) : Js.Thrown + Response :=
  network w
    {| url := CloudflareProvider.buildApiUrl accountId;
       method := "POST";
       Authorization := "Bearer " ++ apiToken;
       Content_Type := "application/json";
       body := CloudflareBody (buildPrompt prompt (style options)) |}
    (Js.nullish (timeout options) CloudflareProvider.DEFAULT_TIMEOUT_MS).


(** A successful secondary response whose image is the empty string. *)
Definition empty_image_response : CloudflareImageResponse :=
  {| cf_success := true;
     result := Some {| result_image := Some "" |};
     errors := None;
     messages := None |}.

(** "dGVzdA==" is the base64 text used by the unit test of the
    transformation. *)
Definition sample_image_response : CloudflareImageResponse :=
  {| cf_success := true;
     result := Some {| result_image := Some "dGVzdA==" |};
     errors := None;
     messages := None |}.

(** A success status carrying that response as its JSON body. *)
Definition json_response (data : CloudflareImageResponse) : Response :=
  {| ok := true; status := 200; header_Retry_After := None;
     text := None; json := Some data; blob := None |}.

(** One request seen from outside: what the primary provider answers in the
    initial world, what the fallback provider answers in the world the
    primary leaves behind, and the manager's own run with an empty log. *)
Definition primary_run {W : Type}
    (this : ProviderManager.ProviderManagerConfig W)
    (prompt : string) (options : GenerationOptions) (w : W)
  : ProviderResult * W :=
  runState (generate (ProviderManager.primaryProvider this) prompt options) w.

Definition fallback_run {W : Type}
    (this : ProviderManager.ProviderManagerConfig W)
    (prompt : string) (options : GenerationOptions) (w : W)
  : ProviderResult * W :=
  runState (generate (ProviderManager.fallbackProvider this) prompt options)
           (snd (primary_run this prompt options w)).

Definition manager_run {W : Type}
    (this : ProviderManager.ProviderManagerConfig W)
    (prompt : string) (options : GenerationOptions) (w : W)
  : GenerationResult * (W * list Call) :=
  runState (ProviderManager.generate this prompt options) (w, []).

Definition manager_result {W : Type}
    (this : ProviderManager.ProviderManagerConfig W)
    (prompt : string) (options : GenerationOptions) (w : W)
  : GenerationResult :=
  fst (manager_run this prompt options w).

Definition manager_log {W : Type}
    (this : ProviderManager.ProviderManagerConfig W)
    (prompt : string) (options : GenerationOptions) (w : W) : list Call :=
  snd (snd (manager_run this prompt options w)).

(** Number of requests that reached the network during one request to the
    default manager. *)
Definition requests_issued (this : ProviderManager.ProviderManagerConfig World)
    (prompt : string) (options : GenerationOptions) (w : World) : nat :=
  List.length (fetched (fst (snd (manager_run this prompt options w)))).

(** The default manager, with a [JSON.parse] that is never consulted on a
    non-empty text in the sample worlds. *)
Definition default_manager : ProviderManager.ProviderManagerConfig World :=
  ProviderManager.createProviderManager no_json.

(** A failure whose [shouldFallback] flag is true. *)
Definition recoverable_failure (r : ProviderResult) : bool :=
  negb (success r)
  && match error r with
     | Some e => shouldFallback e
     | None => false
     end.

(** [error?.retryAfter] *)
Definition retryAfter_of (e : option ProviderError) : option Z :=
  match e with
  | Some e => retryAfter e
  | None => None
  end.

(** The providers of the property tests: one fixed answer, whatever the
    prompt and the options. *)
Definition MockProvider (n : ProviderName) (answer : ProviderResult)
  : ImageProvider unit :=
  Build_ImageProvider unit n (fun _ _ => ret answer).


Definition rate_limited (retry : option Z) : ProviderResult :=
  failure {| code := RATE_LIMIT;
             message := "Too many requests. Please try again later.";
             retryAfter := retry;
             shouldFallback := true |}.

Definition fallback_rate_limited (retry : option Z) : ProviderResult :=
  failure (CloudflareProvider.classifyCloudflareError 429 None retry).



Definition rate_limited_manager (A B : option Z)
  : ProviderManager.ProviderManagerConfig unit :=
  ProviderManager.createProviderManagerWithProviders
    (MockProvider huggingface (rate_limited A))
    (MockProvider cloudflare (fallback_rate_limited B)).

Definition bare_failure : ProviderResult :=
  {| success := false; image := None; error := None |}.

Definition bare_fallback_manager : ProviderManager.ProviderManagerConfig unit :=
  ProviderManager.createProviderManagerWithProviders
    (MockProvider huggingface (rate_limited (Some 120)))
    (MockProvider cloudflare bare_failure).

(** A provider outcome with exactly one side filled in: a success with a
    non-empty image and no error, or a failure with an error and no
    image. *)
Definition one_sided (r : ProviderResult) : Prop :=
  (success r = true /\ Js.truthy (image r) = true /\ error r = None)
  \/ (success r = false /\ image r = None /\ exists e, error r = Some e).

(** The prompt text a request carries to its backend. *)
Definition request_prompt (req : Request) : string :=
  match body req with
  | HuggingFaceBody inputs _ _ _ => inputs
  | CloudflareBody prompt => prompt
  end.

(** The failure both the primary adapter and the manager hand back when
    the HuggingFace key is missing. *)
Definition configuration_error : ProviderError :=
  {| code := SERVER_ERROR;
     message := "Server configuration error.";
     retryAfter := None;
     shouldFallback := false |}.

(** What one run did to the world: the environment and the network are as
    before, and the requests [reqs] were added, in order, to those already
    issued. *)
Definition issued (before after : World) (reqs : list Request) : Prop :=
  env after = env before
  /\ network after = network before
  /\ fetched after = (fetched before ++ reqs)%list.

(** A manager result with exactly one side filled in. *)
Definition result_one_sided (r : GenerationResult) : Prop :=
  (g_success r = true /\ Js.truthy (g_image r) = true /\ g_error r = None)
  \/ (g_success r = false /\ g_image r = None /\ exists e, g_error r = Some e).

(** The world a run of the manager ends in. *)
Definition manager_world {W : Type}
    (this : ProviderManager.ProviderManagerConfig W)
    (prompt : string) (options : GenerationOptions) (w : W) : W :=
  fst (snd (manager_run this prompt options w)).

(** A world in which only the primary key is missing; the secondary backend
    would answer with an image. *)
Definition world_without_primary_key : World :=
  {| env := {| HUGGINGFACE_API_KEY := None;
               CLOUDFLARE_ACCOUNT_ID := Some "account";
               CLOUDFLARE_API_TOKEN := Some "token" |};
     network := fun _ _ => inr (json_response sample_image_response);
     fetched := [] |}.

(** ** A client of the rate limiter

    One attempt of a client that uses the limiter the way the route does:
    it asks [canMakeRequest] at one reading of the clock and, when it is
    allowed and its own work succeeds, calls [recordRequest] at a later
    reading. *)
Record Attempt : Type := {
  checkedAt : Z;
  recordedAt : Z;
  succeeded : bool
}.

(** The attempt of [ip]; the answer is whether a request was recorded. *)
Definition attempt (ip : string) (a : Attempt)
  : state ServerRateLimiter.Limiter bool :=
  check <- ServerRateLimiter.canMakeRequest (checkedAt a) ip ;;
  if (ServerRateLimiter.allowed check && succeeded a)%bool then
    ServerRateLimiter.recordRequest (recordedAt a) ip ;;
    ret true
  else ret false.

(** Successive attempts of [ip]; the answer is how many were recorded. *)
Fixpoint attempts (ip : string) (l : list Attempt)
  : state ServerRateLimiter.Limiter Z :=
  match l with
  | a :: rest =>
      recorded <- attempt ip a ;;
      n <- attempts ip rest ;;
      ret ((if recorded : bool then 1 else 0) + n)
  | [] => ret 0
  end.

(** The clock readings of the attempts never go back, starting at [t]. *)
Fixpoint in_order (t : Z) (l : list Attempt) : Prop :=
  match l with
  | a :: rest =>
      t <= checkedAt a /\ checkedAt a <= recordedAt a
      /\ in_order (recordedAt a) rest
  | [] => True
  end.

(** All the attempts end before [limit]. *)
Definition all_before (limit : Z) (l : list Attempt) : Prop :=
  Forall (fun a => recordedAt a < limit) l.

(** [ip] has no entry, or one whose window has ended at [t]. *)
Definition no_live_entry (t : Z) (ip : string)
    (s : ServerRateLimiter.Limiter) : Prop :=
  match ServerRateLimiter.rateLimitStore s ip with
  | Some e => ServerRateLimiter.resetTime e <= t
  | None => True
  end.

(** The limiter once [canMakeRequest] has reset the daily counter, if the
    daily window has ended at [now]. *)
Definition afterTotalReset (now : Z) (s : ServerRateLimiter.Limiter)
  : ServerRateLimiter.Limiter :=
  if now >=? ServerRateLimiter.totalResetTime s then
    {| ServerRateLimiter.rateLimitStore := ServerRateLimiter.rateLimitStore s;
       ServerRateLimiter.totalRequestsToday := 0;
       ServerRateLimiter.totalResetTime := now + ServerRateLimiter.WINDOW_MS |}
  else s.

(** What holds of the entry of [ip] between two attempts, [n] requests
    having been recorded since [start]: with none recorded, [ip] has no live
    entry; otherwise its entry counts them, is not over the limit, and its
    window ends no sooner than a full window after [start]. *)
Definition window_invariant (start : Z) (ip : string) (t n : Z)
    (s : ServerRateLimiter.Limiter) : Prop :=
  (n = 0 /\ no_live_entry t ip s)
  \/ (exists e,
        ServerRateLimiter.rateLimitStore s ip = Some e
        /\ ServerRateLimiter.count e = n
        /\ start + ServerRateLimiter.WINDOW_MS <= ServerRateLimiter.resetTime e
        /\ 1 <= n <= ServerRateLimiter.MAX_REQUESTS_PER_IP).

(** Successive attempts of several clients, each with its IP; the answer
    is how many were recorded. *)
Fixpoint visits (l : list (string * Attempt))
  : state ServerRateLimiter.Limiter Z :=
  match l with
  | (ip, a) :: rest =>
      recorded <- attempt ip a ;;
      n <- visits rest ;;
      ret ((if recorded : bool then 1 else 0) + n)
  | [] => ret 0
  end.

(** Two requests of [ip] that overlap, as two calls of the route can while
    each awaits its backend: both are checked, at [t1] and [t2], before
    either is recorded, at [t3] and [t4]. *)
Definition overlapping (ip : string) (t1 t2 t3 t4 : Z)
  : state ServerRateLimiter.Limiter
      (ServerRateLimiter.RateLimitCheck * ServerRateLimiter.RateLimitCheck) :=
  first_ <- ServerRateLimiter.canMakeRequest t1 ip ;;
  second <- ServerRateLimiter.canMakeRequest t2 ip ;;
  ServerRateLimiter.recordRequest t3 ip ;;
  ServerRateLimiter.recordRequest t4 ip ;;
  ret (first_, second).

(** A limiter in which one address has used four of its five requests. *)
Definition nearly_used_up_limiter : ServerRateLimiter.Limiter :=
  {| ServerRateLimiter.rateLimitStore :=
       ServerRateLimiter.Map_set "203.0.113.7"
         {| ServerRateLimiter.count := 4;
            ServerRateLimiter.resetTime := 90000000 |}
         (fun _ => None);
     ServerRateLimiter.totalRequestsToday := 4;
     ServerRateLimiter.totalResetTime := 86400000 |}.

(** ** Vocabulary for the input utilities and the route *)

(** [c] occurs in [s]. *)
Fixpoint contains (c : ascii) (s : string) : bool :=
  match s with
  | String x rest => (Ascii.eqb x c || contains c rest)%bool
  | EmptyString => false
  end.

(** The characters [sanitizeInput] escapes or removes one by one: NUL, the
    ampersand, the angle brackets and the two quotes. *)
Definition escaped_characters : list ascii :=
  ["000"; "&"; "<"; ">"; "034"; "'"]%char.

(** Every character of [s] is white space. *)
Fixpoint all_spaces (s : string) : bool :=
  match s with
  | String c rest => (JsText.isSpace c && all_spaces rest)%bool
  | EmptyString => true
  end.

(** Seven attempts of one client, one second apart, all successful. *)
Definition seven_attempts : list Attempt :=
  List.map
    (fun t => {| checkedAt := t; recordedAt := t + 500; succeeded := true |})
    [1000; 2000; 3000; 4000; 5000; 6000; 7000].

(** The sanitized prompt and the style of a request that passes the
    route's validation. *)
Definition accepted (request : Route.NextRequest)
  : option (string * StylePreset) :=
  match Route.request_json request with
  | Some body =>
      if (Route.falsy body || negb (Route.typeofObject body))%bool then None
      else
        match Route.member "prompt" body with
        | Some (Route.JString prompt) =>
            if InputUtils.isValidPrompt (InputUtils.sanitizeInput prompt)
            then
              match Route.isValidStyle (Route.member "style" body) with
              | Some st => Some (InputUtils.sanitizeInput prompt, st)
              | None => None
              end
            else None
        | _ => None
        end
  | None => None
  end.

(** The options the route hands to the manager for a style. *)
Definition route_options (st : StylePreset) : GenerationOptions :=
  {| style := st;
     negativePrompt := Some "blurry, low quality, distorted, ugly";
     timeout := Some 30000 |}.

(** The answer of the rate limiter to a request, and the limiter after
    it. *)
Definition route_check (request : Route.NextRequest) (now : Z)
    (s : Route.Server)
  : ServerRateLimiter.RateLimitCheck * ServerRateLimiter.Limiter :=
  runState
    (ServerRateLimiter.canMakeRequest now (Route.clientIp request))
    (Route.limiter s).

(** The 429 answer of the route for a refusing check. *)
Definition refusal (check : ServerRateLimiter.RateLimitCheck)
  : Route.NextResponse :=
  {| Route.http_status := 429;
     Route.payload :=
       {| Route.r_success := false;
          Route.r_image := None;
          Route.r_provider := None;
          Route.fallbackUsed := None;
          Route.r_error :=
            Some {| Route.e_code := "RATE_LIMIT";
                    Route.e_message :=
                      Js.or_else (ServerRateLimiter.reason check)
                        ("Rate limit exceeded. Please try again in "
                           ++ (if JsText.truthyNumber
                                    (ServerRateLimiter.resetInSeconds check)
                               then formatTime
                                      (Js.nullish
                                         (ServerRateLimiter.resetInSeconds
                                            check) 0)
                               else "later")
                           ++ ".");
                    Route.e_retryAfter :=
                      ServerRateLimiter.resetInSeconds check;
                    Route.e_primaryError := None;
                    Route.e_fallbackError := None |} |} |}.

(** The answer of the route for a result of the manager that is not a
    success with an image. *)
Definition failure_answer (result : GenerationResult) : Route.NextResponse :=
  match g_error result with
  | Some error =>
      {| Route.http_status :=
           Route.errorCodeToHttpStatus
             (Route.e_code (Route.mapProviderError error));
         Route.payload :=
           {| Route.r_success := false;
              Route.r_image := None;
              Route.r_provider := provider result;
              Route.fallbackUsed :=
                Some (Js.nullish (fallbackAttempted result) false);
              Route.r_error := Some (Route.mapProviderError error) |} |}
  | None =>
      Route.plainError 500 "SERVER_ERROR" "An unexpected error occurred."
  end.

(** The answer of the route for a success with an image. *)
Definition success_answer (result : GenerationResult) : Route.NextResponse :=
  {| Route.http_status := 200;
     Route.payload :=
       {| Route.r_success := true;
          Route.r_image := g_image result;
          Route.r_provider := provider result;
          Route.fallbackUsed :=
            Some (Js.nullish (fallbackAttempted result) false);
          Route.r_error := None |} |}.

(** A server that has just started at time 0, in a given world. *)
Definition fresh_server (w : World) : Route.Server :=
  {| Route.limiter := ServerRateLimiter.initial 0; Route.world := w |}.

(** A request from one address asking for a cat in the default style. *)
Definition cat_request : Route.NextRequest :=
  {| Route.x_forwarded_for := Some "203.0.113.7, 10.0.0.1";
     Route.x_real_ip := None;
     Route.request_json :=
       Some (Route.JObject
               [("prompt", Route.JString "a cute cat");
                ("style", Route.JString "default")]) |}.

(** A request whose prompt carries markup. *)
Definition script_request : Route.NextRequest :=
  {| Route.x_forwarded_for := None;
     Route.x_real_ip := Some "203.0.113.7";
     Route.request_json :=
       Some (Route.JObject
               [("prompt", Route.JString "<b>cat</b>");
                ("style", Route.JString "warm")]) |}.

(** A limiter in which one address has used its five requests of the
    window that ends at time 90000000. *)
Definition used_up_limiter : ServerRateLimiter.Limiter :=
  {| ServerRateLimiter.rateLimitStore :=
       ServerRateLimiter.Map_set "203.0.113.7"
         {| ServerRateLimiter.count := 5;
            ServerRateLimiter.resetTime := 90000000 |}
         (fun _ => None);
     ServerRateLimiter.totalRequestsToday := 5;
     ServerRateLimiter.totalResetTime := 86400000 |}.

(** * Properties of the error classifier *)

Section Classifier.

Variable status : Z.

Lemma includes_In (l : list Z) : includes l status = true <-> In status l.
Proof.
  unfold includes. rewrite existsb_exists. split.
  - intros [y [Hy E]]. apply Z.eqb_eq in E. now subst.
  - intros H. exists status. split; [assumption | apply Z.eqb_refl].
Qed.

Lemma includes_not_In (l : list Z) :
  includes l status = false <-> ~ In status l.
Proof.
  rewrite <- includes_In. destruct (includes l status); split; intro H.
  - discriminate.
  - exfalso. now apply H.
  - discriminate.
  - reflexivity.
Qed.

Lemma in_5xx_range :
  ((status >=? 500) && (status <? 600))%bool = true <-> 500 <= status < 600.
Proof.
  rewrite andb_true_iff, Z.geb_le, Z.ltb_lt. tauto.
Qed.

Lemma shouldTriggerFallback_listed :
  In status FALLBACK_HTTP_STATUSES -> shouldTriggerFallback status = true.
Proof.
  intros H. unfold shouldTriggerFallback.
  apply includes_In in H. now rewrite H.
Qed.

Lemma shouldTriggerFallback_5xx :
  500 <= status < 600 -> shouldTriggerFallback status = true.
Proof.
  intros H. unfold shouldTriggerFallback.
  destruct (includes FALLBACK_HTTP_STATUSES status); [reflexivity |].
  assert (N : includes NON_FALLBACK_HTTP_STATUSES status = false).
  { apply includes_not_In. simpl. lia. }
  rewrite N. apply in_5xx_range in H. now rewrite H.
Qed.

Lemma shouldTriggerFallback_not_listed :
  In status NON_FALLBACK_HTTP_STATUSES -> shouldTriggerFallback status = false.
Proof.
  intros H. unfold shouldTriggerFallback.
  assert (N : includes FALLBACK_HTTP_STATUSES status = false).
  { apply includes_not_In. simpl in *. lia. }
  rewrite N. apply includes_In in H. now rewrite H.
Qed.

Lemma shouldTriggerFallback_elsewhere :
  ~ In status FALLBACK_HTTP_STATUSES -> ~ (500 <= status < 600) ->
  shouldTriggerFallback status = false.
Proof.
  intros H1 H2. unfold shouldTriggerFallback.
  apply includes_not_In in H1. rewrite H1.
  destruct (includes NON_FALLBACK_HTTP_STATUSES status); [reflexivity |].
  destruct ((status >=? 500) && (status <? 600))%bool eqn:E;
    [| reflexivity].
  apply in_5xx_range in E. contradiction.
Qed.

(** Outside the eight statuses the [switch] names, the [default] branch
    decides. *)
Lemma httpStatusToErrorCode_default :
  ~ In status [400; 401; 402; 403; 408; 429; 500; 503] ->
  httpStatusToErrorCode status =
    if ((status >=? 500) && (status <? 600))%bool
    then SERVER_ERROR else UNKNOWN.
Proof.
  intros H. unfold httpStatusToErrorCode.
  destruct status as [| p | p]; try reflexivity.
  do 10 (try (destruct p as [p | p |]; try reflexivity)).
  all: exfalso; apply H; simpl; tauto.
Qed.

Lemma httpStatusToErrorCode_RATE_LIMIT :
  httpStatusToErrorCode status = RATE_LIMIT -> status = 429.
Proof.
  intros H.
  destruct (Z.eq_dec status 429) as [E | N]; [assumption |].
  destruct (in_dec Z.eq_dec status [400; 401; 402; 403; 408; 429; 500; 503])
    as [I | I].
  - simpl in I.
    repeat (destruct I as [I | I]; [subst; try discriminate H; try lia |]).
    contradiction.
  - rewrite (httpStatusToErrorCode_default I) in H.
    destruct ((status >=? 500) && (status <? 600))%bool; discriminate.
Qed.

End Classifier.

(** C2 (recoverability partition). For the statuses 402, 403, 429, 500 and
    503 and for every status from 500 to 599 the primary classifier
    [createProviderError] sets [shouldFallback] to true; for 400 and 401 it
    sets it to false; the secondary classifier [classifyCloudflareError]
    sets it to false for every status. *)
Theorem recoverability_partition
    (status : Z) (msg : option string) (retry : option Z) :
  (In status [402; 403; 429; 500; 503] \/ 500 <= status < 600 ->
     shouldFallback (createProviderError status msg retry) = true)
  /\ (In status [400; 401] ->
     shouldFallback (createProviderError status msg retry) = false)
  /\ shouldFallback
       (CloudflareProvider.classifyCloudflareError status msg retry) = false.
Proof.
  repeat split.
  - intros [H | H]; simpl.
    + now apply shouldTriggerFallback_listed.
    + now apply shouldTriggerFallback_5xx.
  - intros H. simpl. now apply shouldTriggerFallback_not_listed.
Qed.

Lemma recoverability_partition_witness :
  shouldFallback (createProviderError 502 None None) = true
  /\ shouldFallback (createProviderError 401 None None) = false
  /\ shouldFallback
       (CloudflareProvider.classifyCloudflareError 502 None None) = false.
Proof.
  split; [| split].
  - apply (proj1 (recoverability_partition 502 None None)). right. lia.
  - apply (proj1 (proj2 (recoverability_partition 401 None None))).
    simpl. tauto.
  - apply (proj2 (proj2 (recoverability_partition 502 None None))).
Defined.

(** C7, as stated, fails for the primary classifier: for status 503 the
    code is SERVICE_UNAVAILABLE, not RATE_LIMIT, and a supplied hint of 30
    seconds is still carried by the error [createProviderError] returns. *)
Lemma primary_classifier_keeps_hint :
  code (createProviderError 503 None (Some 30)) <> RATE_LIMIT
  /\ ~ (retryAfter (createProviderError 503 None (Some 30)) = None).
Proof.
  split; simpl; discriminate.
Qed.

(** C7 (amended). When the resulting code is not RATE_LIMIT, the secondary
    classifier [classifyCloudflareError] drops a supplied hint, and the
    primary classifier [createProviderError] carries the supplied hint
    unchanged. *)
Theorem retry_hint_outside_rate_limit
    (status : Z) (msg : option string) (hint : Z) :
  (code (CloudflareProvider.classifyCloudflareError status msg (Some hint))
     <> RATE_LIMIT ->
   retryAfter
     (CloudflareProvider.classifyCloudflareError status msg (Some hint))
     = None)
  /\ (code (createProviderError status msg (Some hint)) <> RATE_LIMIT ->
      retryAfter (createProviderError status msg (Some hint)) = Some hint).
Proof.
  split; simpl; intros H;
    destruct (httpStatusToErrorCode status); simpl;
    try reflexivity; contradiction.
Qed.

Lemma retry_hint_outside_rate_limit_witness :
  retryAfter (CloudflareProvider.classifyCloudflareError 503 None (Some 30))
    = None
  /\ retryAfter (createProviderError 503 None (Some 30)) = Some 30.
Proof.
  split.
  - apply (proj1 (retry_hint_outside_rate_limit 503 None 30)).
    simpl. discriminate.
  - apply (proj2 (retry_hint_outside_rate_limit 503 None 30)).
    simpl. discriminate.
Defined.

(** C8, as stated, fails at status 408: it is outside the enumerated set
    and outside the 5xx range, and the primary classifier gives it the code
    TIMEOUT, not UNKNOWN. *)
Lemma status_408_is_not_UNKNOWN :
  unclassified 408
  /\ ~ (code (createProviderError 408 None None) = UNKNOWN).
Proof.
  split.
  - split; simpl; lia.
  - simpl. discriminate.
Qed.

(** C8 (amended). For every status outside 400, 401, 402, 403, 429, 500,
    503 and outside the range from 500 to 599, the primary classifier sets
    [shouldFallback] to false, so such a status never triggers fallback; its
    code is UNKNOWN, except for status 408, whose code is TIMEOUT. *)
Theorem unclassified_status_never_falls_back
    (status : Z) (msg : option string) (retry : option Z) :
  unclassified status ->
  shouldFallback (createProviderError status msg retry) = false
  /\ (status <> 408 -> code (createProviderError status msg retry) = UNKNOWN)
  /\ (status = 408 -> code (createProviderError status msg retry) = TIMEOUT).
Proof.
  intros [Hset Hrange]. repeat split.
  - simpl. apply shouldTriggerFallback_elsewhere; [| assumption].
    intros H. apply Hset. simpl in *. tauto.
  - intros H408. simpl. rewrite httpStatusToErrorCode_default.
    + destruct ((status >=? 500) && (status <? 600))%bool eqn:E;
        [| reflexivity].
      apply in_5xx_range in E. contradiction.
    + intros H. apply Hset. simpl in *. intuition congruence.
  - intros ->. reflexivity.
Qed.

Lemma unclassified_status_never_falls_back_witness :
  shouldFallback (createProviderError 404 None None) = false
  /\ code (createProviderError 404 None None) = UNKNOWN.
Proof.
  assert (U : unclassified 404) by (split; simpl; lia).
  split.
  - apply (proj1 (unclassified_status_never_falls_back 404 None None U)).
  - apply (proj1 (proj2
             (unclassified_status_never_falls_back 404 None None U))).
    discriminate.
Defined.

(** * Properties of the two adapters *)

Section Adapters.

Variable JSON_parse : string -> option JsonErrorBody.
Variable prompt : string.
Variable options : GenerationOptions.
Variable w : World.

Lemma HuggingFace_no_key :
  throws (getHuggingFaceApiKey (env w)) = true ->
  runState (HuggingFaceProvider.generate JSON_parse prompt options) w
  = (configuration_fault, w).
Proof.
  intros H. unfold HuggingFaceProvider.generate. cbn.
  destruct (getHuggingFaceApiKey (env w)); [reflexivity | discriminate].
Qed.

Lemma Cloudflare_no_credentials :
  throws (getCloudflareAccountId (env w)) = true
  \/ throws (getCloudflareApiToken (env w)) = true ->
  runState (CloudflareProvider.generate prompt options) w
  = (configuration_fault, w).
Proof.
  intros H. unfold CloudflareProvider.generate. cbn.
  destruct (getCloudflareAccountId (env w)); [reflexivity |].
  destruct (getCloudflareApiToken (env w)); [reflexivity |].
  destruct H; discriminate.
Qed.

End Adapters.

(** C3, as stated, fails for the primary adapter: with no API key in the
    environment, credential resolution fails and the failure that
    [HuggingFaceProvider.generate] returns does not have its recoverable
    flag set to true. *)
Lemma primary_configuration_fault_not_recoverable :
  throws (getHuggingFaceApiKey (env unconfigured_world)) = true
  /\ ~ (option_map shouldFallback
          (error (fst (runState
             (HuggingFaceProvider.generate no_json
                "cat" sample_options)
             unconfigured_world)))
        = Some true).
Proof.
  split; [reflexivity | cbn; discriminate].
Qed.

(** C3 (amended). If an adapter's credential resolution fails, [generate]
    returns a failure with code SERVER_ERROR whose recoverable flag is
    false, for the primary adapter as for the secondary one, and leaves the
    world as it was: no request is issued. *)
Theorem configuration_fault_without_fetch
    (JSON_parse : string -> option JsonErrorBody)
    (prompt : string) (options : GenerationOptions) (w : World) :
  (throws (getHuggingFaceApiKey (env w)) = true ->
   runState (HuggingFaceProvider.generate JSON_parse prompt options) w
   = (failure {| code := SERVER_ERROR;
                 message := "Server configuration error.";
                 retryAfter := None;
                 shouldFallback := false |},
      w))
  /\ (throws (getCloudflareAccountId (env w)) = true
      \/ throws (getCloudflareApiToken (env w)) = true ->
      runState (CloudflareProvider.generate prompt options) w
      = (failure {| code := SERVER_ERROR;
                    message := "Server configuration error.";
                    retryAfter := None;
                    shouldFallback := false |},
         w)).
Proof.
  split; intros H.
  - now apply HuggingFace_no_key.
  - now apply Cloudflare_no_credentials.
Qed.

Lemma configuration_fault_without_fetch_witness :
  runState (HuggingFaceProvider.generate no_json
              "cat" sample_options) unconfigured_world
  = (configuration_fault, unconfigured_world)
  /\ runState (CloudflareProvider.generate "cat" sample_options)
       unconfigured_world
     = (configuration_fault, unconfigured_world).
Proof.
  split.
  - apply (proj1 (configuration_fault_without_fetch
                    no_json "cat" sample_options unconfigured_world)).
    reflexivity.
  - apply (proj2 (configuration_fault_without_fetch
                    no_json "cat" sample_options unconfigured_world)).
    left. reflexivity.
Defined.

Section MalformedSuccess.

Variable JSON_parse : string -> option JsonErrorBody.
Variable prompt : string.
Variable options : GenerationOptions.
Variable w : World.



End MalformedSuccess.




(** C9, as stated, fails for the empty string: a response with
    [success = true] and [result.image = ""] is not turned into a success
    carrying the data URL prefix followed by the empty string. *)
Lemma empty_image_is_not_a_success :
  cf_success empty_image_response = true
  /\ result empty_image_response = Some {| result_image := Some "" |}
  /\ ~ (CloudflareProvider.transformCloudflareResponse empty_image_response
        = {| success := true;
             image := Some ("data:image/png;base64," ++ "");
             error := None |}).
Proof.
  repeat split. cbn. discriminate.
Qed.

(** C9 (amended). For every non-empty base64 string S delivered by the
    secondary backend as a successful image ([success = true] with
    [result.image = S]), [transformCloudflareResponse] gives a success whose
    image is exactly "data:image/png;base64," followed by S, and so does
    the adapter's [generate] when the backend answers the adapter's request
    with that body under a success status. *)
Theorem data_url_round_trip (response : CloudflareImageResponse) (S : string) :
  S <> "" ->
  cf_success response = true ->
  result response = Some {| result_image := Some S |} ->
  CloudflareProvider.transformCloudflareResponse response
  = {| success := true;
       image := Some ("data:image/png;base64," ++ S);
       error := None |}
  /\ forall prompt options w accountId apiToken,
       getCloudflareAccountId (env w) = inr accountId ->
       getCloudflareApiToken (env w) = inr apiToken ->
       (exists r,
          secondary_answer w accountId apiToken prompt options = inr r
          /\ ok r = true /\ json r = Some response) ->
       fst (runState (CloudflareProvider.generate prompt options) w)
       = {| success := true;
            image := Some ("data:image/png;base64," ++ S);
            error := None |}.
Proof.
  intros HS Hsuccess Hresult.
  assert (T : CloudflareProvider.transformCloudflareResponse response
              = {| success := true;
                   image := Some ("data:image/png;base64," ++ S);
                   error := None |}).
  { unfold CloudflareProvider.transformCloudflareResponse,
      CloudflareProvider.result_image_of.
    rewrite Hsuccess, Hresult. destruct S; [contradiction | reflexivity]. }
  split; [exact T |].
  intros prompt options w accountId apiToken Hid Htoken Hnet.
  unfold CloudflareProvider.generate. cbn.
  rewrite Hid, Htoken. cbn.
  destruct Hnet as [r [Hr [Hok Hjson]]].
  match goal with
  | |- context [network w ?req ?ms] =>
      change (network w req ms)
        with (secondary_answer w accountId apiToken prompt options)
  end.
  rewrite Hr. cbn. rewrite Hok, Hjson. cbn. exact T.
Qed.

Lemma data_url_round_trip_witness :
  CloudflareProvider.transformCloudflareResponse sample_image_response
  = {| success := true;
       image := Some "data:image/png;base64,dGVzdA==";
       error := None |}
  /\ fst (runState (CloudflareProvider.generate "cat" sample_options)
            (two_backends (inr (http_error 500 None))
               (inr (json_response sample_image_response))))
     = {| success := true;
          image := Some "data:image/png;base64,dGVzdA==";
          error := None |}.
Proof.
  assert (N : "dGVzdA==" <> "") by discriminate.
  destruct (data_url_round_trip sample_image_response "dGVzdA=="
              N eq_refl eq_refl) as [Htransform Hgenerate].
  split; [exact Htransform |].
  apply (Hgenerate "cat" sample_options _ "account" "token");
    try reflexivity.
  exists (json_response sample_image_response).
  repeat split.
Defined.

(** * Properties of the provider manager *)

Section ManagerRun.

Variable W : Type.
Variable this : ProviderManager.ProviderManagerConfig W.
Variable prompt : string.
Variable options : GenerationOptions.
Variable w : W.

Local Abbreviation primaryName := (name (ProviderManager.primaryProvider this)).
Local Abbreviation fallbackName :=
  (name (ProviderManager.fallbackProvider this)).
Local Abbreviation primaryResult := (fst (primary_run this prompt options w)).
Local Abbreviation fallbackResult := (fst (fallback_run this prompt options w)).
Local Abbreviation toPrimary :=
  {| callee := Primary; call_prompt := prompt; call_options := options |}.
Local Abbreviation toFallback :=
  {| callee := Fallback; call_prompt := prompt; call_options := options |}.

(** The four ways a request can end. *)
Lemma run_primary_success :
  success primaryResult = true ->
  manager_run this prompt options w
  = ({| g_success := true;
        g_image := image primaryResult;
        provider := Some primaryName;
        g_error := None;
        fallbackAttempted := Some false |},
     (snd (primary_run this prompt options w), [toPrimary])).
Proof.
  unfold manager_run, ProviderManager.generate, ProviderManager.invoke,
    primary_run.
  cbn. destruct (runState _ w) as [r1 w1]. cbn. intros ->. reflexivity.
Qed.

Lemma run_primary_final :
  success primaryResult = false ->
  recoverable_failure primaryResult = false ->
  manager_run this prompt options w
  = ({| g_success := false;
        g_image := None;
        provider := Some primaryName;
        g_error := option_map Single (error primaryResult);
        fallbackAttempted := Some false |},
     (snd (primary_run this prompt options w), [toPrimary])).
Proof.
  unfold manager_run, ProviderManager.generate, ProviderManager.invoke,
    recoverable_failure, primary_run.
  cbn. destruct (runState _ w) as [r1 w1]. cbn. intros -> H. cbn in H.
  destruct (error r1) as [e |]; [| reflexivity].
  rewrite H. reflexivity.
Qed.

Lemma run_fallback_success :
  recoverable_failure primaryResult = true ->
  success fallbackResult = true ->
  manager_run this prompt options w
  = ({| g_success := true;
        g_image := image fallbackResult;
        provider := Some fallbackName;
        g_error := None;
        fallbackAttempted := Some true |},
     (snd (fallback_run this prompt options w), [toPrimary; toFallback])).
Proof.
  unfold manager_run, ProviderManager.generate, ProviderManager.invoke,
    recoverable_failure, fallback_run, primary_run.
  cbn. destruct (runState _ w) as [r1 w1]. cbn. intros H.
  apply andb_true_iff in H. destruct H as [Hs He].
  apply negb_true_iff in Hs. rewrite Hs.
  destruct (error r1) as [e |]; [| discriminate].
  rewrite He. cbn. destruct (runState _ w1) as [r2 w2]. cbn.
  intros ->. reflexivity.
Qed.

Lemma run_dual_failure (e : ProviderError) :
  success primaryResult = false ->
  error primaryResult = Some e ->
  shouldFallback e = true ->
  success fallbackResult = false ->
  manager_run this prompt options w
  = ({| g_success := false;
        g_image := None;
        provider := None;
        g_error :=
          Some (Dual (ProviderManager.createDualProviderError
                        e (error fallbackResult)));
        fallbackAttempted := Some true |},
     (snd (fallback_run this prompt options w), [toPrimary; toFallback])).
Proof.
  unfold manager_run, ProviderManager.generate, ProviderManager.invoke,
    fallback_run, primary_run.
  cbn. destruct (runState _ w) as [r1 w1]. cbn. intros -> -> ->. cbn.
  destruct (runState _ w1) as [r2 w2]. cbn. intros ->. reflexivity.
Qed.

(** Whatever the providers answer, the log is the call to the primary,
    followed by the call to the fallback exactly when the primary failed
    recoverably. *)
Lemma manager_log_shape :
  manager_log this prompt options w
  = if recoverable_failure primaryResult
    then [toPrimary; toFallback] else [toPrimary].
Proof.
  unfold manager_log.
  destruct (recoverable_failure primaryResult) eqn:R.
  - destruct (success fallbackResult) eqn:F.
    + now rewrite run_fallback_success.
    + pose proof R as R'. unfold recoverable_failure in R'.
      apply andb_true_iff in R'. destruct R' as [Hs He].
      apply negb_true_iff in Hs.
      destruct (error primaryResult) as [e |] eqn:E; [| discriminate].
      now rewrite (run_dual_failure e).
  - destruct (success primaryResult) eqn:S.
    + now rewrite run_primary_success.
    + now rewrite run_primary_final.
Qed.

End ManagerRun.



(** C4 (minimum retry time). When the primary provider fails recoverably
    and the fallback provider fails too, the manager returns a failure with
    [fallbackAttempted = true], no provider name, and a dual-failure error
    that is not recoverable; its retry time is the minimum of the two
    errors' retry times when both are defined, the defined one when exactly
    one is, and absent when neither is. *)
Theorem dual_failure_retry_time
    (W : Type) (this : ProviderManager.ProviderManagerConfig W)
    (prompt : string) (options : GenerationOptions) (w : W)
    (primaryErr : ProviderError) :
  success (fst (primary_run this prompt options w)) = false ->
  error (fst (primary_run this prompt options w)) = Some primaryErr ->
  shouldFallback primaryErr = true ->
  success (fst (fallback_run this prompt options w)) = false ->
  exists dualError,
    manager_result this prompt options w
    = {| g_success := false;
         g_image := None;
         provider := None;
         g_error := Some (Dual dualError);
         fallbackAttempted := Some true |}
    /\ dual_shouldFallback dualError = false
    /\ (forall A B,
          retryAfter primaryErr = Some A ->
          retryAfter_of (error (fst (fallback_run this prompt options w)))
          = Some B ->
          dual_retryAfter dualError = Some (Z.min A B))
    /\ (forall A,
          retryAfter primaryErr = Some A ->
          retryAfter_of (error (fst (fallback_run this prompt options w)))
          = None ->
          dual_retryAfter dualError = Some A)
    /\ (forall B,
          retryAfter primaryErr = None ->
          retryAfter_of (error (fst (fallback_run this prompt options w)))
          = Some B ->
          dual_retryAfter dualError = Some B)
    /\ (retryAfter primaryErr = None ->
        retryAfter_of (error (fst (fallback_run this prompt options w)))
        = None ->
        dual_retryAfter dualError = None).
Proof.
  intros Hs He Hf Hs2.
  exists (ProviderManager.createDualProviderError
            primaryErr (error (fst (fallback_run this prompt options w)))).
  split.
  - unfold manager_result. now rewrite (run_dual_failure _ _ _ _ _ primaryErr).
  - cbn. unfold ProviderManager.calculateMinRetryTime, retryAfter_of.
    repeat split; intros; 
      repeat match goal with
             | H : _ = _ |- _ => rewrite H
             end; reflexivity.
Qed.

Lemma dual_failure_retry_time_witness :
  exists dualError,
    manager_result (ProviderManager.createProviderManager no_json)
      "cat" sample_options
      (two_backends (inr (http_error 429 (Some "120")))
                    (inr (http_error 429 (Some "45"))))
    = {| g_success := false;
         g_image := None;
         provider := None;
         g_error := Some (Dual dualError);
         fallbackAttempted := Some true |}
    /\ dual_shouldFallback dualError = false
    /\ dual_retryAfter dualError = Some 45.
Proof.
  destruct (dual_failure_retry_time
              World (ProviderManager.createProviderManager no_json)
              "cat" sample_options
              (two_backends (inr (http_error 429 (Some "120")))
                            (inr (http_error 429 (Some "45"))))
              (createProviderError 429 None (Some 120))
              eq_refl eq_refl eq_refl eq_refl)
    as [dualError [Hresult [Hflag [Hmin _]]]].
  exists dualError. split; [exact Hresult |]. split; [exact Hflag |].
  exact (Hmin 120 45 eq_refl eq_refl).
Defined.

(** C5 (parameter preservation). In the log of one [generate], every call
    to the fallback provider carries the prompt and the options that the
    call to the primary provider carries, which are the ones [generate] was
    given. *)
Theorem fallback_receives_primary_arguments
    (W : Type) (this : ProviderManager.ProviderManagerConfig W)
    (prompt : string) (options : GenerationOptions) (w : W)
    (toPrimary toFallback : Call) :
  In toPrimary (manager_log this prompt options w) ->
  callee toPrimary = Primary ->
  In toFallback (manager_log this prompt options w) ->
  callee toFallback = Fallback ->
  call_prompt toFallback = call_prompt toPrimary
  /\ call_options toFallback = call_options toPrimary
  /\ call_prompt toPrimary = prompt
  /\ call_options toPrimary = options.
Proof.
  rewrite manager_log_shape.
  destruct (recoverable_failure _); simpl;
    intros Hp Cp Hf Cf;
    repeat match goal with
           | H : _ \/ _ |- _ => destruct H
           | H : False |- _ => contradiction
           | H : {| callee := _ |} = _ |- _ => subst
           end;
    simpl in *; try discriminate; repeat split.
Qed.

Lemma fallback_receives_primary_arguments_witness :
  call_prompt {| callee := Fallback; call_prompt := "cat";
                 call_options := sample_options |}
  = call_prompt {| callee := Primary; call_prompt := "cat";
                   call_options := sample_options |}
  /\ call_options {| callee := Fallback; call_prompt := "cat";
                     call_options := sample_options |}
     = call_options {| callee := Primary; call_prompt := "cat";
                       call_options := sample_options |}
  /\ call_prompt {| callee := Primary; call_prompt := "cat";
                    call_options := sample_options |} = "cat"
  /\ call_options {| callee := Primary; call_prompt := "cat";
                     call_options := sample_options |} = sample_options.
Proof.
  apply (fallback_receives_primary_arguments
           unit (rate_limited_manager None None) "cat" sample_options tt).
  - left. reflexivity.
  - reflexivity.
  - right. left. reflexivity.
  - reflexivity.
Defined.

(** C10 (malformed fallback outcome). If the primary provider fails
    recoverably and the fallback provider answers [success = false] with no
    error, [generate] still returns a result: a failure with
    [fallbackAttempted = true] whose error is a DUAL_PROVIDER_FAILURE with
    the fixed fallback message 'Unknown fallback error' and the primary
    error's retry time. *)
Theorem malformed_fallback_outcome
    (W : Type) (this : ProviderManager.ProviderManagerConfig W)
    (prompt : string) (options : GenerationOptions) (w : W)
    (primaryErr : ProviderError) :
  success (fst (primary_run this prompt options w)) = false ->
  error (fst (primary_run this prompt options w)) = Some primaryErr ->
  shouldFallback primaryErr = true ->
  success (fst (fallback_run this prompt options w)) = false ->
  error (fst (fallback_run this prompt options w)) = None ->
  manager_result this prompt options w
  = {| g_success := false;
       g_image := None;
       provider := None;
       g_error :=
         Some (Dual
           {| dual_code := DUAL_PROVIDER_FAILURE;
              dual_message :=
                "Both image generation services are currently unavailable.";
              primaryError := message primaryErr;
              fallbackError := "Unknown fallback error";
              dual_retryAfter := retryAfter primaryErr;
              dual_shouldFallback := false |});
       fallbackAttempted := Some true |}.
Proof.
  intros Hs He Hf Hs2 He2.
  unfold manager_result.
  rewrite (run_dual_failure _ _ _ _ _ primaryErr) by assumption.
  rewrite He2. cbn.
  unfold ProviderManager.createDualProviderError,
    ProviderManager.calculateMinRetryTime.
  cbn. now destruct (retryAfter primaryErr).
Qed.

Lemma malformed_fallback_outcome_witness :
  manager_result bare_fallback_manager "cat" sample_options tt
  = {| g_success := false;
       g_image := None;
       provider := None;
       g_error :=
         Some (Dual
           {| dual_code := DUAL_PROVIDER_FAILURE;
              dual_message :=
                "Both image generation services are currently unavailable.";
              primaryError := "Too many requests. Please try again later.";
              fallbackError := "Unknown fallback error";
              dual_retryAfter := Some 120;
              dual_shouldFallback := false |});
       fallbackAttempted := Some true |}.
Proof.
  apply (malformed_fallback_outcome
           unit bare_fallback_manager "cat" sample_options tt
           {| code := RATE_LIMIT;
              message := "Too many requests. Please try again later.";
              retryAfter := Some 120;
              shouldFallback := true |});
    reflexivity.
Defined.

(** * The scenarios of the specification, run on the two adapters *)

(** Primary answers 200 with an image body. *)
Example scenario_primary_success :
  manager_result default_manager "cat" sample_options
    (two_backends (inr png_response) (inr unreadable_success))
  = {| g_success := true;
       g_image := Some "data:image/png;base64,iVBORw==";
       provider := Some huggingface;
       g_error := None;
       fallbackAttempted := Some false |}
  /\ requests_issued default_manager "cat" sample_options
       (two_backends (inr png_response) (inr unreadable_success)) = 1%nat.
Proof. split; reflexivity. Qed.

(** Primary answers 429 without a Retry-After header, secondary answers 200
    with an image. *)
Example scenario_fallback_success :
  manager_result default_manager "cat" sample_options
    (two_backends (inr (http_error 429 None))
                  (inr (json_response sample_image_response)))
  = {| g_success := true;
       g_image := Some "data:image/png;base64,dGVzdA==";
       provider := Some cloudflare;
       g_error := None;
       fallbackAttempted := Some true |}
  /\ manager_log default_manager "cat" sample_options
       (two_backends (inr (http_error 429 None))
                     (inr (json_response sample_image_response)))
     = [ {| callee := Primary; call_prompt := "cat";
            call_options := sample_options |};
         {| callee := Fallback; call_prompt := "cat";
            call_options := sample_options |} ].
Proof. split; reflexivity. Qed.

(** Primary answers 401: the secondary backend is never reached. *)
Example scenario_unauthorized :
  manager_result default_manager "cat" sample_options
    (two_backends (inr (http_error 401 None))
                  (inr (json_response sample_image_response)))
  = {| g_success := false;
       g_image := None;
       provider := Some huggingface;
       g_error :=
         Some (Single
           {| code := UNAUTHORIZED;
              message :=
                "Authentication error occurred. Please refresh the page.";
              retryAfter := None;
              shouldFallback := false |});
       fallbackAttempted := Some false |}
  /\ requests_issued default_manager "cat" sample_options
       (two_backends (inr (http_error 401 None))
                     (inr (json_response sample_image_response))) = 1%nat.
Proof. split; reflexivity. Qed.

(** Primary answers 500 without a retry time, secondary answers 429 with
    Retry-After: 45. *)
Example scenario_dual_failure :
  manager_result default_manager "cat" sample_options
    (two_backends (inr (http_error 500 None))
                  (inr (http_error 429 (Some "45"))))
  = {| g_success := false;
       g_image := None;
       provider := None;
       g_error :=
         Some (Dual
           {| dual_code := DUAL_PROVIDER_FAILURE;
              dual_message :=
                "Both image generation services are currently unavailable.";
              primaryError := "A server error occurred. Please try again.";
              fallbackError := "Too many requests. Please try again later.";
              dual_retryAfter := Some 45;
              dual_shouldFallback := false |});
       fallbackAttempted := Some true |}.
Proof. reflexivity. Qed.

(** No credential is configured: nothing reaches the network. *)
Example scenario_unconfigured :
  manager_result default_manager "cat" sample_options unconfigured_world
  = {| g_success := false;
       g_image := None;
       provider := Some huggingface;
       g_error :=
         Some (Single
           {| code := SERVER_ERROR;
              message := "Server configuration error.";
              retryAfter := None;
              shouldFallback := false |});
       fallbackAttempted := Some false |}
  /\ requests_issued default_manager "cat" sample_options unconfigured_world
     = 0%nat.
Proof. split; reflexivity. Qed.

(** Status 503 seen by the secondary adapter and by the primary one. *)
Example scenario_asymmetry :
  fst (runState (CloudflareProvider.generate "cat" sample_options)
         (world_answering (inr (http_error 503 None))))
  = failure
      {| code := SERVICE_UNAVAILABLE;
         message :=
           "Service is currently unavailable. Please try again later.";
         retryAfter := None;
         shouldFallback := false |}
  /\ fst (runState (HuggingFaceProvider.generate no_json "cat" sample_options)
            (world_answering (inr (http_error 503 None))))
     = failure
         {| code := SERVICE_UNAVAILABLE;
            message :=
              "Service is currently unavailable. Please try again later.";
            retryAfter := None;
            shouldFallback := true |}.
Proof. split; reflexivity. Qed.

(** An empty image body under a success status is not detected by the
    primary adapter. *)
Example primary_accepts_empty_body :
  fst (runState (HuggingFaceProvider.generate no_json "cat" sample_options)
         (world_answering (inr empty_response)))
  = {| success := true;
       image := Some "data:image/png;base64,";
       error := None |}.
Proof. reflexivity. Qed.

(** * Further properties of the classifier *)

Lemma verdicts_agree_off_408 (status : Z) :
  status <> 408 ->
  shouldTriggerFallback status
  = shouldFallbackForErrorCode (httpStatusToErrorCode status).
Proof.
  intros N.
  destruct (in_dec Z.eq_dec status [400; 401; 402; 403; 408; 429; 500; 503])
    as [I | I].
  - simpl in I.
    repeat (destruct I as [I | I]; [subst; try reflexivity; try lia |]).
    contradiction.
  - rewrite (httpStatusToErrorCode_default status I).
    destruct ((status >=? 500) && (status <? 600))%bool eqn:R.
    + apply in_5xx_range in R. now apply shouldTriggerFallback_5xx.
    + apply shouldTriggerFallback_elsewhere.
      * intros J. apply I. simpl in *. tauto.
      * intros J. apply in_5xx_range in J. congruence.
Qed.

(** X1. The verdict [shouldTriggerFallback] gives on a status is the verdict
    [shouldFallbackForErrorCode] gives on the code of that status, for
    every status but 408; at 408 the status is not a fallback status while
    its code, TIMEOUT, is a fallback code. *)
Theorem status_and_code_verdicts_agree (status : Z) :
  shouldTriggerFallback status
  = shouldFallbackForErrorCode (httpStatusToErrorCode status)
  <-> status <> 408.
Proof.
  split.
  - intros H ->. discriminate H.
  - apply verdicts_agree_off_408.
Qed.

(** X2. The primary classifier gives the code RATE_LIMIT to status 429 and
    to no other status, and a RATE_LIMIT error always carries a retry time:
    the supplied hint, or 60 when none is supplied. *)
Theorem rate_limit_always_has_retry_time
    (status : Z) (msg : option string) (retry : option Z) :
  (code (createProviderError status msg retry) = RATE_LIMIT <-> status = 429)
  /\ (code (createProviderError status msg retry) = RATE_LIMIT ->
      retryAfter (createProviderError status msg retry)
      = Some (match retry with Some hint => hint | None => 60 end)).
Proof.
  split.
  - split.
    + apply httpStatusToErrorCode_RATE_LIMIT.
    + intros ->. reflexivity.
  - intros H. apply httpStatusToErrorCode_RATE_LIMIT in H. subst.
    now destruct retry.
Qed.

Lemma rate_limit_always_has_retry_time_witness :
  retryAfter (createProviderError 429 None None) = Some 60.
Proof.
  apply (proj2 (rate_limit_always_has_retry_time 429 None None)).
  reflexivity.
Defined.

Lemma or_else_not_empty (a : option string) (b : string) :
  b <> "" -> Js.or_else a b <> "".
Proof.
  intros H. destruct a as [[| c s] |]; simpl; try assumption. discriminate.
Qed.

(** X3. Whatever the status, the message and the hint, the error built by
    either classifier has a non-empty message: the supplied message when it
    is not empty, and otherwise the default message of the code. *)
Theorem classifier_message_never_empty
    (status : Z) (msg : option string) (retry : option Z) :
  message (createProviderError status msg retry) <> ""
  /\ message (CloudflareProvider.classifyCloudflareError status msg retry)
     <> ""
  /\ (forall m, msg = Some m -> m <> "" ->
      message (createProviderError status msg retry) = m
      /\ message (CloudflareProvider.classifyCloudflareError status msg retry)
         = m).
Proof.
  repeat split.
  - simpl. apply or_else_not_empty.
    destruct (httpStatusToErrorCode status); discriminate.
  - simpl. apply or_else_not_empty.
    destruct (httpStatusToErrorCode status); discriminate.
  - subst. simpl. destruct m; [contradiction | reflexivity].
  - subst. simpl. destruct m; [contradiction | reflexivity].
Qed.

Lemma classifier_message_never_empty_witness :
  message (createProviderError 500 (Some "boom") None) = "boom"
  /\ message (CloudflareProvider.classifyCloudflareError
                500 (Some "boom") None) = "boom".
Proof.
  apply (proj2 (proj2 (classifier_message_never_empty 500 (Some "boom") None))
           "boom" eq_refl).
  discriminate.
Defined.

(** * Further properties of the two adapters *)

(** Split on whatever the goal still matches on or tests. *)
Ltac branch :=
  match goal with
  | |- context [match ?x with _ => _ end] =>
      match type of x with
      | sum _ _ => destruct x eqn:?
      | option _ => destruct x eqn:?
      | bool => destruct x eqn:?
      end
  | |- context [if ?x then _ else _] => destruct x eqn:?
  end; cbn.

Section AdapterRuns.

Variable JSON_parse : string -> option JsonErrorBody.
Variable prompt : string.
Variable options : GenerationOptions.
Variable w : World.

Lemma app_nil_end_eq {A : Type} (l : list A) : l = (l ++ [])%list.
Proof. now rewrite app_nil_r. Qed.

Lemma transformCloudflareResponse_one_sided (data : CloudflareImageResponse) :
  one_sided (CloudflareProvider.transformCloudflareResponse data)
  /\ forall e,
       error (CloudflareProvider.transformCloudflareResponse data) = Some e ->
       shouldFallback e = false.
Proof.
  unfold CloudflareProvider.transformCloudflareResponse.
  destruct (cf_success data && Js.truthy
              (CloudflareProvider.result_image_of data))%bool eqn:E.
  - split; [left | discriminate]. repeat split.
  - split; [right | cbn; now intros e [= <-]]. repeat split. eexists.
    reflexivity.
Qed.

Lemma HuggingFace_one_sided :
  one_sided
    (fst (runState (HuggingFaceProvider.generate JSON_parse prompt options) w)).
Proof.
  unfold HuggingFaceProvider.generate, HuggingFaceProvider.fetchWithTimeout.
  cbn. repeat branch;
    solve [ left; repeat split
          | right; repeat split; eexists; reflexivity ].
Qed.

Lemma Cloudflare_one_sided :
  one_sided (fst (runState (CloudflareProvider.generate prompt options) w)).
Proof.
  unfold CloudflareProvider.generate. cbn.
  destruct (getCloudflareAccountId (env w)); cbn;
    [right; repeat split; eexists; reflexivity |].
  destruct (getCloudflareApiToken (env w)); cbn;
    [right; repeat split; eexists; reflexivity |].
  destruct (network w _ _) as [err | response]; cbn.
  - destruct (isAbortError err); cbn;
      right; repeat split; eexists; reflexivity.
  - destruct (ok response); cbn;
      [| right; repeat split; eexists; reflexivity].
    destruct (json response) as [data |]; cbn.
    + apply transformCloudflareResponse_one_sided.
    + right; repeat split; eexists; reflexivity.
Qed.

Lemma Cloudflare_not_recoverable (e : ProviderError) :
  error (fst (runState (CloudflareProvider.generate prompt options) w))
  = Some e ->
  shouldFallback e = false.
Proof.
  unfold CloudflareProvider.generate. cbn.
  destruct (getCloudflareAccountId (env w)); cbn; [now intros [= <-] |].
  destruct (getCloudflareApiToken (env w)); cbn; [now intros [= <-] |].
  destruct (network w _ _) as [err | response]; cbn.
  - destruct (isAbortError err); cbn; now intros [= <-].
  - destruct (ok response); cbn; [| now intros [= <-]].
    destruct (json response) as [data |]; cbn.
    + apply transformCloudflareResponse_one_sided.
    + now intros [= <-].
Qed.

Lemma HuggingFace_requests :
  exists reqs,
    issued w
      (snd (runState (HuggingFaceProvider.generate JSON_parse prompt options)
              w))
      reqs
    /\ match getHuggingFaceApiKey (env w) with
       | inl _ => reqs = []
       | inr apiKey =>
           exists req,
             reqs = [req]
             /\ url req = HuggingFaceProvider.HUGGINGFACE_API_URL
             /\ method req = "POST"
             /\ Authorization req = "Bearer " ++ apiKey
             /\ request_prompt req = buildPrompt prompt (style options)
       end.
Proof.
  unfold HuggingFaceProvider.generate, HuggingFaceProvider.fetchWithTimeout,
    issued.
  cbn. destruct (getHuggingFaceApiKey (env w)) as [thrown | apiKey]; cbn.
  - exists []. repeat split. apply app_nil_end_eq.
  - eexists. split.
    + repeat branch; repeat split; reflexivity.
    + eexists. repeat split.
Qed.

Lemma Cloudflare_requests :
  exists reqs,
    issued w (snd (runState (CloudflareProvider.generate prompt options) w))
      reqs
    /\ match getCloudflareAccountId (env w), getCloudflareApiToken (env w) with
       | inr accountId, inr apiToken =>
           exists req,
             reqs = [req]
             /\ url req = CloudflareProvider.buildApiUrl accountId
             /\ method req = "POST"
             /\ Authorization req = "Bearer " ++ apiToken
             /\ request_prompt req = buildPrompt prompt (style options)
       | _, _ => reqs = []
       end.
Proof.
  unfold CloudflareProvider.generate, issued.
  cbn. destruct (getCloudflareAccountId (env w)) as [thrown | accountId]; cbn.
  - exists []. repeat split. apply app_nil_end_eq.
  - destruct (getCloudflareApiToken (env w)) as [thrown | apiToken]; cbn.
    + exists []. repeat split. apply app_nil_end_eq.
    + eexists. split.
      * repeat branch; repeat split; reflexivity.
      * eexists. repeat split.
Qed.

End AdapterRuns.

(** X4. Whatever the world, the prompt and the options, an error returned
    by the secondary adapter never asks for fallback. *)
Theorem Cloudflare_never_asks_for_fallback
    (prompt : string) (options : GenerationOptions) (w : World)
    (e : ProviderError) :
  error (fst (runState (CloudflareProvider.generate prompt options) w))
  = Some e ->
  shouldFallback e = false.
Proof.
  apply Cloudflare_not_recoverable.
Qed.

Lemma Cloudflare_never_asks_for_fallback_witness :
  shouldFallback
    (CloudflareProvider.classifyCloudflareError 503 None None) = false.
Proof.
  apply (Cloudflare_never_asks_for_fallback "cat" sample_options
           (world_answering (inr (http_error 503 None)))).
  reflexivity.
Defined.

(** X5. Every outcome of either adapter is one-sided: a success carries a
    non-empty image and no error, a failure carries an error and no
    image. *)
Theorem adapter_outcomes_are_one_sided
    (JSON_parse : string -> option JsonErrorBody)
    (prompt : string) (options : GenerationOptions) (w : World) :
  one_sided
    (fst (runState (HuggingFaceProvider.generate JSON_parse prompt options) w))
  /\ one_sided
       (fst (runState (CloudflareProvider.generate prompt options) w)).
Proof.
  split.
  - apply HuggingFace_one_sided.
  - apply Cloudflare_one_sided.
Qed.

(** X6. One call of an adapter leaves the environment and the network as
    they were and issues no request when a credential is missing, and
    exactly one request otherwise: a POST to the adapter's endpoint, with
    the credential as bearer token and [buildPrompt prompt style] as its
    prompt text. *)
Theorem adapter_issues_at_most_one_request
    (JSON_parse : string -> option JsonErrorBody)
    (prompt : string) (options : GenerationOptions) (w : World) :
  (exists reqs,
     issued w
       (snd (runState (HuggingFaceProvider.generate JSON_parse prompt options)
               w))
       reqs
     /\ match getHuggingFaceApiKey (env w) with
        | inl _ => reqs = []
        | inr apiKey =>
            exists req,
              reqs = [req]
              /\ url req = HuggingFaceProvider.HUGGINGFACE_API_URL
              /\ method req = "POST"
              /\ Authorization req = "Bearer " ++ apiKey
              /\ request_prompt req = buildPrompt prompt (style options)
        end)
  /\ (exists reqs,
        issued w (snd (runState (CloudflareProvider.generate prompt options) w))
          reqs
        /\ match getCloudflareAccountId (env w),
                 getCloudflareApiToken (env w) with
           | inr accountId, inr apiToken =>
               exists req,
                 reqs = [req]
                 /\ url req = CloudflareProvider.buildApiUrl accountId
                 /\ method req = "POST"
                 /\ Authorization req = "Bearer " ++ apiToken
                 /\ request_prompt req = buildPrompt prompt (style options)
           | _, _ => reqs = []
           end).
Proof.
  split.
  - apply HuggingFace_requests.
  - apply Cloudflare_requests.
Qed.

(** * Further properties of the provider manager *)

Section ManagerCases.

Variable W : Type.
Variable this : ProviderManager.ProviderManagerConfig W.
Variable prompt : string.
Variable options : GenerationOptions.
Variable w : W.

Local Abbreviation primaryResult := (fst (primary_run this prompt options w)).
Local Abbreviation fallbackResult := (fst (fallback_run this prompt options w)).
Local Abbreviation toPrimary :=
  {| callee := Primary; call_prompt := prompt; call_options := options |}.
Local Abbreviation toFallback :=
  {| callee := Fallback; call_prompt := prompt; call_options := options |}.

(** Every run is one of the four the manager's code distinguishes. *)
Lemma manager_run_cases :
  (success primaryResult = true
   /\ manager_run this prompt options w
      = ({| g_success := true;
            g_image := image primaryResult;
            provider := Some (name (ProviderManager.primaryProvider this));
            g_error := None;
            fallbackAttempted := Some false |},
         (snd (primary_run this prompt options w), [toPrimary])))
  \/ (success primaryResult = false
      /\ recoverable_failure primaryResult = false
      /\ manager_run this prompt options w
         = ({| g_success := false;
               g_image := None;
               provider := Some (name (ProviderManager.primaryProvider this));
               g_error := option_map Single (error primaryResult);
               fallbackAttempted := Some false |},
            (snd (primary_run this prompt options w), [toPrimary])))
  \/ (recoverable_failure primaryResult = true
      /\ success fallbackResult = true
      /\ manager_run this prompt options w
         = ({| g_success := true;
               g_image := image fallbackResult;
               provider := Some (name (ProviderManager.fallbackProvider this));
               g_error := None;
               fallbackAttempted := Some true |},
            (snd (fallback_run this prompt options w),
             [toPrimary; toFallback])))
  \/ (exists e,
        recoverable_failure primaryResult = true
        /\ error primaryResult = Some e
        /\ success fallbackResult = false
        /\ manager_run this prompt options w
           = ({| g_success := false;
                 g_image := None;
                 provider := None;
                 g_error :=
                   Some (Dual (ProviderManager.createDualProviderError
                                 e (error fallbackResult)));
                 fallbackAttempted := Some true |},
              (snd (fallback_run this prompt options w),
               [toPrimary; toFallback]))).
Proof.
  destruct (success primaryResult) eqn:S.
  - left. split; [reflexivity |]. now apply run_primary_success.
  - destruct (recoverable_failure primaryResult) eqn:R.
    + right. right.
      destruct (success fallbackResult) eqn:F.
      * left. repeat split. now apply run_fallback_success.
      * right. pose proof R as R'. unfold recoverable_failure in R'.
        rewrite S in R'. cbn in R'.
        destruct (error primaryResult) as [e |] eqn:E; [| discriminate].
        exists e. repeat split. now apply run_dual_failure.
    + right. left. repeat split. now apply run_primary_final.
Qed.

Lemma recoverable_failure_error :
  recoverable_failure primaryResult = false ->
  forall e, error primaryResult = Some e ->
  success primaryResult = false -> shouldFallback e = false.
Proof.
  unfold recoverable_failure. intros R e E S. rewrite E, S in R. exact R.
Qed.

Lemma manager_result_one_sided :
  one_sided primaryResult -> one_sided fallbackResult ->
  result_one_sided (manager_result this prompt options w).
Proof.
  intros P F. unfold manager_result.
  destruct manager_run_cases
    as [[S ->] | [[S [R ->]] | [[R [S ->]] | [e [R [E [S ->]]]]]]]; cbn.
  - left. destruct P as [[_ [I _]] | [S' _]]; [| congruence].
    repeat split. exact I.
  - right. destruct P as [[S' _] | [_ [_ [e E]]]]; [congruence |].
    repeat split. rewrite E. eexists. reflexivity.
  - left. destruct F as [[_ [I _]] | [S' _]]; [| congruence].
    repeat split. exact I.
  - right. repeat split. eexists. reflexivity.
Qed.

End ManagerCases.

(** X7. When the primary provider fails recoverably and the fallback
    provider succeeds, the manager returns a success carrying the fallback's
    image and the fallback's name, with [fallbackAttempted = true], after
    one call to each provider in that order; the world is the one the
    fallback provider left. *)
Theorem fallback_success_names_the_fallback
    (W : Type) (this : ProviderManager.ProviderManagerConfig W)
    (prompt : string) (options : GenerationOptions) (w : W) :
  recoverable_failure (fst (primary_run this prompt options w)) = true ->
  success (fst (fallback_run this prompt options w)) = true ->
  manager_result this prompt options w
  = {| g_success := true;
       g_image := image (fst (fallback_run this prompt options w));
       provider := Some (name (ProviderManager.fallbackProvider this));
       g_error := None;
       fallbackAttempted := Some true |}
  /\ manager_log this prompt options w
     = [ {| callee := Primary; call_prompt := prompt;
            call_options := options |};
         {| callee := Fallback; call_prompt := prompt;
            call_options := options |} ]
  /\ manager_world this prompt options w
     = snd (fallback_run this prompt options w).
Proof.
  intros R S. unfold manager_result, manager_log, manager_world.
  rewrite (run_fallback_success W this prompt options w R S).
  repeat split.
Qed.

Lemma fallback_success_names_the_fallback_witness :
  manager_result default_manager "cat" sample_options
    (two_backends (inr (http_error 503 None))
                  (inr (json_response sample_image_response)))
  = {| g_success := true;
       g_image := Some "data:image/png;base64,dGVzdA==";
       provider := Some cloudflare;
       g_error := None;
       fallbackAttempted := Some true |}.
Proof.
  apply (fallback_success_names_the_fallback
           World default_manager "cat" sample_options
           (two_backends (inr (http_error 503 None))
                         (inr (json_response sample_image_response))));
    reflexivity.
Defined.



Section DefaultManager.

Variable JSON_parse : string -> option JsonErrorBody.
Variable prompt : string.
Variable options : GenerationOptions.
Variable w : World.

Local Abbreviation manager := (ProviderManager.createProviderManager JSON_parse).

Lemma issued_nothing : issued w w [].
Proof.
  repeat split. now rewrite app_nil_r.
Qed.

Lemma issued_then (w1 w2 w3 : World) (r1 r2 : list Request) :
  issued w1 w2 r1 -> issued w2 w3 r2 -> issued w1 w3 (r1 ++ r2).
Proof.
  intros [E1 [N1 F1]] [E2 [N2 F2]]. repeat split.
  - congruence.
  - congruence.
  - rewrite F2, F1. now rewrite app_assoc.
Qed.

(** The requests of one adapter call, without the details of X6. *)
Lemma primary_requests :
  exists reqs,
    issued w (snd (primary_run manager prompt options w)) reqs
    /\ (List.length reqs <= 1)%nat
    /\ Forall (fun req =>
                 request_prompt req = buildPrompt prompt (style options))
              reqs.
Proof.
  destruct (HuggingFace_requests JSON_parse prompt options w)
    as [reqs [I D]].
  exists reqs. split; [exact I |].
  destruct (getHuggingFaceApiKey (env w)).
  - subst. split; [simpl; lia | constructor].
  - destruct D as [req [-> [_ [_ [_ P]]]]].
    split; [simpl; lia | repeat constructor; exact P].
Qed.

Lemma secondary_requests (w1 : World) :
  exists reqs,
    issued w1 (snd (runState (CloudflareProvider.generate prompt options) w1))
      reqs
    /\ (List.length reqs <= 1)%nat
    /\ Forall (fun req =>
                 request_prompt req = buildPrompt prompt (style options))
              reqs.
Proof.
  destruct (Cloudflare_requests prompt options w1) as [reqs [I D]].
  exists reqs. split; [exact I |].
  destruct (getCloudflareAccountId (env w1));
    [subst; split; [simpl; lia | constructor] |].
  destruct (getCloudflareApiToken (env w1));
    [subst; split; [simpl; lia | constructor] |].
  destruct D as [req [-> [_ [_ [_ P]]]]].
  split; [simpl; lia | repeat constructor; exact P].
Qed.

Lemma default_manager_requests :
  exists reqs,
    issued w (manager_world manager prompt options w) reqs
    /\ (List.length reqs <= 2)%nat
    /\ Forall (fun req =>
                 request_prompt req = buildPrompt prompt (style options))
              reqs.
Proof.
  destruct primary_requests as [r1 [I1 [L1 P1]]].
  destruct (secondary_requests (snd (primary_run manager prompt options w)))
    as [r2 [I2 [L2 P2]]].
  unfold manager_world.
  destruct (manager_run_cases World manager prompt options w)
    as [[S ->] | [[S [R ->]] | [[R [S ->]] | [e [R [E [S ->]]]]]]]; cbn.
  - exists r1. repeat split; try apply I1; [lia | exact P1].
  - exists r1. repeat split; try apply I1; [lia | exact P1].
  - exists (r1 ++ r2)%list. split; [| split].
    + exact (issued_then _ _ _ _ _ I1 I2).
    + rewrite length_app. lia.
    + apply Forall_app. now split.
  - exists (r1 ++ r2)%list. split; [| split].
    + exact (issued_then _ _ _ _ _ I1 I2).
    + rewrite length_app. lia.
    + apply Forall_app. now split.
Qed.

Lemma default_manager_without_key :
  throws (getHuggingFaceApiKey (env w)) = true ->
  manager_run manager prompt options w
  = ({| g_success := false;
        g_image := None;
        provider := Some huggingface;
        g_error := Some (Single configuration_error);
        fallbackAttempted := Some false |},
     (w, [ {| callee := Primary; call_prompt := prompt;
              call_options := options |} ])).
Proof.
  intros H.
  pose proof (HuggingFace_no_key JSON_parse prompt options w H) as K.
  assert (P : primary_run manager prompt options w = (configuration_fault, w))
    by exact K.
  rewrite (run_primary_final World manager prompt options w);
    rewrite P; reflexivity.
Qed.

End DefaultManager.

(** X9. The result of the default manager (HuggingFace first, Cloudflare as
    fallback) is always one-sided: a success with a non-empty image and no
    error, or a failure with an error and no image. *)
Theorem default_manager_result_is_one_sided
    (JSON_parse : string -> option JsonErrorBody)
    (prompt : string) (options : GenerationOptions) (w : World) :
  result_one_sided
    (manager_result (ProviderManager.createProviderManager JSON_parse)
       prompt options w).
Proof.
  apply manager_result_one_sided.
  - apply (HuggingFace_one_sided JSON_parse prompt options w).
  - apply (Cloudflare_one_sided prompt options).
Qed.

(** X10. If the HuggingFace key is missing, the default manager returns the
    configuration error as a single provider error naming huggingface, with
    [fallbackAttempted = false]: the fallback provider is not called, even
    when its credentials are set, and the world is left as it was, so no
    request is issued. *)
Theorem missing_primary_key_stops_the_request
    (JSON_parse : string -> option JsonErrorBody)
    (prompt : string) (options : GenerationOptions) (w : World) :
  throws (getHuggingFaceApiKey (env w)) = true ->
  manager_result (ProviderManager.createProviderManager JSON_parse)
    prompt options w
  = {| g_success := false;
       g_image := None;
       provider := Some huggingface;
       g_error :=
         Some (Single {| code := SERVER_ERROR;
                         message := "Server configuration error.";
                         retryAfter := None;
                         shouldFallback := false |});
       fallbackAttempted := Some false |}
  /\ calls_to Fallback
       (manager_log (ProviderManager.createProviderManager JSON_parse)
          prompt options w) = 0%nat
  /\ manager_world (ProviderManager.createProviderManager JSON_parse)
       prompt options w = w.
Proof.
  intros H. unfold manager_result, manager_log, manager_world.
  rewrite (default_manager_without_key JSON_parse prompt options w H).
  repeat split.
Qed.

Lemma missing_primary_key_stops_the_request_witness :
  calls_to Fallback
    (manager_log default_manager "cat" sample_options
       world_without_primary_key) = 0%nat
  /\ manager_world default_manager "cat" sample_options
       world_without_primary_key = world_without_primary_key.
Proof.
  apply (proj2 (missing_primary_key_stops_the_request
                  no_json "cat" sample_options world_without_primary_key
                  eq_refl)).
Defined.

(** X11. One request to the default manager leaves the environment and the
    network as they were and issues at most two backend requests, and every
    request it issues carries the same prompt text,
    [buildPrompt prompt style]: the secondary backend is asked for exactly
    what the primary backend was asked for. *)
Theorem default_manager_sends_one_prompt
    (JSON_parse : string -> option JsonErrorBody)
    (prompt : string) (options : GenerationOptions) (w : World) :
  exists reqs,
    issued w
      (manager_world (ProviderManager.createProviderManager JSON_parse)
         prompt options w)
      reqs
    /\ (List.length reqs <= 2)%nat
    /\ Forall (fun req =>
                 request_prompt req = buildPrompt prompt (style options))
              reqs.
Proof.
  apply default_manager_requests.
Qed.

(** * Retry-After headers, status codes and times *)

Section Digits.

(** One digit of a decimal numeral, as [parseDigits] reads it. *)
Ltac read_digit :=
  cbn [NilEmpty.string_of_uint Js.parseDigits Pos.of_uint_acc Pos.of_uint];
  match goal with
  | |- context [Js.digitValue ?c] =>
      let v := eval vm_compute in (Js.digitValue c) in
      change (Js.digitValue c) with v
  end;
  cbv beta iota.

Lemma parseDigits_of_uint_acc (d : uint) (acc : positive) :
  Js.parseDigits (NilEmpty.string_of_uint d) (Some (Zpos acc))
  = Some (Zpos (Pos.of_uint_acc d acc)).
Proof.
  revert acc. induction d; intros acc; [reflexivity | ..];
    read_digit; unfold Js.nullish;
    match goal with
    | |- Js.parseDigits _ (Some ?z)
         = Some (Z.pos (Pos.of_uint_acc _ ?p)) =>
        replace z with (Z.pos p) by lia
    end;
    apply IHd.
Qed.

Lemma parseDigits_of_uint (d : uint) (acc : option Z) :
  d <> Nil -> Js.nullish acc 0 = 0 ->
  Js.parseDigits (NilEmpty.string_of_uint d) acc
  = Some (Z.of_N (Pos.of_uint d)).
Proof.
  revert acc. induction d; intros acc N A; [contradiction | ..];
    read_digit; rewrite A.
  - destruct d; try (apply IHd; [discriminate | reflexivity]).
    reflexivity.
  - apply parseDigits_of_uint_acc.
  - apply parseDigits_of_uint_acc.
  - apply parseDigits_of_uint_acc.
  - apply parseDigits_of_uint_acc.
  - apply parseDigits_of_uint_acc.
  - apply parseDigits_of_uint_acc.
  - apply parseDigits_of_uint_acc.
  - apply parseDigits_of_uint_acc.
  - apply parseDigits_of_uint_acc.
Qed.

(** What [parseInt] makes of a numeral that starts with a digit. *)
Lemma parseInt_of_uint (d : uint) :
  d <> Nil ->
  Js.parseInt (NilEmpty.string_of_uint d)
  = Some (Js.toDouble (Z.of_N (Pos.of_uint d))).
Proof.
  intros N. unfold Js.parseInt.
  replace (match Js.skipWhiteSpace (NilEmpty.string_of_uint d) with
           | String "-"%char s' => option_map Z.opp (Js.parseDigits s' None)
           | String "+"%char s' => Js.parseDigits s' None
           | s' => Js.parseDigits s' None
           end)
    with (Js.parseDigits (NilEmpty.string_of_uint d) None)
    by (destruct d; try contradiction; reflexivity).
  now rewrite (parseDigits_of_uint d None N eq_refl).
Qed.

Lemma to_uint_not_Nil (p : positive) : Pos.to_uint p <> Nil.
Proof.
  intros H. pose proof (DecimalPos.Unsigned.of_to p) as E.
  rewrite H in E. discriminate.
Qed.

Lemma decimal_not_empty (n : Z) :
  Js.truthy (Some (JsText.decimal n)) = true.
Proof.
  unfold JsText.decimal.
  destruct n as [| p | p]; cbn; try reflexivity.
  - pose proof (to_uint_not_Nil p). now destruct (Pos.to_uint p).
Qed.

(** [parseInt] reads a decimal numeral as the double nearest to it. *)
Lemma parseInt_decimal (n : Z) :
  Js.parseInt (JsText.decimal n) = Some (Js.toDouble n).
Proof.
  unfold JsText.decimal.
  destruct n as [| p | p]; cbn [Z.to_int NilZero.string_of_int].
  - reflexivity.
  - pose proof (to_uint_not_Nil p) as N.
    replace (NilZero.string_of_uint (Pos.to_uint p))
      with (NilEmpty.string_of_uint (Pos.to_uint p))
      by now destruct (Pos.to_uint p).
    rewrite (parseInt_of_uint _ N), DecimalPos.Unsigned.of_to. reflexivity.
  - pose proof (to_uint_not_Nil p) as N.
    replace (NilZero.string_of_uint (Pos.to_uint p))
      with (NilEmpty.string_of_uint (Pos.to_uint p))
      by now destruct (Pos.to_uint p).
    unfold Js.parseInt. cbn -[Js.toDouble Js.parseDigits].
    rewrite (parseDigits_of_uint _ None N eq_refl),
      DecimalPos.Unsigned.of_to.
    reflexivity.
Qed.

End Digits.

Section SafeIntegers.

(** An integer below [2^53] in magnitude is a double. *)
Lemma toDouble_safe (z : Z) : Z.abs z < 2 ^ 53 -> Js.toDouble z = z.
Proof.
  intros H. unfold Js.toDouble.
  destruct (Z.log2 (Z.abs z) <? 53) eqn:E; [reflexivity |].
  apply Z.ltb_ge in E.
  destruct (Z.eq_dec (Z.abs z) 0) as [Z0 | NZ].
  - rewrite Z0 in E. simpl in E. lia.
  - assert (P : 0 < Z.abs z) by lia.
    apply (Z.log2_lt_pow2 _ 53 P) in H. lia.
Qed.

Lemma numberToString_safe (n : Z) :
  Z.abs n < 2 ^ 53 -> JsText.numberToString n = JsText.decimal n.
Proof.
  intros H. unfold JsText.numberToString.
  rewrite (toDouble_safe n H).
  apply Z.ltb_lt in H. now rewrite H.
Qed.

Lemma nearestEven_cases (n d : Z) :
  Js.nearestEven n d = n / d
  \/ (Js.nearestEven n d = n / d + 1 /\ d <= 2 * (n mod d)).
Proof.
  unfold Js.nearestEven.
  destruct (d <? 2 * (n mod d)) eqn:A; cbn [orb].
  - right. apply Z.ltb_lt in A. split; [reflexivity | lia].
  - destruct (2 * (n mod d) =? d) eqn:B; cbn [andb].
    + apply Z.eqb_eq in B. destruct (Z.odd (n / d)); [right | left]; lia.
    + now left.
Qed.

(** Rounded to a multiple of [1 / P], the quotient of [b * k + r] by [b]
    stays below [k + 1] when [b < 2 * P]: the nearest multiple of [1 / P]
    is less than [1 / b] away. *)
Lemma nearestEven_floor (k r b P : Z) :
  0 <= k -> 0 <= r < b -> 0 < P -> b < 2 * P ->
  Js.nearestEven ((b * k + r) * P) b / P = k.
Proof.
  intros K R HP B.
  assert (Hb : 0 < b) by lia.
  assert (N : (b * k + r) * P = (k * P) * b + r * P) by ring.
  assert (D : ((b * k + r) * P) / b = k * P + (r * P) / b).
  { rewrite N. rewrite Z.div_add_l by lia. reflexivity. }
  assert (M : ((b * k + r) * P) mod b = (r * P) mod b).
  { rewrite N. rewrite Z.add_comm. now rewrite Z.mod_add by lia. }
  assert (U : 0 <= (r * P) / b <= P - 1).
  { split.
    - apply Z.div_pos; nia.
    - assert ((r * P) / b < P); [| lia].
      apply Z.div_lt_upper_bound; nia. }
  pose proof (Z.div_mod (r * P) b ltac:(lia)) as E.
  pose proof (Z.mod_pos_bound (r * P) b Hb) as Rb.
  symmetry.
  apply (Z.div_unique _ _ _ (Js.nearestEven ((b * k + r) * P) b - P * k)).
  - left.
    destruct (nearestEven_cases ((b * k + r) * P) b) as [-> | [-> L]];
      rewrite D.
    + lia.
    + rewrite M in L.
      split; [lia |].
      destruct (Z.eq_dec ((r * P) / b) (P - 1)) as [Q | Q]; [| lia].
      rewrite Q in E. nia.
  - ring.
Qed.

(** Below [2^53] the rounding of the quotient does not reach the next
    integer: [Math.floor(a / b)] is the integer quotient. *)
Lemma floorDivide_safe (a b : Z) :
  0 <= a < 2 ^ 53 -> 0 < b -> Js.floorDivide a b = a / b.
Proof.
  intros A B. unfold Js.floorDivide.
  destruct (2 * a <? b) eqn:H.
  - apply Z.ltb_lt in H. symmetry. apply Z.div_small. lia.
  - apply Z.ltb_ge in H.
    destruct (a <? b) eqn:L.
    + apply Z.ltb_lt in L.
      change (52 - -1) with 53. change (0 <=? 53) with true. cbv iota.
      rewrite (Z.div_small a b) by lia.
      replace (a * 2 ^ 53) with ((b * 0 + a) * 2 ^ 53) by ring.
      apply nearestEven_floor; lia.
    + apply Z.ltb_ge in L.
      pose proof (Z.div_mod a b ltac:(lia)) as E.
      pose proof (Z.mod_pos_bound a b B) as R.
      assert (K : 1 <= a / b).
      { apply Z.div_le_lower_bound; lia. }
      assert (K2 : a / b < 2 ^ 53).
      { apply Z.div_lt_upper_bound; nia. }
      pose proof (Z.log2_spec (a / b) ltac:(lia)) as [Q1 Q2].
      pose proof (Z.log2_nonneg (a / b)) as E0.
      assert (E1 : Z.log2 (a / b) < 53).
      { apply Z.log2_lt_pow2; lia. }
      destruct (0 <=? 52 - Z.log2 (a / b)) eqn:S;
        [| apply Z.leb_gt in S; lia].
      set (e := Z.log2 (a / b)) in *.
      assert (PQ : 2 ^ (52 - e) * 2 ^ e = 2 ^ 52).
      { rewrite <- Z.pow_add_r by lia. f_equal. lia. }
      assert (P0 : 0 < 2 ^ (52 - e)) by (apply Z.pow_pos_nonneg; lia).
      assert (Q0 : 0 < 2 ^ e) by (apply Z.pow_pos_nonneg; lia).
      rewrite E at 1.
      apply nearestEven_floor; try lia.
      assert (BQ : b * 2 ^ e <= a) by nia.
      change (2 ^ 53) with (2 * 2 ^ 52) in A. rewrite <- PQ in A.
      nia.
Qed.

End SafeIntegers.

(** X12. [parseRetryAfter] reads back the number a backend wrote, as far as
    doubles are exact: a Retry-After header holding the decimal form of an
    integer below [2^53] in magnitude gives that integer, and a missing or
    empty header gives no retry time. *)
Theorem parseRetryAfter_reads_decimal (response : Response) :
  (forall n,
     Z.abs n < 2 ^ 53 ->
     header_Retry_After response = Some (JsText.numberToString n) ->
     parseRetryAfter response = Some n)
  /\ (header_Retry_After response = None
      \/ header_Retry_After response = Some "" ->
      parseRetryAfter response = None).
Proof.
  unfold parseRetryAfter. split.
  - intros n S ->. rewrite (numberToString_safe n S).
    rewrite decimal_not_empty. cbn [Js.nullish].
    now rewrite parseInt_decimal, (toDouble_safe n S).
  - intros [-> | ->]; reflexivity.
Qed.

Lemma parseRetryAfter_reads_decimal_witness :
  parseRetryAfter (http_error 429 (Some "120")) = Some 120.
Proof.
  apply (proj1 (parseRetryAfter_reads_decimal (http_error 429 (Some "120")))
           120).
  - reflexivity.
  - reflexivity.
Defined.

(** X13. The HTTP status the route answers with for a provider error code
    is the status that code was classified from: mapping a code to its
    status and classifying that status gives the code back, for every code
    but UNKNOWN, which is answered with 500. Every status the route derives
    from a code is one of 400, 401, 402, 408, 429, 500 and 503. *)
Theorem status_of_code_round_trip (c : ProviderErrorCode) :
  (c <> UNKNOWN ->
   httpStatusToErrorCode (Route.errorCodeToHttpStatus (Route.codeName c)) = c)
  /\ Route.errorCodeToHttpStatus (Route.codeName UNKNOWN) = 500
  /\ In (Route.errorCodeToHttpStatus (Route.codeName c))
        [400; 401; 402; 408; 429; 500; 503].
Proof.
  destruct c; cbn; repeat split; try reflexivity; try congruence; tauto.
Qed.

Lemma status_of_code_round_trip_witness :
  httpStatusToErrorCode
    (Route.errorCodeToHttpStatus (Route.codeName PAYMENT_REQUIRED))
  = PAYMENT_REQUIRED.
Proof.
  apply (proj1 (status_of_code_round_trip PAYMENT_REQUIRED)).
  discriminate.
Defined.

(** X14. [formatTime] shows a positive number of seconds as its hours,
    minutes and seconds, leaving out the leading units that are zero: for
    minutes and seconds below 60 and a total below [2^53], the time of [h]
    hours, [m] minutes and [s] seconds reads "[h]h [m]m [s]s", or
    "[m]m [s]s" when there is no hour, or "[s]s" when there is no minute
    either. Zero and negative numbers read "0s". *)
Theorem formatTime_shows_hours_minutes_seconds (h m s : Z) :
  0 <= h -> 0 <= m < 60 -> 0 <= s < 60 ->
  3600 * h + 60 * m + s < 2 ^ 53 ->
  formatTime (3600 * h + 60 * m + s)
  = (if h >? 0 then
       JsText.numberToString h ++ "h " ++ JsText.numberToString m ++ "m "
         ++ JsText.numberToString s ++ "s"
     else if m >? 0 then
       JsText.numberToString m ++ "m " ++ JsText.numberToString s ++ "s"
     else JsText.numberToString s ++ "s")
  /\ forall t, t <= 0 -> formatTime t = "0s".
Proof.
  intros Hh Hm Hs Safe. split.
  - unfold formatTime.
    rewrite (toDouble_safe (3600 * h + 60 * m + s)) by lia.
    assert (Q : (3600 * h + 60 * m + s) / 3600 = h).
    { symmetry. apply (Z.div_unique _ 3600 h (60 * m + s)); lia. }
    assert (R : Z.rem (3600 * h + 60 * m + s) 3600 = 60 * m + s).
    { rewrite Z.rem_mod_nonneg by lia. symmetry.
      apply (Z.mod_unique _ 3600 h (60 * m + s)); lia. }
    assert (M : (60 * m + s) / 60 = m).
    { symmetry. apply (Z.div_unique _ 60 m s); lia. }
    assert (S : Z.rem (3600 * h + 60 * m + s) 60 = s).
    { rewrite Z.rem_mod_nonneg by lia. symmetry.
      apply (Z.mod_unique _ 60 (60 * h + m) s); lia. }
    rewrite (floorDivide_safe (3600 * h + 60 * m + s) 3600) by lia.
    rewrite R, (floorDivide_safe (60 * m + s) 60) by lia.
    rewrite Q, M, S.
    assert (I : (Js.Infinity <=? 3600 * h + 60 * m + s) = false).
    { apply Z.leb_gt. apply (Z.lt_trans _ (2 ^ 53)); [exact Safe |].
      reflexivity. }
    rewrite I.
    destruct (3600 * h + 60 * m + s <=? 0) eqn:Z0; [| reflexivity].
    apply Z.leb_le in Z0.
    assert (h = 0) by lia. assert (m = 0) by lia. assert (s = 0) by lia.
    subst. reflexivity.
  - intros t Ht. unfold formatTime.
    assert (D : Js.toDouble t <= 0).
    { unfold Js.toDouble. destruct (Z.log2 (Z.abs t) <? 53); [exact Ht |].
      assert (Z.sgn t <= 0) by lia.
      match goal with
      | |- _ * ?v <= 0 => assert (0 <= v); [| nia]
      end.
      destruct (Js.Infinity <=? _) eqn:V.
      - discriminate.
      - apply Z.shiftl_nonneg.
        match goal with
        | |- 0 <= (if ?c then _ else _) =>
            assert (0 <= Z.shiftr (Z.abs t) (Z.log2 (Z.abs t) - 52))
              by (apply Z.shiftr_nonneg; lia);
            destruct c; lia
        end. }
    apply Z.leb_le in D. now rewrite D.
Qed.

Lemma formatTime_shows_hours_minutes_seconds_witness :
  formatTime 86016 = "23h 53m 36s".
Proof.
  apply (proj1 (formatTime_shows_hours_minutes_seconds 23 53 36
                  ltac:(lia) ltac:(lia) ltac:(lia) ltac:(reflexivity))).
Defined.

(** * Properties of the server-side rate limiter *)

Import ServerRateLimiter.

Lemma ceilDiv_positive (a : Z) : 1 <= a -> 1 <= JsText.ceilDiv a 1000.
Proof.
  intros H. unfold JsText.ceilDiv.
  assert ((- a) / 1000 < 0) by (apply Z.div_lt_upper_bound; lia).
  lia.
Qed.

Section LimiterSteps.

Variable now : Z.
Variable ip : string.
Variable s : Limiter.

Local Abbreviation checked := (runState (canMakeRequest now ip) s).

(** The ways a check can go. *)
Lemma canMakeRequest_cases :
  (* the daily total is used up *)
  (MAX_TOTAL_REQUESTS <= totalRequestsToday (afterTotalReset now s)
   /\ now < totalResetTime (afterTotalReset now s)
   /\ checked
      = ({| allowed := false;
            reason :=
              Some ("Daily limit reached. Please try again in "
                      ++ formatTime
                           (JsText.ceilDiv
                              (totalResetTime (afterTotalReset now s) - now) 1000)
                      ++ ".");
            remainingRequests := None;
            resetInSeconds :=
              Some (JsText.ceilDiv
                      (totalResetTime (afterTotalReset now s) - now) 1000) |},
         (afterTotalReset now s)))
  \/ (* no entry *)
  (totalRequestsToday (afterTotalReset now s) < MAX_TOTAL_REQUESTS
   /\ rateLimitStore s ip = None
   /\ checked
      = ({| allowed := true;
            reason := None;
            remainingRequests := Some MAX_REQUESTS_PER_IP;
            resetInSeconds := None |},
         (afterTotalReset now s)))
  \/ (* an entry whose window has ended *)
  (exists e,
     totalRequestsToday (afterTotalReset now s) < MAX_TOTAL_REQUESTS
     /\ rateLimitStore s ip = Some e
     /\ resetTime e <= now
     /\ checked
        = ({| allowed := true;
              reason := None;
              remainingRequests := Some MAX_REQUESTS_PER_IP;
              resetInSeconds := None |},
           {| rateLimitStore := Map_delete ip (rateLimitStore s);
              totalRequestsToday := totalRequestsToday (afterTotalReset now s);
              totalResetTime := totalResetTime (afterTotalReset now s) |}))
  \/ (* a live entry that is used up *)
  (exists e,
     totalRequestsToday (afterTotalReset now s) < MAX_TOTAL_REQUESTS
     /\ rateLimitStore s ip = Some e
     /\ now < resetTime e
     /\ MAX_REQUESTS_PER_IP <= count e
     /\ checked
        = ({| allowed := false;
              reason :=
                Some ("You have reached your daily limit of "
                        ++ JsText.numberToString MAX_REQUESTS_PER_IP
                        ++ " generations. Please try again in "
                        ++ formatTime
                             (JsText.ceilDiv (resetTime e - now) 1000)
                        ++ ".");
              remainingRequests := Some 0;
              resetInSeconds :=
                Some (JsText.ceilDiv (resetTime e - now) 1000) |},
           (afterTotalReset now s)))
  \/ (* a live entry with requests left *)
  (exists e,
     totalRequestsToday (afterTotalReset now s) < MAX_TOTAL_REQUESTS
     /\ rateLimitStore s ip = Some e
     /\ now < resetTime e
     /\ count e < MAX_REQUESTS_PER_IP
     /\ checked
        = ({| allowed := true;
              reason := None;
              remainingRequests := Some (MAX_REQUESTS_PER_IP - count e);
              resetInSeconds := None |},
           (afterTotalReset now s))).
Proof.
  assert (R : rateLimitStore (afterTotalReset now s) = rateLimitStore s)
    by (unfold afterTotalReset; now destruct (now >=? totalResetTime s)).
  assert (T : now < totalResetTime (afterTotalReset now s)
              \/ totalRequestsToday (afterTotalReset now s) = 0).
  { unfold afterTotalReset. destruct (now >=? totalResetTime s) eqn:E.
    - now right.
    - left. rewrite Z.geb_leb in E. apply Z.leb_gt in E. exact E. }
  assert (C : checked
              = runState
                  (s1 <- get ;;
                   if totalRequestsToday s1 >=? MAX_TOTAL_REQUESTS then
                     ret {| allowed := false;
                            reason :=
                              Some ("Daily limit reached. Please try again in "
                                      ++ formatTime
                                           (JsText.ceilDiv
                                              (totalResetTime s1 - now) 1000)
                                      ++ ".");
                            remainingRequests := None;
                            resetInSeconds :=
                              Some (JsText.ceilDiv
                                      (totalResetTime s1 - now) 1000) |}
                   else
                     entry <-
                       match rateLimitStore s1 ip with
                       | Some e =>
                           if now >=? resetTime e then
                             put {| rateLimitStore :=
                                      Map_delete ip (rateLimitStore s1);
                                    totalRequestsToday :=
                                      totalRequestsToday s1;
                                    totalResetTime := totalResetTime s1 |} ;;
                             ret None
                           else ret (Some e)
                       | None => ret None
                       end ;;
                     match entry with
                     | None =>
                         ret {| allowed := true;
                                reason := None;
                                remainingRequests := Some MAX_REQUESTS_PER_IP;
                                resetInSeconds := None |}
                     | Some e =>
                         if count e >=? MAX_REQUESTS_PER_IP then
                           ret {| allowed := false;
                                  reason :=
                                    Some ("You have reached your daily limit of "
                                            ++ JsText.numberToString
                                                 MAX_REQUESTS_PER_IP
                                            ++ " generations. Please try again in "
                                            ++ formatTime
                                                 (JsText.ceilDiv
                                                    (resetTime e - now) 1000)
                                            ++ ".");
                                  remainingRequests := Some 0;
                                  resetInSeconds :=
                                    Some (JsText.ceilDiv
                                            (resetTime e - now) 1000) |}
                         else
                           ret {| allowed := true;
                                  reason := None;
                                  remainingRequests :=
                                    Some (MAX_REQUESTS_PER_IP - count e);
                                  resetInSeconds := None |}
                     end)
                  (afterTotalReset now s)).
  { unfold canMakeRequest, afterTotalReset. cbn.
    destruct (now >=? totalResetTime s); reflexivity. }
  rewrite C. cbn. rewrite R.
  destruct (totalRequestsToday (afterTotalReset now s) >=? MAX_TOTAL_REQUESTS) eqn:D.
  - left. rewrite Z.geb_leb in D. apply Z.leb_le in D.
    split; [exact D |]. split; [| reflexivity].
    destruct T as [T | T]; [exact T |].
    rewrite T in D. unfold MAX_TOTAL_REQUESTS in D. lia.
  - right. rewrite Z.geb_leb in D. apply Z.leb_gt in D.
    destruct (rateLimitStore s ip) as [e |] eqn:E; cbn.
    + destruct (now >=? resetTime e) eqn:X; cbn.
      * right. left. exists e. rewrite Z.geb_leb in X. apply Z.leb_le in X.
        repeat split; try assumption; try (now rewrite R).
      * rewrite Z.geb_leb in X. apply Z.leb_gt in X.
        destruct (count e >=? MAX_REQUESTS_PER_IP) eqn:Y; cbn.
        -- right. right. left. exists e.
           rewrite Z.geb_leb in Y. apply Z.leb_le in Y.
           repeat split; assumption.
        -- right. right. right. exists e.
           rewrite Z.geb_leb in Y. apply Z.leb_gt in Y.
           repeat split; assumption.
    + left. repeat split; assumption.
Qed.

Lemma recordRequest_run (at_ : Z) :
  runState (recordRequest at_ ip) s
  = (tt,
     {| rateLimitStore :=
          Map_set ip
            (match rateLimitStore s ip with
             | Some e =>
                 if at_ >=? resetTime e then
                   {| count := 1; resetTime := at_ + WINDOW_MS |}
                 else {| count := count e + 1; resetTime := resetTime e |}
             | None => {| count := 1; resetTime := at_ + WINDOW_MS |}
             end)
            (rateLimitStore s);
        totalRequestsToday := totalRequestsToday s + 1;
        totalResetTime := totalResetTime s |}).
Proof. reflexivity. Qed.

End LimiterSteps.

Lemma Map_set_same (k : string) (v : RateLimitEntry) m :
  Map_set k v m k = Some v.
Proof. unfold Map_set. now rewrite String.eqb_refl. Qed.

Lemma Map_set_other (k k' : string) (v : RateLimitEntry) m :
  k' <> k -> Map_set k v m k' = m k'.
Proof.
  intros N. unfold Map_set. destruct (String.eqb_spec k' k); congruence.
Qed.

Lemma Map_delete_same (k : string) m : Map_delete k m k = None.
Proof. unfold Map_delete. now rewrite String.eqb_refl. Qed.

Lemma Map_delete_other (k k' : string) m :
  k' <> k -> Map_delete k m k' = m k'.
Proof.
  intros N. unfold Map_delete. destruct (String.eqb_spec k' k); congruence.
Qed.

Lemma afterTotalReset_store (now : Z) (s : Limiter) :
  rateLimitStore (afterTotalReset now s) = rateLimitStore s.
Proof.
  unfold afterTotalReset. now destruct (now >=? totalResetTime s).
Qed.

(** What a refusing check carries. *)
Lemma refused_check (now : Z) (ip : string) (s : Limiter) :
  allowed (fst (runState (canMakeRequest now ip) s)) = false ->
  exists r n,
    reason (fst (runState (canMakeRequest now ip) s)) = Some r
    /\ r <> ""
    /\ resetInSeconds (fst (runState (canMakeRequest now ip) s)) = Some n
    /\ 1 <= n.
Proof.
  destruct (canMakeRequest_cases now ip s)
    as [[D [T ->]] | [[D [E ->]] | [[e [D [E [X ->]]]]
       | [[e [D [E [X [Y ->]]]]] | [e [D [E [X [Y ->]]]]]]]]];
    cbn; intros A; try discriminate.
  - do 2 eexists. repeat split; [discriminate |].
    apply ceilDiv_positive. lia.
  - do 2 eexists. repeat split; [discriminate |].
    apply ceilDiv_positive. lia.
Qed.

(** X15. A check that refuses always says why and for how long: the
    answer carries a non-empty reason and a wait of at least one second. *)
Theorem refusal_carries_reason_and_wait (now : Z) (ip : string) (s : Limiter) :
  allowed (fst (runState (canMakeRequest now ip) s)) = false ->
  exists r n,
    reason (fst (runState (canMakeRequest now ip) s)) = Some r
    /\ r <> ""
    /\ resetInSeconds (fst (runState (canMakeRequest now ip) s)) = Some n
    /\ 1 <= n.
Proof.
  apply refused_check.
Qed.

Lemma refusal_carries_reason_and_wait_witness :
  exists r n,
    reason (fst (runState (canMakeRequest 1000 "203.0.113.7") used_up_limiter))
    = Some r
    /\ r <> ""
    /\ resetInSeconds
         (fst (runState (canMakeRequest 1000 "203.0.113.7") used_up_limiter))
       = Some n
    /\ 1 <= n.
Proof.
  apply (refusal_carries_reason_and_wait 1000 "203.0.113.7" used_up_limiter).
  reflexivity.
Defined.

(** X16. Checking or recording a request of one IP leaves the entry of
    every other IP as it was. *)
Theorem other_entries_are_untouched
    (now : Z) (ip other : string) (s : Limiter) :
  other <> ip ->
  rateLimitStore (snd (runState (canMakeRequest now ip) s)) other
  = rateLimitStore s other
  /\ rateLimitStore (snd (runState (recordRequest now ip) s)) other
     = rateLimitStore s other.
Proof.
  intros N. split.
  - destruct (canMakeRequest_cases now ip s)
      as [[D [T ->]] | [[D [E ->]] | [[e [D [E [X ->]]]]
         | [[e [D [E [X [Y ->]]]]] | [e [D [E [X [Y ->]]]]]]]]];
      cbn; rewrite ?afterTotalReset_store; try reflexivity.
    now apply Map_delete_other.
  - rewrite recordRequest_run. cbn. now apply Map_set_other.
Qed.

Lemma other_entries_are_untouched_witness :
  rateLimitStore
    (snd (runState (canMakeRequest 1000 "198.51.100.2") used_up_limiter))
    "203.0.113.7"
  = rateLimitStore used_up_limiter "203.0.113.7"
  /\ rateLimitStore
       (snd (runState (recordRequest 1000 "198.51.100.2") used_up_limiter))
       "203.0.113.7"
     = rateLimitStore used_up_limiter "203.0.113.7".
Proof.
  apply (other_entries_are_untouched 1000 "198.51.100.2" "203.0.113.7"
           used_up_limiter).
  discriminate.
Defined.

Section Window.

Variable start : Z.
Variable ip : string.

Lemma attempt_run (a : Attempt) (s : Limiter) :
  runState (attempt ip a) s
  = if (allowed (fst (runState (canMakeRequest (checkedAt a) ip) s))
        && succeeded a)%bool
    then (true,
          snd (runState (recordRequest (recordedAt a) ip)
                 (snd (runState (canMakeRequest (checkedAt a) ip) s))))
    else (false, snd (runState (canMakeRequest (checkedAt a) ip) s)).
Proof.
  unfold attempt.
  generalize (canMakeRequest (checkedAt a) ip) as check.
  generalize (recordRequest (recordedAt a) ip) as record.
  intros record check. cbn.
  destruct (runState check s) as [c s1]. cbn.
  destruct (allowed c && succeeded a)%bool; cbn; [| reflexivity].
  now destruct (runState record s1).
Qed.

Lemma window_invariant_bound (t n : Z) (s : Limiter) :
  window_invariant start ip t n s -> 0 <= n <= MAX_REQUESTS_PER_IP.
Proof.
  unfold MAX_REQUESTS_PER_IP.
  intros [[N _] | [e [_ [_ [_ M]]]]]; unfold MAX_REQUESTS_PER_IP in *; lia.
Qed.

Lemma window_invariant_later (t t' n : Z) (s s' : Limiter) :
  window_invariant start ip t n s -> t <= t' ->
  rateLimitStore s' ip = rateLimitStore s ip ->
  window_invariant start ip t' n s'.
Proof.
  unfold window_invariant, no_live_entry.
  intros [[N L] | [e [E K]]] T S; rewrite S.
  - left. split; [exact N |].
    destruct (rateLimitStore s ip); [lia | exact I].
  - right. exists e. now split.
Qed.

Ltac geb_cases :=
  match goal with
  | |- context [?x >=? ?y] =>
      let G := fresh "G" in
      destruct (x >=? y) eqn:G;
      [ rewrite Z.geb_leb in G; apply Z.leb_le in G
      | rewrite Z.geb_leb in G; apply Z.leb_gt in G ]
  end.

Lemma attempt_keeps_window (a : Attempt) (t n : Z) (s : Limiter) :
  start <= t -> t <= checkedAt a -> checkedAt a <= recordedAt a ->
  recordedAt a < start + WINDOW_MS ->
  window_invariant start ip t n s ->
  window_invariant start ip (recordedAt a)
    (n + (if fst (runState (attempt ip a) s) then 1 else 0))
    (snd (runState (attempt ip a) s)).
Proof.
  intros S T C B I. rewrite attempt_run.
  assert (Later : forall s',
             rateLimitStore s' ip = rateLimitStore s ip ->
             window_invariant start ip (recordedAt a) (n + 0) s').
  { intros s' E'. rewrite Z.add_0_r.
    apply (window_invariant_later t _ _ s); [exact I | lia | exact E']. }
  destruct (canMakeRequest_cases (checkedAt a) ip s)
    as [[D [X ->]] | [[D [E ->]] | [[e [D [E [X ->]]]]
       | [[e [D [E [X [Y ->]]]]] | [e [D [E [X [Y ->]]]]]]]]];
    cbn [fst snd allowed andb].
  - apply Later. now rewrite afterTotalReset_store.
  - destruct (succeeded a); cbn [fst snd];
      [| apply Later; now rewrite afterTotalReset_store].
    rewrite recordRequest_run. cbn [snd].
    unfold window_invariant in *. cbn [rateLimitStore].
    rewrite Map_set_same, afterTotalReset_store, E.
    destruct I as [[N L] | [e' [E' _]]]; [| rewrite E in E'; discriminate].
    right. eexists. split; [reflexivity |]. cbn [count resetTime].
    unfold MAX_REQUESTS_PER_IP. lia.
  - unfold window_invariant, no_live_entry in *.
    assert (N : n = 0).
    { destruct I as [[N L] | [e' [E' [_ [R _]]]]]; [exact N |].
      rewrite E in E'. injection E' as <-. lia. }
    destruct (succeeded a); cbn [fst snd].
    + rewrite recordRequest_run. cbn [snd rateLimitStore].
      rewrite Map_set_same, Map_delete_same.
      right. eexists. split; [reflexivity |]. cbn [count resetTime].
      unfold MAX_REQUESTS_PER_IP. lia.
    + cbn [rateLimitStore]. rewrite Map_delete_same. left. split; [lia | exact Logic.I].
  - apply Later. now rewrite afterTotalReset_store.
  - destruct (succeeded a); cbn [fst snd];
      [| apply Later; now rewrite afterTotalReset_store].
    rewrite recordRequest_run. cbn [snd].
    unfold window_invariant, no_live_entry in *. cbn [rateLimitStore].
    rewrite Map_set_same, afterTotalReset_store, E.
    destruct I as [[N L] | [e' [E' [K [R M]]]]].
    + rewrite E in L. lia.
    + rewrite E in E'. injection E' as <-.
      geb_cases; [lia |].
      right. eexists. split; [reflexivity |]. cbn [count resetTime].
      unfold MAX_REQUESTS_PER_IP in *. lia.
Qed.

Lemma attempts_keep_window (l : list Attempt) :
  forall (t n : Z) (s : Limiter),
    start <= t -> in_order t l -> all_before (start + WINDOW_MS) l ->
    window_invariant start ip t n s ->
    0 <= fst (runState (attempts ip l) s)
    /\ n + fst (runState (attempts ip l) s) <= MAX_REQUESTS_PER_IP.
Proof.
  induction l as [| a rest IH]; intros t n s S O B I.
  - cbn. apply window_invariant_bound in I. lia.
  - destruct O as [T [C O]]. inversion B as [| ? ? Ba Br]; subst.
    pose proof (attempt_keeps_window a t n s S T C Ba I) as I1.
    assert (S1 : start <= recordedAt a) by lia.
    specialize (IH _ _ _ S1 O Br I1).
    cbn [attempts].
    revert I1 IH.
    generalize (attempt ip a) as first_.
    generalize (attempts ip rest) as others.
    intros others first_ I1 IH. cbn.
    destruct (runState first_ s) as [b s1]. cbn in *.
    destruct (runState others s1) as [k s2]. cbn in *.
    destruct b; lia.
Qed.

End Window.

(** X17. However often an IP tries within one window, at most five of its
    requests are recorded: for attempts whose clock readings never go back
    and all lie within 24 hours of [start], made by an IP that has no live
    entry at [start], the number of recorded requests is at most
    [MAX_REQUESTS_PER_IP]. *)
Theorem at_most_five_requests_per_window
    (start : Z) (ip : string) (l : list Attempt) (s : Limiter) :
  in_order start l ->
  all_before (start + WINDOW_MS) l ->
  no_live_entry start ip s ->
  0 <= fst (runState (attempts ip l) s) <= MAX_REQUESTS_PER_IP.
Proof.
  intros O B N.
  destruct (attempts_keep_window start ip l start 0 s (Z.le_refl _) O B)
    as [H1 H2].
  - left. split; [reflexivity | exact N].
  - lia.
Qed.

Lemma at_most_five_requests_per_window_witness :
  0 <= fst (runState (attempts "203.0.113.7" seven_attempts) (initial 0))
    <= MAX_REQUESTS_PER_IP.
Proof.
  apply (at_most_five_requests_per_window 1000 "203.0.113.7" seven_attempts
           (initial 0)).
  - simpl. lia.
  - unfold all_before, seven_attempts, WINDOW_MS. simpl.
    repeat constructor; simpl; lia.
  - exact I.
Defined.

Section Daily.

Lemma afterTotalReset_early (now : Z) (s : Limiter) :
  now < totalResetTime s -> afterTotalReset now s = s.
Proof.
  intros H. unfold afterTotalReset.
  destruct (now >=? totalResetTime s) eqn:G; [| reflexivity].
  rewrite Z.geb_leb in G. apply Z.leb_le in G. lia.
Qed.

(** A check before the daily reset leaves the counters as they are, and
    allows only below the daily limit. *)
Lemma canMakeRequest_early (now : Z) (ip : string) (s : Limiter) :
  now < totalResetTime s ->
  totalRequestsToday (snd (runState (canMakeRequest now ip) s))
  = totalRequestsToday s
  /\ totalResetTime (snd (runState (canMakeRequest now ip) s))
     = totalResetTime s
  /\ (allowed (fst (runState (canMakeRequest now ip) s)) = true ->
      totalRequestsToday s < MAX_TOTAL_REQUESTS).
Proof.
  intros H.
  destruct (canMakeRequest_cases now ip s)
    as [[D [T ->]] | [[D [E ->]] | [[e [D [E [X ->]]]]
       | [[e [D [E [X [Y ->]]]]] | [e [D [E [X [Y ->]]]]]]]]];
    rewrite (afterTotalReset_early now s H) in *; cbn;
    repeat split; try discriminate; try (intros _; exact D).
Qed.

Lemma attempt_daily (ip : string) (a : Attempt) (s : Limiter) :
  checkedAt a < totalResetTime s ->
  0 <= totalRequestsToday s <= MAX_TOTAL_REQUESTS ->
  totalResetTime (snd (runState (attempt ip a) s)) = totalResetTime s
  /\ totalRequestsToday (snd (runState (attempt ip a) s))
     = totalRequestsToday s + (if fst (runState (attempt ip a) s) then 1 else 0)
  /\ totalRequestsToday (snd (runState (attempt ip a) s))
     <= MAX_TOTAL_REQUESTS.
Proof.
  intros H B. rewrite attempt_run.
  destruct (canMakeRequest_early (checkedAt a) ip s H) as [T [R A]].
  destruct (allowed (fst (runState (canMakeRequest (checkedAt a) ip) s)));
    cbn [andb].
  - specialize (A eq_refl).
    destruct (succeeded a); cbn [fst snd].
    + rewrite recordRequest_run. cbn [snd totalResetTime totalRequestsToday].
      rewrite T, R. lia.
    + rewrite T, R. lia.
  - cbn [fst snd]. rewrite T, R. lia.
Qed.

Lemma visits_daily (l : list (string * Attempt)) :
  forall s : Limiter,
    Forall (fun v => checkedAt (snd v) < totalResetTime s) l ->
    0 <= totalRequestsToday s <= MAX_TOTAL_REQUESTS ->
    0 <= fst (runState (visits l) s)
    /\ totalRequestsToday s + fst (runState (visits l) s)
       <= MAX_TOTAL_REQUESTS.
Proof.
  induction l as [| [ip a] rest IH]; intros s F B.
  - cbn. lia.
  - inversion F as [| ? ? Fa Fr]; subst. cbn [snd] in Fa.
    destruct (attempt_daily ip a s Fa B) as [T [R M]].
    assert (F1 : Forall
                   (fun v =>
                      checkedAt (snd v)
                      < totalResetTime (snd (runState (attempt ip a) s)))
                   rest) by (now rewrite T).
    assert (B1 : 0 <= totalRequestsToday (snd (runState (attempt ip a) s))
                 <= MAX_TOTAL_REQUESTS).
    { rewrite R in *. destruct (fst (runState (attempt ip a) s)); lia. }
    specialize (IH _ F1 B1).
    cbn [visits].
    revert R IH.
    generalize (attempt ip a) as first_.
    generalize (visits rest) as others.
    intros others first_ R IH. cbn.
    destruct (runState first_ s) as [b s1]. cbn in *.
    destruct (runState others s1) as [k s2]. cbn in *.
    destruct b; lia.
Qed.

End Daily.

(** X18. Across all clients, at most a hundred requests are recorded in one
    daily window: for successive attempts that are all checked before the
    daily reset time, starting from a counter within its limit, the number
    of recorded requests is at most what the counter leaves of
    [MAX_TOTAL_REQUESTS]. *)
Theorem at_most_a_hundred_requests_per_day
    (l : list (string * Attempt)) (s : Limiter) :
  Forall (fun v => checkedAt (snd v) < totalResetTime s) l ->
  0 <= totalRequestsToday s <= MAX_TOTAL_REQUESTS ->
  0 <= fst (runState (visits l) s)
    <= MAX_TOTAL_REQUESTS - totalRequestsToday s.
Proof.
  intros F B. destruct (visits_daily l s F B). lia.
Qed.

Lemma at_most_a_hundred_requests_per_day_witness :
  0 <= fst (runState
              (visits [("203.0.113.7",
                        {| checkedAt := 1000; recordedAt := 1500;
                           succeeded := true |});
                       ("198.51.100.2",
                        {| checkedAt := 2000; recordedAt := 2500;
                           succeeded := true |})])
              nearly_used_up_limiter)
    <= MAX_TOTAL_REQUESTS - totalRequestsToday nearly_used_up_limiter.
Proof.
  apply at_most_a_hundred_requests_per_day.
  - repeat constructor; simpl; lia.
  - simpl. unfold MAX_TOTAL_REQUESTS. lia.
Defined.

(** X19. A check reserves nothing. When two requests of one IP overlap, so
    that both are checked before either is recorded, an IP with requests
    left is allowed twice and both requests are counted: its entry goes from
    [count] to [count + 2], which from four is six, one more than
    [MAX_REQUESTS_PER_IP]. *)
Theorem overlapping_requests_are_both_counted
    (ip : string) (t1 t2 t3 t4 : Z) (s : Limiter) (e : RateLimitEntry) :
  rateLimitStore s ip = Some e ->
  count e < MAX_REQUESTS_PER_IP ->
  totalRequestsToday s < MAX_TOTAL_REQUESTS ->
  t1 < totalResetTime s -> t2 < totalResetTime s ->
  t1 < resetTime e -> t2 < resetTime e ->
  t3 < resetTime e -> t4 < resetTime e ->
  allowed (fst (fst (runState (overlapping ip t1 t2 t3 t4) s))) = true
  /\ allowed (snd (fst (runState (overlapping ip t1 t2 t3 t4) s))) = true
  /\ rateLimitStore (snd (runState (overlapping ip t1 t2 t3 t4) s)) ip
     = Some {| count := count e + 2; resetTime := resetTime e |}.
Proof.
  intros E C T D1 D2 R1 R2 R3 R4.
  assert (Check : forall t, t < totalResetTime s -> t < resetTime e ->
            runState (canMakeRequest t ip) s
            = ({| allowed := true;
                  reason := None;
                  remainingRequests := Some (MAX_REQUESTS_PER_IP - count e);
                  resetInSeconds := None |}, s)).
  { intros t D R.
    destruct (canMakeRequest_cases t ip s)
      as [[D' [T' ->]] | [[D' [E' ->]] | [[e' [D' [E' [X ->]]]]
         | [[e' [D' [E' [X [Y ->]]]]] | [e' [D' [E' [X [Y ->]]]]]]]]];
      rewrite (afterTotalReset_early t s D) in *;
      try (rewrite E in E'; try discriminate; injection E' as <-);
      try lia.
    reflexivity. }
  unfold overlapping.
  pose proof (Check t1 D1 R1) as C1. pose proof (Check t2 D2 R2) as C2.
  pose proof (recordRequest_run ip s t3) as Rec3.
  revert C1 C2 Rec3.
  generalize (canMakeRequest t1 ip) as check1.
  generalize (canMakeRequest t2 ip) as check2.
  generalize (recordRequest t3 ip) as record3.
  intros record3 check2 check1 C1 C2 Rec3. cbn.
  rewrite C1. cbn. rewrite C2. cbn. rewrite Rec3. cbn.
  rewrite E.
  assert (G3 : (t3 >=? resetTime e) = false).
  { rewrite Z.geb_leb. apply Z.leb_gt. exact R3. }
  rewrite G3. cbn.
  repeat split.
  rewrite !Map_set_same. cbn.
  assert (G4 : (t4 >=? resetTime e) = false).
  { rewrite Z.geb_leb. apply Z.leb_gt. exact R4. }
  rewrite G4. f_equal. f_equal. lia.
Qed.

Lemma overlapping_requests_are_both_counted_witness :
  rateLimitStore
    (snd (runState (overlapping "203.0.113.7" 1000 1001 2000 2001)
            nearly_used_up_limiter))
    "203.0.113.7"
  = Some {| count := 4 + 2; resetTime := 90000000 |}.
Proof.
  apply (overlapping_requests_are_both_counted "203.0.113.7"
           1000 1001 2000 2001 nearly_used_up_limiter
           {| count := 4; resetTime := 90000000 |});
    solve [reflexivity | simpl; lia | unfold MAX_REQUESTS_PER_IP,
      MAX_TOTAL_REQUESTS; simpl; lia].
Defined.

(** * Properties of the input utilities *)

Section Characters.

Lemma contains_app (c : ascii) (a b : string) :
  contains c (a ++ b) = (contains c a || contains c b)%bool.
Proof.
  induction a as [| x a IH]; cbn; [reflexivity |].
  now rewrite IH, orb_assoc.
Qed.

Lemma replaceChar_removes (c : ascii) (by_ s : string) :
  contains c by_ = false -> contains c (JsText.replaceChar c by_ s) = false.
Proof.
  intros B. induction s as [| x s IH]; cbn; [reflexivity |].
  destruct (Ascii.eqb x c) eqn:E.
  - now rewrite contains_app, B, IH.
  - cbn. now rewrite E, IH.
Qed.

Lemma replaceChar_keeps (x c : ascii) (by_ s : string) :
  contains x by_ = false -> contains x s = false ->
  contains x (JsText.replaceChar c by_ s) = false.
Proof.
  intros B. induction s as [| y s IH]; cbn; [reflexivity |].
  intros H. apply orb_false_iff in H. destruct H as [Y S].
  destruct (Ascii.eqb y c).
  - now rewrite contains_app, B, IH.
  - cbn. now rewrite Y, IH.
Qed.

Lemma replaceChar_absent (c : ascii) (by_ s : string) :
  contains c s = false -> JsText.replaceChar c by_ s = s.
Proof.
  induction s as [| x s IH]; cbn; [reflexivity |].
  intros H. apply orb_false_iff in H. destruct H as [X S].
  now rewrite X, IH.
Qed.

Lemma removeAll_keeps (x : ascii) (m : string -> option nat) (s : string) :
  forall k, contains x s = false ->
            contains x (JsText.removeAll m k s) = false.
Proof.
  induction s as [| y s IH]; intros k; cbn; [reflexivity |].
  intros H. apply orb_false_iff in H. destruct H as [Y S].
  destruct k as [| k]; [| now apply IH].
  destruct (m (String y s)) as [[| j] |]; cbn; rewrite ?Y; now apply IH.
Qed.

Lemma removeAll_no_match (c : ascii) (m : string -> option nat) (s : string) :
  (forall t, contains c t = false -> m t = None) ->
  contains c s = false -> JsText.removeAll m O s = s.
Proof.
  intros M. induction s as [| y s IH]; cbn; [reflexivity |].
  intros H. pose proof H as H'. apply orb_false_iff in H'.
  destruct H' as [Y S].
  assert (N : m (String y s) = None) by (apply M; exact H).
  rewrite N. now rewrite IH.
Qed.

Lemma lower_colon (x : ascii) : JsText.lower x = ":"%char -> x = ":"%char.
Proof.
  destruct x as [[] [] [] [] [] [] [] []]; cbv; intros H;
    first [reflexivity | discriminate H].
Qed.

Lemma afterPrefix_suffix (c : ascii) (p s r : string) :
  JsText.afterPrefix p s = Some r ->
  contains c r = true -> contains c s = true.
Proof.
  revert s. induction p as [| y p IH]; intros s; cbn.
  - now intros [= ->].
  - destruct s as [| x s]; [discriminate |].
    destruct (Ascii.eqb (JsText.lower x) y); [| discriminate].
    intros H R. cbn. rewrite (IH _ H R). apply orb_true_r.
Qed.

Lemma afterPrefix_contains (c : ascii) (p s r : string) :
  (forall x, JsText.lower x = c -> x = c) ->
  JsText.afterPrefix p s = Some r ->
  contains c p = true -> contains c s = true.
Proof.
  intros L. revert s. induction p as [| y p IH]; intros s; cbn;
    [discriminate |].
  destruct s as [| x s]; [discriminate |].
  destruct (Ascii.eqb (JsText.lower x) y) eqn:E; [| discriminate].
  intros H C. cbn. apply orb_true_iff in C. destruct C as [C | C].
  - apply Ascii.eqb_eq in E, C. rewrite C in E.
    rewrite (L x E). now rewrite Ascii.eqb_refl.
  - rewrite (IH _ H C). apply orb_true_r.
Qed.

Lemma span_suffix (c : ascii) (p : ascii -> bool) (s : string) :
  contains c (snd (JsText.span p s)) = true -> contains c s = true.
Proof.
  induction s as [| x s IH]; cbn; [trivial |].
  destruct (p x); [| trivial].
  destruct (JsText.span p s) as [n r]. cbn in *.
  intros H. rewrite (IH H). apply orb_true_r.
Qed.

Lemma javascriptUrl_needs_colon (t : string) :
  contains ":" t = false -> InputUtils.javascriptUrl t = None.
Proof.
  intros H. unfold InputUtils.javascriptUrl.
  destruct (JsText.afterPrefix "javascript:" t) as [r |] eqn:E;
    [| reflexivity].
  rewrite (afterPrefix_contains ":" _ _ _ lower_colon E eq_refl) in H.
  discriminate.
Qed.

Lemma dataHtmlUrl_needs_colon (t : string) :
  contains ":" t = false -> InputUtils.dataHtmlUrl t = None.
Proof.
  intros H. unfold InputUtils.dataHtmlUrl.
  destruct (JsText.afterPrefix "data:" t) as [r |] eqn:E; [| reflexivity].
  rewrite (afterPrefix_contains ":" _ _ _ lower_colon E eq_refl) in H.
  discriminate.
Qed.

Lemma eventHandler_needs_equals (t : string) :
  contains "=" t = false -> InputUtils.eventHandler t = None.
Proof.
  intros H. unfold InputUtils.eventHandler.
  destruct (JsText.afterPrefix "on" t) as [r1 |] eqn:E; [| reflexivity].
  destruct (JsText.span JsText.isWordChar r1) as [k r2] eqn:S1.
  destruct k as [| k]; [reflexivity |].
  destruct (JsText.span JsText.isSpace r2) as [j r3] eqn:S2.
  destruct r3 as [| x r3]; [reflexivity |].
  destruct (Ascii.eqb_spec x "="%char) as [-> | N].
  - exfalso.
    assert (C3 : contains "=" (snd (JsText.span JsText.isSpace r2)) = true)
      by (rewrite S2; cbn; reflexivity).
    apply span_suffix in C3.
    assert (C2 : contains "=" (snd (JsText.span JsText.isWordChar r1)) = true)
      by (rewrite S1; exact C3).
    apply span_suffix in C2.
    rewrite (afterPrefix_suffix "=" _ _ _ E C2) in H. discriminate.
  - destruct x as [[] [] [] [] [] [] [] []]; try reflexivity.
    now contradiction N.
Qed.

End Characters.

Lemma sanitizeInput_no_markup (input : string) (c : ascii) :
  In c ["000"; "<"; ">"; "034"; "'"]%char ->
  contains c (InputUtils.sanitizeInput input) = false.
Proof.
  intros H. unfold InputUtils.sanitizeInput.
  repeat apply removeAll_keeps.
  simpl in H.
  repeat (destruct H as [<- | H]);
    try contradiction;
    repeat first [ apply replaceChar_removes; reflexivity
                 | apply replaceChar_keeps; [reflexivity |] ].
Qed.

(** X20. The output of [sanitizeInput] never holds a NUL, an angle bracket
    or a quote, whatever the input: those characters are escaped or dropped
    and no later step brings one back. *)
Theorem sanitizeInput_output_has_no_markup (input : string) (c : ascii) :
  In c ["000"; "<"; ">"; "034"; "'"]%char ->
  contains c (InputUtils.sanitizeInput input) = false.
Proof.
  apply sanitizeInput_no_markup.
Qed.

Lemma sanitizeInput_output_has_no_markup_witness :
  contains "<" (InputUtils.sanitizeInput "<script>alert(1)</script>") = false.
Proof.
  apply (sanitizeInput_output_has_no_markup "<script>alert(1)</script>" "<").
  simpl. tauto.
Defined.

Lemma sanitizeInput_unchanged (input : string) :
  (forall c, In c (escaped_characters ++ [":"; "="]%char)%list ->
             contains c input = false) ->
  InputUtils.sanitizeInput input = input.
Proof.
  intros H. unfold InputUtils.sanitizeInput.
  assert (F : forall c, In c (escaped_characters ++ [":"; "="]%char)%list ->
                        contains c input = false) by exact H.
  rewrite (replaceChar_absent "000" _ input) by (apply F; simpl; tauto).
  rewrite (replaceChar_absent "&" _ input) by (apply F; simpl; tauto).
  rewrite (replaceChar_absent "<" _ input) by (apply F; simpl; tauto).
  rewrite (replaceChar_absent ">" _ input) by (apply F; simpl; tauto).
  rewrite (replaceChar_absent "034" _ input) by (apply F; simpl; tauto).
  rewrite (replaceChar_absent "'" _ input) by (apply F; simpl; tauto).
  rewrite (removeAll_no_match ":" _ _ javascriptUrl_needs_colon)
    by (apply F; simpl; tauto).
  rewrite (removeAll_no_match "=" _ _ eventHandler_needs_equals)
    by (apply F; simpl; tauto).
  rewrite (removeAll_no_match ":" _ _ dataHtmlUrl_needs_colon)
    by (apply F; simpl; tauto).
  reflexivity.
Qed.

(** X21. [sanitizeInput] returns unchanged any input that holds none of
    NUL, the ampersand, the angle brackets, the quotes, the colon and the
    equals sign: plain prompts pass through as typed. *)
Theorem sanitizeInput_leaves_plain_text (input : string) :
  (forall c, In c (escaped_characters ++ [":"; "="]%char)%list ->
             contains c input = false) ->
  InputUtils.sanitizeInput input = input.
Proof.
  apply sanitizeInput_unchanged.
Qed.

Lemma sanitizeInput_leaves_plain_text_witness :
  InputUtils.sanitizeInput "a cute red panda" = "a cute red panda".
Proof.
  apply sanitizeInput_leaves_plain_text.
  intros c H. simpl in H.
  repeat (destruct H as [<- | H]; [reflexivity |]). contradiction.
Defined.

Section Blank.

Lemma all_spaces_forallb (s : string) :
  all_spaces s = forallb JsText.isSpace (list_ascii_of_string s).
Proof.
  induction s as [| c s IH]; cbn; [reflexivity | now rewrite IH].
Qed.

Lemma forallb_rev {A : Type} (p : A -> bool) (l : list A) :
  forallb p (List.rev l) = forallb p l.
Proof.
  induction l as [| x l IH]; cbn; [reflexivity |].
  rewrite forallb_app, IH. cbn. rewrite andb_true_r. apply andb_comm.
Qed.

Lemma all_spaces_reverse (s : string) :
  all_spaces (JsText.reverse s) = all_spaces s.
Proof.
  unfold JsText.reverse.
  now rewrite !all_spaces_forallb, list_ascii_of_string_of_list_ascii,
    forallb_rev.
Qed.

Lemma all_spaces_trimStart (s : string) :
  all_spaces (JsText.trimStart s) = all_spaces s.
Proof.
  induction s as [| c s IH]; cbn; [reflexivity |].
  destruct (JsText.isSpace c) eqn:E; cbn.
  - exact IH.
  - now rewrite E.
Qed.

Lemma trimStart_empty (s : string) :
  String.eqb (JsText.trimStart s) "" = all_spaces s.
Proof.
  induction s as [| c s IH]; cbn; [reflexivity |].
  destruct (JsText.isSpace c); cbn; [exact IH | reflexivity].
Qed.

Lemma reverse_empty (s : string) :
  String.eqb (JsText.reverse s) "" = String.eqb s "".
Proof.
  unfold JsText.reverse. destruct s as [| c s]; cbn; [reflexivity |].
  destruct (List.rev (list_ascii_of_string s)); reflexivity.
Qed.

Lemma trim_empty (s : string) :
  String.eqb (JsText.trim s) "" = all_spaces s.
Proof.
  unfold JsText.trim, JsText.trimEnd.
  now rewrite reverse_empty, trimStart_empty, all_spaces_reverse,
    all_spaces_trimStart.
Qed.

Lemma isValidPrompt_blank (s : string) :
  InputUtils.isValidPrompt s = negb (all_spaces s).
Proof.
  unfold InputUtils.isValidPrompt. rewrite <- trim_empty.
  now destruct (JsText.trim s).
Qed.

Lemma all_spaces_plain (s : string) (c : ascii) :
  JsText.isSpace c = false -> all_spaces s = true -> contains c s = false.
Proof.
  intros N. induction s as [| x s IH]; cbn; [reflexivity |].
  intros H. apply andb_true_iff in H. destruct H as [X S].
  rewrite (IH S), orb_false_r.
  destruct (Ascii.eqb_spec x c) as [-> | _]; [congruence | reflexivity].
Qed.

End Blank.

(** X22. [isValidPrompt] refuses exactly the prompts made of white space
    only, the empty prompt among them; and since [sanitizeInput] leaves
    such a prompt unchanged, a blank prompt is still refused after
    sanitizing. *)
Theorem isValidPrompt_refuses_blank_prompts (prompt : string) :
  InputUtils.isValidPrompt prompt = negb (all_spaces prompt)
  /\ (all_spaces prompt = true ->
      InputUtils.isValidPrompt (InputUtils.sanitizeInput prompt) = false).
Proof.
  split; [apply isValidPrompt_blank |].
  intros B. rewrite sanitizeInput_unchanged.
  - now rewrite isValidPrompt_blank, B.
  - intros c H. apply all_spaces_plain; [| exact B].
    simpl in H. repeat (destruct H as [<- | H]; [reflexivity |]).
    contradiction.
Qed.

Lemma isValidPrompt_refuses_blank_prompts_witness :
  InputUtils.isValidPrompt (InputUtils.sanitizeInput "   ") = false.
Proof.
  apply (proj2 (isValidPrompt_refuses_blank_prompts "   ")).
  reflexivity.
Defined.

Section Limit.

Lemma substring_length (n : nat) (s : string) :
  String.length (String.substring 0 n s) = Nat.min n (String.length s).
Proof.
  revert s. induction n as [| n IH]; intros [| c s]; simpl; try reflexivity.
  now rewrite IH.
Qed.

Lemma substring_contains (x : ascii) (n : nat) (s : string) :
  contains x s = false -> contains x (String.substring 0 n s) = false.
Proof.
  revert s. induction n as [| n IH]; intros [| c s]; simpl; try reflexivity.
  intros H. apply orb_false_iff in H. destruct H as [H1 H2].
  rewrite H1. simpl. now apply IH.
Qed.

Lemma enforceCharacterLimit_contains (x : ascii) (s : string) (limit : Z) :
  contains x s = false ->
  contains x (InputUtils.enforceCharacterLimit s limit) = false.
Proof.
  intros H. unfold InputUtils.enforceCharacterLimit, JsText.slice0.
  destruct (Z.of_nat (String.length s) <=? limit); [exact H |].
  now apply substring_contains.
Qed.

Lemma enforceCharacterLimit_size (s : string) (limit : Z) :
  Z.of_nat (String.length (InputUtils.enforceCharacterLimit s limit))
  = if Z.of_nat (String.length s) <=? limit then Z.of_nat (String.length s)
    else if limit <? 0 then Z.max (Z.of_nat (String.length s) + limit) 0
    else limit.
Proof.
  unfold InputUtils.enforceCharacterLimit, JsText.slice0.
  destruct (Z.of_nat (String.length s) <=? limit) eqn:L; [reflexivity |].
  apply Z.leb_gt in L. rewrite substring_length.
  destruct (limit <? 0) eqn:N.
  - apply Z.ltb_lt in N. lia.
  - apply Z.ltb_ge in N. lia.
Qed.

End Limit.

(** X23. The length of what [enforceCharacterLimit] returns, for every
    limit: an input within the limit is returned whole; a longer one is cut
    to [limit] characters when the limit is not negative, and for a negative
    limit it loses its last [-limit] characters instead, so that the result
    can be longer than the limit. For a limit that is not negative the
    result never exceeds it. *)
Theorem enforceCharacterLimit_length (input : string) (limit : Z) :
  Z.of_nat (String.length (InputUtils.enforceCharacterLimit input limit))
  = (if Z.of_nat (String.length input) <=? limit
     then Z.of_nat (String.length input)
     else if limit <? 0
          then Z.max (Z.of_nat (String.length input) + limit) 0
          else limit)
  /\ (0 <= limit ->
      Z.of_nat (String.length (InputUtils.enforceCharacterLimit input limit))
      <= limit).
Proof.
  split; [apply enforceCharacterLimit_size |].
  intros H. rewrite enforceCharacterLimit_size.
  destruct (Z.of_nat (String.length input) <=? limit) eqn:L.
  - now apply Z.leb_le in L.
  - destruct (limit <? 0) eqn:N; [apply Z.ltb_lt in N |]; lia.
Qed.

Lemma enforceCharacterLimit_length_witness :
  Z.of_nat (String.length (InputUtils.enforceCharacterLimit "isometric" 4))
  <= 4.
Proof.
  apply (proj2 (enforceCharacterLimit_length "isometric" 4)). lia.
Defined.

(** X24. What [processPromptInput] returns is consistent: the text is at
    most [MAX_PROMPT_LENGTH] characters long, the remaining count is exactly
    what the text leaves of the limit and is never negative, the text holds
    no NUL, angle bracket or quote, and it is valid exactly when it is not
    blank. *)
Theorem processPromptInput_is_consistent (input : string) :
  Z.of_nat (String.length
              (InputUtils.sanitized (InputUtils.processPromptInput input)))
  <= InputUtils.MAX_PROMPT_LENGTH
  /\ InputUtils.remaining (InputUtils.processPromptInput input)
     = InputUtils.MAX_PROMPT_LENGTH
       - Z.of_nat (String.length
                     (InputUtils.sanitized
                        (InputUtils.processPromptInput input)))
  /\ 0 <= InputUtils.remaining (InputUtils.processPromptInput input)
  /\ (forall c, In c ["000"; "<"; ">"; "034"; "'"]%char ->
        contains c
          (InputUtils.sanitized (InputUtils.processPromptInput input))
        = false)
  /\ InputUtils.isValid (InputUtils.processPromptInput input)
     = negb (all_spaces
               (InputUtils.sanitized (InputUtils.processPromptInput input))).
Proof.
  unfold InputUtils.processPromptInput.
  cbn [InputUtils.sanitized InputUtils.remaining InputUtils.isValid].
  assert (L : Z.of_nat
                (String.length
                   (InputUtils.enforceCharacterLimit
                      (InputUtils.sanitizeInput input)
                      InputUtils.MAX_PROMPT_LENGTH))
              <= InputUtils.MAX_PROMPT_LENGTH).
  { rewrite enforceCharacterLimit_size.
    destruct (Z.of_nat (String.length (InputUtils.sanitizeInput input))
              <=? InputUtils.MAX_PROMPT_LENGTH) eqn:E.
    - now apply Z.leb_le in E.
    - reflexivity. }
  unfold InputUtils.calculateRemaining.
  split; [exact L |]. split; [lia |]. split; [lia |]. split.
  - intros c H. apply enforceCharacterLimit_contains.
    now apply sanitizeInput_no_markup.
  - apply isValidPrompt_blank.
Qed.

(** X25. The removals of [sanitizeInput] are single passes: text that forms
    a removed pattern only once a match inside it is gone stays in the
    output. Whatever plain text follows, the input
    [javajavascript:script:] comes out as [javascript:]. *)
Theorem sanitizeInput_removes_in_one_pass (rest : string) :
  (forall c, In c (escaped_characters ++ [":"; "="]%char)%list ->
             contains c rest = false) ->
  InputUtils.sanitizeInput ("javajavascript:script:" ++ rest)
  = "javascript:" ++ rest.
Proof.
  intros F. unfold InputUtils.sanitizeInput.
  simpl.
  rewrite (replaceChar_absent "000" _ rest) by (apply F; simpl; tauto).
  rewrite (replaceChar_absent "&" _ rest) by (apply F; simpl; tauto).
  rewrite (replaceChar_absent "<" _ rest) by (apply F; simpl; tauto).
  rewrite (replaceChar_absent ">" _ rest) by (apply F; simpl; tauto).
  rewrite (replaceChar_absent "034" _ rest) by (apply F; simpl; tauto).
  rewrite (replaceChar_absent "'" _ rest) by (apply F; simpl; tauto).
  simpl.
  rewrite (removeAll_no_match ":" _ _ javascriptUrl_needs_colon)
    by (apply F; simpl; tauto).
  rewrite (removeAll_no_match "=" _ _ eventHandler_needs_equals)
    by (apply F; simpl; tauto).
  rewrite (removeAll_no_match ":" _ _ dataHtmlUrl_needs_colon)
    by (apply F; simpl; tauto).
  reflexivity.
Qed.

Lemma sanitizeInput_removes_in_one_pass_witness :
  InputUtils.sanitizeInput "javajavascript:script:alert(1)"
  = "javascript:alert(1)".
Proof.
  apply (sanitizeInput_removes_in_one_pass "alert(1)").
  intros c H. simpl in H.
  repeat (destruct H as [<- | H]; [reflexivity |]). contradiction.
Defined.

(** * Properties of the route *)

Section RouteRuns.

Variable JSON_parse : string -> option JsonErrorBody.
Variable request : Route.NextRequest.
Variable nowAtCheck nowAtRecord : Z.
Variable s : Route.Server.

Local Abbreviation manager := (ProviderManager.createProviderManager JSON_parse).
Local Abbreviation check := (route_check request nowAtCheck s).
Local Abbreviation answered :=
  (runState (Route.POST JSON_parse request nowAtCheck nowAtRecord) s).

(** The three ways a request is answered: refused by the limiter, refused
    by validation, or handed to the manager. *)
Lemma POST_cases :
  (ServerRateLimiter.allowed (fst check) = false
   /\ answered
      = (refusal (fst check),
         {| Route.limiter := snd check; Route.world := Route.world s |}))
  \/ (ServerRateLimiter.allowed (fst check) = true
      /\ accepted request = None
      /\ exists msg,
           answered
           = (Route.plainError 400 "VALIDATION_ERROR" msg,
              {| Route.limiter := snd check;
                 Route.world := Route.world s |}))
  \/ (exists prompt st,
        ServerRateLimiter.allowed (fst check) = true
        /\ accepted request = Some (prompt, st)
        /\ answered
           = if (g_success
                   (manager_result manager prompt (route_options st)
                      (Route.world s))
                 && Js.truthy
                      (g_image
                         (manager_result manager prompt (route_options st)
                            (Route.world s))))%bool
             then
               (success_answer
                  (manager_result manager prompt (route_options st)
                     (Route.world s)),
                {| Route.limiter :=
                     snd (runState
                            (ServerRateLimiter.recordRequest nowAtRecord
                               (Route.clientIp request))
                            (snd check));
                   Route.world :=
                     manager_world manager prompt (route_options st)
                       (Route.world s) |})
             else
               (failure_answer
                  (manager_result manager prompt (route_options st)
                     (Route.world s)),
                {| Route.limiter := snd check;
                   Route.world :=
                     manager_world manager prompt (route_options st)
                       (Route.world s) |})).
Proof.
  unfold Route.POST, route_check, accepted, Route.onLimiter,
    Route.callManager, manager_result, manager_world, manager_run,
    refusal, success_answer, failure_answer.
  generalize (ServerRateLimiter.canMakeRequest nowAtCheck
                (Route.clientIp request)) as checking.
  generalize (ServerRateLimiter.recordRequest nowAtRecord
                (Route.clientIp request)) as recording.
  intros recording checking.
  cbn -[ProviderManager.generate InputUtils.sanitizeInput
        InputUtils.isValidPrompt formatTime Route.errorCodeToHttpStatus
        Route.mapProviderError String.append].
  destruct (runState checking (Route.limiter s)) as [c l1].
  cbn -[ProviderManager.generate InputUtils.sanitizeInput
        InputUtils.isValidPrompt formatTime Route.errorCodeToHttpStatus
        Route.mapProviderError String.append].
  destruct (ServerRateLimiter.allowed c);
    cbn -[ProviderManager.generate InputUtils.sanitizeInput
          InputUtils.isValidPrompt formatTime Route.errorCodeToHttpStatus
          Route.mapProviderError String.append];
    [| left; split; reflexivity].
  right.
  destruct (Route.request_json request) as [body |];
    [| left; repeat split; eexists; reflexivity].
  destruct (Route.falsy body || negb (Route.typeofObject body))%bool;
    [left; repeat split; eexists; reflexivity |].
  destruct (Route.member "prompt" body) as [[| | | prompt | |] |];
    try (left; repeat split; eexists; reflexivity).
  destruct (InputUtils.isValidPrompt (InputUtils.sanitizeInput prompt));
    cbn -[ProviderManager.generate InputUtils.sanitizeInput
          InputUtils.isValidPrompt formatTime Route.errorCodeToHttpStatus
          Route.mapProviderError String.append];
    [| left; repeat split; eexists; reflexivity].
  destruct (Route.isValidStyle (Route.member "style" body)) as [st |];
    [| left; repeat split; eexists; reflexivity].
  right. exists (InputUtils.sanitizeInput prompt), st.
  split; [reflexivity |]. split; [reflexivity |].
  cbn -[ProviderManager.generate InputUtils.sanitizeInput
        InputUtils.isValidPrompt formatTime Route.errorCodeToHttpStatus
        Route.mapProviderError String.append].
  fold (route_options st).
  destruct (runState
              (ProviderManager.generate manager
                 (InputUtils.sanitizeInput prompt) (route_options st))
              (Route.world s, [])) as [result [w' log]].
  cbn -[Route.errorCodeToHttpStatus Route.mapProviderError].
  destruct (g_success result && Js.truthy (g_image result))%bool;
    cbn -[Route.errorCodeToHttpStatus Route.mapProviderError].
  - destruct (runState recording l1) as [u l2]. reflexivity.
  - destruct (g_error result); reflexivity.
Qed.

End RouteRuns.

Lemma errorCodeToHttpStatus_range (c : string) :
  In (Route.errorCodeToHttpStatus c) [400; 401; 402; 408; 429; 500; 503].
Proof.
  unfold Route.errorCodeToHttpStatus.
  repeat match goal with
         | |- context [if ?b then _ else _] => destruct b
         end; simpl; tauto.
Qed.

Lemma failure_answer_is_failure (result : GenerationResult) :
  Route.r_success (Route.payload (failure_answer result)) = false
  /\ 400 <= Route.http_status (failure_answer result)
  /\ exists e, Route.r_error (Route.payload (failure_answer result)) = Some e.
Proof.
  unfold failure_answer. destruct (g_error result) as [error |]; cbn.
  - repeat split; [| eexists; reflexivity].
    pose proof (errorCodeToHttpStatus_range
                  (Route.e_code (Route.mapProviderError error))) as H.
    simpl in H. lia.
  - repeat split; [lia | eexists; reflexivity].
Qed.

Lemma accepted_is_sanitized (request : Route.NextRequest)
    (prompt : string) (st : StylePreset) :
  accepted request = Some (prompt, st) ->
  exists body raw,
    Route.request_json request = Some body
    /\ Route.member "prompt" body = Some (Route.JString raw)
    /\ Route.isValidStyle (Route.member "style" body) = Some st
    /\ prompt = InputUtils.sanitizeInput raw
    /\ all_spaces raw = false.
Proof.
  unfold accepted.
  destruct (Route.request_json request) as [body |]; [| discriminate].
  destruct (Route.falsy body || negb (Route.typeofObject body))%bool;
    [discriminate |].
  destruct (Route.member "prompt" body) as [[| | | raw | |] |] eqn:P;
    try discriminate.
  destruct (InputUtils.isValidPrompt (InputUtils.sanitizeInput raw)) eqn:V;
    [| discriminate].
  destruct (Route.isValidStyle (Route.member "style" body)) as [st' |] eqn:Y;
    [| discriminate].
  intros [= <- <-]. exists body, raw.
  split; [reflexivity |]. split; [exact P |]. split; [exact Y |].
  split; [reflexivity |].
  destruct (all_spaces raw) eqn:B; [| reflexivity].
  rewrite sanitizeInput_unchanged in V.
  - rewrite isValidPrompt_blank, B in V. discriminate.
  - intros c H. apply all_spaces_plain; [| exact B].
    simpl in H. repeat (destruct H as [<- | H]; [reflexivity |]).
    contradiction.
Qed.

Section RouteFacts.

Variable JSON_parse : string -> option JsonErrorBody.

Local Abbreviation manager := (ProviderManager.createProviderManager JSON_parse).


(** An error of the primary adapter that does not ask for fallback. *)
Lemma HuggingFace_final_codes
    (prompt : string) (options : GenerationOptions) (w : World)
    (e : ProviderError) :
  error (fst (runState (HuggingFaceProvider.generate JSON_parse prompt options)
                w)) = Some e ->
  shouldFallback e = false ->
  In (code e) [SERVER_ERROR; UNAUTHORIZED; VALIDATION_ERROR; UNKNOWN; TIMEOUT].
Proof.
  unfold HuggingFaceProvider.generate, HuggingFaceProvider.fetchWithTimeout.
  cbn.
  destruct (getHuggingFaceApiKey (env w)); cbn;
    [intros [= <-] _; simpl; tauto |].
  destruct (network w _ _) as [err | response]; cbn.
  - destruct (isAbortError err); cbn; intros [= <-]; discriminate.
  - destruct (ok response); cbn.
    + destruct (blob response); cbn; [discriminate |].
      intros [= <-]. discriminate.
    + intros [= <-]. cbn [shouldFallback code createProviderError].
      intros F.
      destruct (Z.eq_dec (status response) 408) as [-> | N];
        [simpl; tauto |].
      apply verdicts_agree_off_408 in N.
      rewrite F in N.
      destruct (httpStatusToErrorCode (status response));
        simpl in *; try discriminate; tauto.
Qed.


Lemma default_manager_single_error
    (prompt : string) (options : GenerationOptions) (w : World)
    (e : ProviderError) :
  g_error (manager_result manager prompt options w) = Some (Single e) ->
  In (code e) [SERVER_ERROR; UNAUTHORIZED; VALIDATION_ERROR; UNKNOWN; TIMEOUT].
Proof.
  unfold manager_result.
  destruct (manager_run_cases World manager prompt options w)
    as [[S ->] | [[S [R ->]] | [[R [S ->]] | [e' [R [E [S ->]]]]]]];
    cbn [fst g_error]; try discriminate.
  destruct (error (fst (primary_run manager prompt options w)))
    as [e' |] eqn:E; cbn [option_map]; [| discriminate].
  intros [= ->].
  apply (HuggingFace_final_codes prompt options w e E).
  now apply (recoverable_failure_error World manager prompt options w R).
Qed.

Lemma failure_answer_status
    (prompt : string) (options : GenerationOptions) (w : World) :
  In (Route.http_status
        (failure_answer (manager_result manager prompt options w)))
     [400; 401; 408; 500; 503].
Proof.
  unfold failure_answer.
  destruct (g_error (manager_result manager prompt options w))
    as [[e | d] |] eqn:G.
  - apply default_manager_single_error in G. cbn.
    simpl in G.
    repeat (destruct G as [<- | G]; [cbn; tauto |]). contradiction.
  - cbn. tauto.
  - cbn. tauto.
Qed.



End RouteFacts.

(** X26. The route answers 200 exactly when its body says success, and a
    request is counted against the quota exactly then: on success the
    limiter is the one left by the check with one request recorded for the
    client's address, and the body carries a non-empty image and no error;
    on failure the limiter is the one left by the check, the status is at
    least 400 and the body carries an error. *)
Theorem only_successes_are_counted
    (JSON_parse : string -> option JsonErrorBody)
    (request : Route.NextRequest) (nowAtCheck nowAtRecord : Z)
    (s : Route.Server) :
  (Route.http_status
     (fst (runState (Route.POST JSON_parse request nowAtCheck nowAtRecord) s))
   = 200
   <-> Route.r_success
         (Route.payload
            (fst (runState
                    (Route.POST JSON_parse request nowAtCheck nowAtRecord) s)))
       = true)
  /\ (Route.r_success
        (Route.payload
           (fst (runState
                   (Route.POST JSON_parse request nowAtCheck nowAtRecord) s)))
      = true ->
      Route.limiter
        (snd (runState (Route.POST JSON_parse request nowAtCheck nowAtRecord)
                s))
      = snd (runState
               (ServerRateLimiter.recordRequest nowAtRecord
                  (Route.clientIp request))
               (snd (route_check request nowAtCheck s)))
      /\ Js.truthy
           (Route.r_image
              (Route.payload
                 (fst (runState
                         (Route.POST JSON_parse request nowAtCheck nowAtRecord)
                         s))))
         = true
      /\ Route.r_error
           (Route.payload
              (fst (runState
                      (Route.POST JSON_parse request nowAtCheck nowAtRecord)
                      s)))
         = None)
  /\ (Route.r_success
        (Route.payload
           (fst (runState
                   (Route.POST JSON_parse request nowAtCheck nowAtRecord) s)))
      = false ->
      Route.limiter
        (snd (runState (Route.POST JSON_parse request nowAtCheck nowAtRecord)
                s))
      = snd (route_check request nowAtCheck s)
      /\ 400 <= Route.http_status
                  (fst (runState
                          (Route.POST JSON_parse request nowAtCheck
                             nowAtRecord) s))
      /\ exists e,
           Route.r_error
             (Route.payload
                (fst (runState
                        (Route.POST JSON_parse request nowAtCheck nowAtRecord)
                        s)))
           = Some e).
Proof.
  destruct (POST_cases JSON_parse request nowAtCheck nowAtRecord s)
    as [[A ->] | [[A [V [msg ->]]] | [prompt [st [A [V ->]]]]]].
  - cbn. repeat split; try discriminate. eexists. reflexivity.
  - cbn. repeat split; try discriminate; try lia. eexists. reflexivity.
  - destruct (g_success _ && Js.truthy _)%bool eqn:G.
    + apply andb_true_iff in G. destruct G as [_ G].
      cbn. repeat split; try discriminate. exact G.
    + destruct (failure_answer_is_failure
                  (manager_result
                     (ProviderManager.createProviderManager JSON_parse)
                     prompt (route_options st) (Route.world s)))
        as [F [L E]].
      cbn [fst snd Route.limiter]. rewrite F.
      repeat split; try discriminate; try assumption.
      intros H. lia.
Qed.

Lemma only_successes_are_counted_witness :
  Route.http_status
    (fst (runState (Route.POST no_json cat_request 1000 2000)
            (fresh_server (two_backends (inr png_response)
                             (inr (json_response sample_image_response))))))
  = 200.
Proof.
  apply (proj1 (only_successes_are_counted no_json cat_request 1000 2000
                  (fresh_server
                     (two_backends (inr png_response)
                        (inr (json_response sample_image_response)))))).
  reflexivity.
Defined.

(** X27. The route sends a backend nothing but the sanitized prompt. One
    call leaves the environment and the network as they were and issues at
    most two backend requests; it issues any only if the limiter allowed
    the client and the body is an object whose prompt is a string that is
    not blank and whose style is a preset, and then every request carries
    [buildPrompt] of the sanitized prompt in that style. *)
Theorem route_sends_only_the_sanitized_prompt
    (JSON_parse : string -> option JsonErrorBody)
    (request : Route.NextRequest) (nowAtCheck nowAtRecord : Z)
    (s : Route.Server) :
  exists reqs,
    issued (Route.world s)
      (Route.world
         (snd (runState (Route.POST JSON_parse request nowAtCheck nowAtRecord)
                 s)))
      reqs
    /\ (List.length reqs <= 2)%nat
    /\ (reqs <> [] ->
        allowed (fst (route_check request nowAtCheck s)) = true
        /\ exists body raw st,
             Route.request_json request = Some body
             /\ Route.member "prompt" body = Some (Route.JString raw)
             /\ Route.isValidStyle (Route.member "style" body) = Some st
             /\ all_spaces raw = false
             /\ Forall
                  (fun req =>
                     request_prompt req
                     = buildPrompt (InputUtils.sanitizeInput raw) st)
                  reqs).
Proof.
  destruct (POST_cases JSON_parse request nowAtCheck nowAtRecord s)
    as [[A ->] | [[A [V [msg ->]]] | [prompt [st [A [V ->]]]]]].
  - exists []. split; [apply issued_nothing |].
    split; [simpl; lia | intros N; now contradiction N].
  - exists []. split; [apply issued_nothing |].
    split; [simpl; lia | intros N; now contradiction N].
  - destruct (default_manager_requests JSON_parse prompt (route_options st)
                (Route.world s)) as [reqs [I [L P]]].
    exists reqs.
    destruct (accepted_is_sanitized request prompt st V)
      as [body [raw [J [M [Y [S B]]]]]].
    assert (R : reqs <> [] ->
                allowed (fst (route_check request nowAtCheck s)) = true
                /\ exists body raw st,
                     Route.request_json request = Some body
                     /\ Route.member "prompt" body = Some (Route.JString raw)
                     /\ Route.isValidStyle (Route.member "style" body)
                        = Some st
                     /\ all_spaces raw = false
                     /\ Forall
                          (fun req =>
                             request_prompt req
                             = buildPrompt (InputUtils.sanitizeInput raw) st)
                          reqs).
    { intros _. split; [exact A |].
      exists body, raw, st. subst prompt. repeat split; assumption. }
    destruct (g_success _ && Js.truthy _)%bool; cbn [snd Route.world];
      (split; [exact I |]; split; [exact L | exact R]).
Qed.

(** X28. The route answers 429 exactly when its own limiter refuses the
    client; a rate limit of a backend never surfaces as 429. A refused
    request changes nothing in the world and records nothing, and its
    answer carries the limiter's reason as message and a wait of at least
    one second. *)
Theorem status_429_comes_from_the_limiter
    (JSON_parse : string -> option JsonErrorBody)
    (request : Route.NextRequest) (nowAtCheck nowAtRecord : Z)
    (s : Route.Server) :
  (Route.http_status
     (fst (runState (Route.POST JSON_parse request nowAtCheck nowAtRecord) s))
   = 429
   <-> allowed (fst (route_check request nowAtCheck s)) = false)
  /\ (allowed (fst (route_check request nowAtCheck s)) = false ->
      snd (runState (Route.POST JSON_parse request nowAtCheck nowAtRecord) s)
      = {| Route.limiter := snd (route_check request nowAtCheck s);
           Route.world := Route.world s |}
      /\ exists r n,
           reason (fst (route_check request nowAtCheck s)) = Some r
           /\ 1 <= n
           /\ Route.r_error
                (Route.payload
                   (fst (runState
                           (Route.POST JSON_parse request nowAtCheck
                              nowAtRecord) s)))
              = Some {| Route.e_code := "RATE_LIMIT";
                        Route.e_message := r;
                        Route.e_retryAfter := Some n;
                        Route.e_primaryError := None;
                        Route.e_fallbackError := None |}).
Proof.
  destruct (POST_cases JSON_parse request nowAtCheck nowAtRecord s)
    as [[A ->] | [[A [V [msg ->]]] | [prompt [st [A [V ->]]]]]].
  - split; [split; [intros _; exact A | reflexivity] |].
    intros _. split; [reflexivity |].
    destruct (refused_check nowAtCheck (Route.clientIp request)
                (Route.limiter s) A) as [r [n [R [N [T L]]]]].
    exists r, n. split; [exact R |]. split; [exact L |].
    unfold refusal. cbn [fst Route.payload Route.r_error].
    unfold route_check. rewrite R, T. cbn [Js.or_else].
    destruct r; [contradiction | reflexivity].
  - rewrite A. cbn. repeat split; discriminate.
  - rewrite A. split; [| discriminate].
    split; [| discriminate].
    destruct (g_success _ && Js.truthy _)%bool; [discriminate |].
    cbn [fst]. intros H.
    pose proof (failure_answer_status JSON_parse prompt (route_options st)
                  (Route.world s)) as F.
    rewrite H in F. simpl in F.
    repeat (destruct F as [F | F]; [discriminate |]). contradiction.
Qed.

Lemma status_429_comes_from_the_limiter_witness :
  Route.http_status
    (fst (runState (Route.POST no_json cat_request 1000 2000)
            {| Route.limiter := used_up_limiter;
               Route.world := unconfigured_world |}))
  = 429.
Proof.
  apply (proj2 (proj1 (status_429_comes_from_the_limiter
                         no_json cat_request 1000 2000
                         {| Route.limiter := used_up_limiter;
                            Route.world := unconfigured_world |}))).
  reflexivity.
Defined.

(** X29. The route answers with one of seven statuses: 200, 400, 401, 408,
    429, 500 or 503. With the two adapters it uses, the 402 that
    [errorCodeToHttpStatus] has for PAYMENT_REQUIRED is never answered. *)
Theorem route_answers_with_seven_statuses
    (JSON_parse : string -> option JsonErrorBody)
    (request : Route.NextRequest) (nowAtCheck nowAtRecord : Z)
    (s : Route.Server) :
  In (Route.http_status
        (fst (runState (Route.POST JSON_parse request nowAtCheck nowAtRecord)
                s)))
     [200; 400; 401; 408; 429; 500; 503].
Proof.
  destruct (POST_cases JSON_parse request nowAtCheck nowAtRecord s)
    as [[A ->] | [[A [V [msg ->]]] | [prompt [st [A [V ->]]]]]].
  - simpl. tauto.
  - simpl. tauto.
  - destruct (g_success _ && Js.truthy _)%bool; [simpl; tauto |].
    cbn [fst].
    pose proof (failure_answer_status JSON_parse prompt (route_options st)
                  (Route.world s)) as F.
    simpl in F. simpl.
    repeat (destruct F as [F | F]; [rewrite <- F; tauto |]). contradiction.
Qed.
